(** * school-llm backend: the retrieval pipeline, embedded in Rocq

    A shallow embedding of the Python modules [pdf_handler.py],
    [ai/ollama_client.py], [vector_db.py] and [ai/qa.py], followed by the
    properties of the chunk splitter, the streaming chat client, the vector
    index and the answerer.

    Conventions.  Python [int] is [Z]; [str] is a list of code points; a
    call that may raise returns a [result]; a [while] loop takes fuel and
    returns [None] when the fuel runs out before the loop exits. *)

From Stdlib Require Import ZArith List String Ascii Lia Bool Decimal.
From Stdlib Require Import Floats.PrimFloat.
From Stdlib Require Import DecimalZ.
From stdpp Require Import base option list gmap.

Local Open Scope Z_scope.

(** * Python values and built-ins *)

Module Py.

(** A [str] is a sequence of Unicode code points. *)
Definition char := N.
Definition str := list char.
Definition bytes := list Byte.byte.

Definition lit (s : string) : str := map N_of_ascii (list_ascii_of_string s).
Definition blit (s : string) : bytes := list_byte_of_string s.

(** ["\n"] *)
Definition newline : str := [10%N].

Definition len {A} (l : list A) : Z := Z.of_nat (length l).

(** Exception classes that the modelled code can meet, with the part of
    the class hierarchy that its [except] clauses look at. *)
Inductive exn_class :=
| ExceptionC
| RequestExceptionC
| ConnectionErrorC
| TimeoutC
| ConnectTimeoutC
| ReadTimeoutC
| HTTPErrorC
| JSONDecodeErrorC
| AttributeErrorC
| TypeErrorC
| IndexErrorC
| ValueErrorC.

Definition exn_class_eqb (a b : exn_class) : bool :=
  match a, b with
  | ExceptionC, ExceptionC | RequestExceptionC, RequestExceptionC
  | ConnectionErrorC, ConnectionErrorC | TimeoutC, TimeoutC
  | ConnectTimeoutC, ConnectTimeoutC | ReadTimeoutC, ReadTimeoutC
  | HTTPErrorC, HTTPErrorC | JSONDecodeErrorC, JSONDecodeErrorC
  | AttributeErrorC, AttributeErrorC | TypeErrorC, TypeErrorC
  | IndexErrorC, IndexErrorC | ValueErrorC, ValueErrorC => true
  | _, _ => false
  end.

(** Direct base classes.  [ConnectTimeout] derives from both
    [ConnectionError] and [Timeout]. *)
Definition bases (c : exn_class) : list exn_class :=
  match c with
  | ExceptionC => []
  | RequestExceptionC => [ExceptionC]
  | ConnectionErrorC | TimeoutC | HTTPErrorC => [RequestExceptionC]
  | ConnectTimeoutC => [ConnectionErrorC; TimeoutC]
  | ReadTimeoutC => [TimeoutC]
  | JSONDecodeErrorC => [ValueErrorC]
  | AttributeErrorC | TypeErrorC | IndexErrorC | ValueErrorC => [ExceptionC]
  end.

Fixpoint issubclass_fuel (n : nat) (c d : exn_class) : bool :=
  exn_class_eqb c d ||
  match n with
  | O => false
  | S n' => existsb (fun b => issubclass_fuel n' b d) (bases c)
  end.

Definition issubclass := issubclass_fuel 4.

Record exn := Exn { exn_cls : exn_class; exn_msg : str }.

Definition isinstance (e : exn) (c : exn_class) : bool :=
  issubclass (exn_cls e) c.

(** [str(e)] *)
Definition str_of_exn (e : exn) : str := exn_msg e.

Inductive result (A : Type) :=
| Ok (a : A)
| Raise (e : exn).
Arguments Ok {A} a.
Arguments Raise {A} e.

Definition bind {A B} (r : result A) (k : A -> result B) : result B :=
  match r with
  | Ok a => k a
  | Raise e => Raise e
  end.

(** [try: body  except Exception as e: handler(e)] *)
Definition try_except {A} (body : result A) (handler : exn -> result A)
  : result A :=
  match body with
  | Ok a => Ok a
  | Raise e => if isinstance e ExceptionC then handler e else Raise e
  end.

(** Whitespace as [str.strip()] and [str.isspace()] see it. *)
Definition isspace (c : char) : bool :=
  ((9 <=? c) && (c <=? 13) || (28 <=? c) && (c <=? 32)
   || (c =? 133) || (c =? 160) || (c =? 5760)
   || (8192 <=? c) && (c <=? 8202)
   || (c =? 8232) || (c =? 8233) || (c =? 8239) || (c =? 8287)
   || (c =? 12288))%N.

Fixpoint lstrip (s : str) : str :=
  match s with
  | [] => []
  | c :: s' => if isspace c then lstrip s' else s
  end.

Definition rstrip (s : str) : str := rev (lstrip (rev s)).

Definition strip (s : str) : str := rstrip (lstrip s).

(** Truth value of a sequence: non-empty. *)
Definition nonempty {A} (l : list A) : bool :=
  match l with [] => false | _ => true end.

(** Index normalisation of a slice bound (step 1). *)
Definition adjust (n i : Z) : Z :=
  if i <? 0 then Z.max 0 (i + n) else Z.min i n.

(** [l[i:j]] *)
Definition slice {A} (l : list A) (i j : Z) : list A :=
  let a := adjust (len l) i in
  let b := adjust (len l) j in
  take (Z.to_nat (b - a)) (drop (Z.to_nat a) l).

(** [l[:j]] and [l[i:]] *)
Definition slice_to {A} (l : list A) (j : Z) : list A := slice l 0 j.
Definition slice_from {A} (l : list A) (i : Z) : list A := slice l i (len l).

(** [s[i]]: negative indices count from the end; out of range raises. *)
Definition index (s : str) (i : Z) : result char :=
  let j := if i <? 0 then i + len s else i in
  if (0 <=? j) && (j <? len s) then
    match s !! Z.to_nat j with
    | Some c => Ok c
    | None => Raise (Exn IndexErrorC (lit "string index out of range"))
    end
  else Raise (Exn IndexErrorC (lit "string index out of range")).

(** [range(a, b, -1)]: a, a-1, ..., b+1. *)
Definition range_down (a b : Z) : list Z :=
  map (fun k => a - Z.of_nat k) (seq 0 (Z.to_nat (a - b))).

(** [range(n)] *)
Definition range (n : Z) : list Z :=
  map Z.of_nat (seq 0 (Z.to_nat n)).

(** [c in t] for a character and a string of candidates. *)
Definition char_in (c : char) (t : str) : bool :=
  existsb (N.eqb c) t.

(** [s.split(sep)] for a one-character separator. *)
Fixpoint split (sep : char) (s : str) : list str :=
  match s with
  | [] => [[]]
  | c :: s' =>
      if N.eqb c sep then [] :: split sep s'
      else match split sep s' with
           | [] => [[c]]
           | w :: ws => (c :: w) :: ws
           end
  end.

(** [sep.join(l)] for a list of strings. *)
Fixpoint join (sep : str) (l : list str) : str :=
  match l with
  | [] => []
  | [s] => s
  | s :: l' => s ++ sep ++ join sep l'
  end.

(** [s.rstrip(chars)] *)
Definition rstrip_chars (chars : str) (s : str) : str :=
  let fix go (r : str) : str :=
    match r with
    | [] => []
    | c :: r' => if existsb (N.eqb c) chars then go r' else r
    end in
  rev (go (rev s)).

(** Decimal rendering of an [int], as in an f-string. *)
Fixpoint digits (d : Decimal.uint) : str :=
  match d with
  | Nil => []
  | D0 d' => 48%N :: digits d'
  | D1 d' => 49%N :: digits d'
  | D2 d' => 50%N :: digits d'
  | D3 d' => 51%N :: digits d'
  | D4 d' => 52%N :: digits d'
  | D5 d' => 53%N :: digits d'
  | D6 d' => 54%N :: digits d'
  | D7 d' => 55%N :: digits d'
  | D8 d' => 56%N :: digits d'
  | D9 d' => 57%N :: digits d'
  end.

Definition str_of_int (z : Z) : str :=
  match Z.to_int z with
  | Decimal.Pos d => digits d
  | Decimal.Neg d => 45%N :: digits d
  end.

(** [s.startswith(prefix)] *)
Fixpoint startswith (s prefix : str) : bool :=
  match prefix, s with
  | [], _ => true
  | p :: prefix', c :: s' => N.eqb c p && startswith s' prefix'
  | _ :: _, [] => false
  end.

(** [s.replace(old, new, 1)]: the leftmost occurrence of [old]. *)
Fixpoint replace_first (old new s : str) : str :=
  if startswith s old then new ++ drop (length old) s
  else match s with
       | [] => []
       | c :: s' => c :: replace_first old new s'
       end.

End Py.

Import Py.

(** [result] is used through stdpp's monad notation [x ← c; k]. *)
#[global] Instance result_ret : MRet result := fun _ a => Ok a.
#[global] Instance result_bind : MBind result := fun _ _ k r => Py.bind r k.

(** * pdf_handler.py *)

Module PDFHandler.

(** [self.chunk_size], [self.chunk_overlap] *)
Record t := Build { chunk_size : Z; chunk_overlap : Z }.

(** [PDFHandler()] with the constructor's default arguments. *)
Definition default : t := {| chunk_size := 1000; chunk_overlap := 200 |}.

(** The dictionary appended for every chunk. *)
Record chunk := Chunk {
  chunk_id : Z;
  text : str;
  start_pos : Z;
  end_pos : Z;
  chunk_len : Z  (* key "length" *)
}.

(** ['.!?\n'] *)
Definition sentence_ends : str := [46; 33; 63; 10]%N.

(** The inner [for i in range(end, max(start, end - 100), -1)] loop with
    its [break]; the value is [end] after the loop. *)
Fixpoint find_break (text : str) (ixs : list Z) (end_ : Z) : result Z :=
  match ixs with
  | [] => Ok end_
  | i :: ixs' =>
      c ← index text i;
      if char_in c sentence_ends then Ok (i + 1)
      else find_break text ixs' end_
  end.

(** Lines 117-126: the end position of the window that starts at [start]. *)
Definition window_end (self : t) (text : str) (start : Z) : result Z :=
  let end_ := start + chunk_size self in
  if end_ <? len text then
    find_break text (range_down end_ (Z.max start (end_ - 100))) end_
  else Ok end_.

(** The [while start < len(text)] loop. *)
Fixpoint chunk_loop (fuel : nat) (self : t) (text_ : str)
    (start cid : Z) (chunks : list chunk) : option (result (list chunk)) :=
  match fuel with
  | O => None
  | S fuel' =>
      if start <? len text_ then
        match window_end self text_ start with
        | Raise e => Some (Raise e)
        | Ok end_ =>
            let chunk_text := strip (slice text_ start end_) in
            if nonempty chunk_text then
              chunk_loop fuel' self text_ (end_ - chunk_overlap self)
                (cid + 1)
                (chunks ++ [Chunk cid chunk_text start end_ (len chunk_text)])
            else
              chunk_loop fuel' self text_ (end_ - chunk_overlap self)
                cid chunks
        end
      else Some (Ok chunks)
  end.

Definition chunk_text (fuel : nat) (self : t) (text_ : str)
  : option (result (list chunk)) :=
  chunk_loop fuel self text_ 0 0 [].

End PDFHandler.

(** * JSON values, as [json.loads] and [response.json()] produce them *)

Module Json.

#[warnings="-register-all"]
Inductive json :=
| JNull
| JBool (b : bool)
| JInt (z : Z)
| JFloat (f : float)
| JStr (s : str)
| JList (l : list json)
| JDict (d : list (str * json)).

(** Truth value of a Python object. *)
Definition truthy (j : json) : bool :=
  match j with
  | JNull => false
  | JBool b => b
  | JInt z => negb (z =? 0)
  | JFloat f => negb (PrimFloat.eqb f 0%float)
  | JStr s => nonempty s
  | JList l => nonempty l
  | JDict d => nonempty d
  end.

Definition type_name (j : json) : str :=
  match j with
  | JNull => lit "NoneType"
  | JBool _ => lit "bool"
  | JInt _ => lit "int"
  | JFloat _ => lit "float"
  | JStr _ => lit "str"
  | JList _ => lit "list"
  | JDict _ => lit "dict"
  end.

Fixpoint assoc (k : str) (d : list (str * json)) : option json :=
  match d with
  | [] => None
  | (k', v) :: d' => if decide (k = k') then Some v else assoc k d'
  end.

(** [d[k] = v] *)
Fixpoint dict_set (k : str) (v : json) (d : list (str * json))
  : list (str * json) :=
  match d with
  | [] => [(k, v)]
  | (k', v') :: d' =>
      if decide (k = k') then (k, v) :: d' else (k', v') :: dict_set k v d'
  end.

(** [j.get(k, dflt)]; only a dict has the attribute. *)
Definition get (j : json) (k : str) (dflt : json) : result json :=
  match j with
  | JDict d => Ok (default dflt (assoc k d))
  | _ => Raise (Exn AttributeErrorC
                  (lit "'" ++ type_name j
                   ++ lit "' object has no attribute 'get'"))
  end.

(** [x or y] *)
Definition or_ (x y : json) : json := if truthy x then x else y.

(** ["".join(parts)]: every item has to be a [str]. *)
Fixpoint join_items (i : Z) (parts : list json) : result str :=
  match parts with
  | [] => Ok []
  | JStr s :: parts' => r ← join_items (i + 1) parts'; Ok (s ++ r)
  | j :: _ =>
      Raise (Exn TypeErrorC
               (lit "sequence item " ++ str_of_int i
                ++ lit ": expected str instance, " ++ type_name j
                ++ lit " found"))
  end.

End Json.

Import Json.

(** * The part of [requests] that the client uses *)

Module Requests.

(** A response, by what the client can observe of it: the status with
    its reason phrase, the URL, the lines that [iter_lines()] yields and
    the exception that ends the iteration (if it does not end by the
    stream closing), and the outcome of [json()]. *)
Record response := Response {
  status_code : Z;
  reason : str;
  url : str;
  iter_lines : list bytes;
  iter_raises : option exn;
  json_ : result json
}.

(** [Response.raise_for_status], with the message that it builds. *)
Definition raise_for_status (r : response) : result unit :=
  if (400 <=? status_code r) && (status_code r <? 500) then
    Raise (Exn HTTPErrorC
             (str_of_int (status_code r) ++ lit " Client Error: " ++ reason r
              ++ lit " for url: " ++ url r))
  else if (500 <=? status_code r) && (status_code r <? 600) then
    Raise (Exn HTTPErrorC
             (str_of_int (status_code r) ++ lit " Server Error: " ++ reason r
              ++ lit " for url: " ++ url r))
  else Ok tt.

(** What the body iterator raises when the read times out while the body
    is streamed: [Response.iter_content], on which [iter_lines] rests,
    catches urllib3's [ReadTimeoutError] and raises [ConnectionError(e)].
    A [ReadTimeout] comes from [requests.post] only, when the timeout
    strikes before the response headers have arrived. *)
Definition stream_read_timeout (msg : str) : exn := Exn ConnectionErrorC msg.

End Requests.

(** * config.py: the settings that the modelled modules read *)

Module Config.

Record Settings := {
  OLLAMA_BASE_URL : str;
  OLLAMA_CHAT_MODEL : str;
  OLLAMA_TEMPERATURE : float;
  OLLAMA_TIMEOUT : Z;
  OLLAMA_EMBEDDING_MODEL : str
}.

End Config.

(** * ai/ollama_client.py *)

Module OllamaClient.

(** [self.base_url], [self.default_model], [self.timeout] *)
Record t := Build { base_url : str; default_model : str; timeout : Z }.

(** [__init__] *)
Definition init (settings : Config.Settings) : t :=
  {| base_url := rstrip_chars (lit "/") (Config.OLLAMA_BASE_URL settings);
     default_model := Config.OLLAMA_CHAT_MODEL settings;
     timeout := Config.OLLAMA_TIMEOUT settings |}.

Definition msg_cannot_connect : str :=
  lit "Cannot connect to Ollama. Make sure Ollama is running.".

(** The message of line 75; the three code points after "overloaded "
    are the ones the source file holds there. *)
Definition msg_timed_out : str :=
  lit "Ollama timed out. The model may be overloaded "
  ++ [226; 8364; 8221]%N ++ lit " try again.".

(** How one pass through the body of the streaming loop ends: with the
    next line, or by leaving the loop ([break], or an exception). *)
Inductive loop_step :=
| Continue (content_parts : list json)
| Leave (content_parts : list json) (raised : option exn).

Section Backend.

(** The outside world: [requests.post(url, json=payload, stream=...,
    timeout=...)] and [json.loads]. *)
Variable requests_post : str -> json -> bool -> result Requests.response.
Variable json_loads : bytes -> result json.

(** Lines 60-67, the body of [for line in resp.iter_lines()], on one
    line and the [content_parts] built so far. *)
Definition read_line (line : bytes) (content_parts : list json)
  : loop_step :=
  if negb (nonempty line) then Continue content_parts
  else
    match json_loads line with
    | Raise e => Leave content_parts (Some e)
    | Ok chunk =>
        match (m ← get chunk (lit "message") (JDict []);
               get m (lit "content") (JStr [])) with
        | Raise e => Leave content_parts (Some e)
        | Ok token =>
            let content_parts' :=
              if truthy token then content_parts ++ [token]
              else content_parts in
            match get chunk (lit "done") JNull with
            | Raise e => Leave content_parts' (Some e)
            | Ok done =>
                if truthy done then Leave content_parts' None
                else Continue content_parts'
            end
        end
    end.

(** The loop of line 59.  The value is [content_parts] at the moment
    the loop is left, with the exception that left it, if one did;
    [raises] is what the iterator does once its lines are used up. *)
Fixpoint read_lines (lines : list bytes) (raises : option exn)
    (content_parts : list json) : list json * option exn :=
  match lines with
  | [] => (content_parts, raises)
  | line :: lines' =>
      match read_line line content_parts with
      | Continue content_parts' => read_lines lines' raises content_parts'
      | Leave content_parts' raised => (content_parts', raised)
      end
  end.

(** Lines 55-67: the [try] block, from the POST to the end of the loop. *)
Definition try_block (url : str) (payload : json)
  : list json * option exn :=
  match requests_post url payload true with
  | Raise e => ([], Some e)
  | Ok resp =>
      match Requests.raise_for_status resp with
      | Raise e => ([], Some e)
      | Ok _ =>
          read_lines (Requests.iter_lines resp)
            (Requests.iter_raises resp) []
      end
  end.

(** ["".join(content_parts).strip()] *)
Definition joined (content_parts : list json) : result str :=
  s ← join_items 0 content_parts; Ok (strip s).

(** Lines 51-52: the URL, and the payload once ["stream"] is set. *)
Definition chat_url (self : t) : str := base_url self ++ lit "/api/chat".
Definition streamed (payload : list (str * json)) : json :=
  JDict (dict_set (lit "stream") (JBool true) payload).

Definition _stream_chat (self : t) (payload : list (str * json))
  : result str :=
  let url := chat_url self in
  let payload := streamed payload in
  let '(content_parts, raised) := try_block url payload in
  match raised with
  | Some e =>
      if isinstance e ConnectionErrorC then
        Raise (Exn ExceptionC msg_cannot_connect)
      else if isinstance e TimeoutC then
        if nonempty content_parts then joined content_parts
        else Raise (Exn ExceptionC msg_timed_out)
      else Raise e
  | None => joined content_parts
  end.

Definition _post (self : t) (path : str) (payload : json) : result json :=
  let url := base_url self ++ path in
  response ← requests_post url payload false;
  _ ← Requests.raise_for_status response;
  Requests.json_ response.

(** [model or dflt] for an optional string. *)
Definition model_or (model : option str) (dflt : str) : str :=
  match model with
  | Some m => if nonempty m then m else dflt
  | None => dflt
  end.

(** Lines 93-105: the payload that [chat] builds. *)
Definition chat_payload (self : t) (messages : list json)
    (model : option str) (temperature : option float)
    (max_tokens : option Z) : list (str * json) :=
  let options := [(lit "num_ctx", JInt 2048)] in
  let options :=
    match temperature with
    | Some x => dict_set (lit "temperature") (JFloat x) options
    | None => options
    end in
  let options :=
    match max_tokens with
    | Some n => dict_set (lit "num_predict") (JInt n) options
    | None => options
    end in
  [(lit "model", JStr (model_or model (default_model self)));
   (lit "messages", JList messages);
   (lit "options", JDict options)].

Definition chat (self : t) (messages : list json) (model : option str)
    (temperature : option float) (max_tokens : option Z) : result str :=
  _stream_chat self (chat_payload self messages model temperature max_tokens).

(** Lines 118-123, one pass of the loop of [embeddings]: the vector
    for one text. *)
Definition embed_one (settings : Config.Settings) (self : t)
    (model : option str) (text : str) : result json :=
  let payload :=
    JDict [(lit "model",
            JStr (model_or model (Config.OLLAMA_EMBEDDING_MODEL settings)));
           (lit "prompt", JStr text)] in
  data ← _post self (lit "/api/embeddings") payload;
  e ← get data (lit "embedding") JNull;
  Ok (or_ e (JList [])).

(** The loop of [embeddings]; [results] is the list built so far. *)
Fixpoint embeddings_loop (settings : Config.Settings) (self : t)
    (texts : list str) (model : option str) (results : list json)
  : result (list json) :=
  match texts with
  | [] => Ok results
  | text :: texts' =>
      embedding ← embed_one settings self model text;
      embeddings_loop settings self texts' model (results ++ [embedding])
  end.

Definition embeddings (settings : Config.Settings) (self : t)
    (texts : list str) (model : option str) : result (list json) :=
  embeddings_loop settings self texts model [].

(** [warm_up]: the [except] clause logs the failure and the call returns
    [None] either way. *)
Definition warm_up (self : t) : result unit :=
  try_except
    (_ ← chat self
           [JDict [(lit "role", JStr (lit "user"));
                   (lit "content", JStr (lit "hi"))]]
           None None (Some 5);
     Ok tt)
    (fun e => Ok tt).

End Backend.

End OllamaClient.

(** * The part of ChromaDB that [vector_db.py] uses

    The persistent client is a finite map from collection names to
    collections; a collection maps record ids to records.  A collection
    object of the Python API is a handle: it is modelled by its name, and
    its methods act on the client's state. *)

Module Chroma.

Record item := Item { embedding : json; document : str; metadata : json }.

Record collection := Collection {
  coll_metadata : json;
  items : gmap str item
}.

Abbreviation client := (gmap str collection).

(** What [add] does with a record whose id is already stored. *)
Inductive existing_id := KeepStored | Overwrite | Reject.

(** The result of [collection.query]: one inner list per query vector. *)
Record query_result := QueryResult {
  qr_documents : list (list str);
  qr_distances : list (list float);
  qr_metadatas : list (list json)
}.

Section Library.

(** Library behaviour that the model leaves open: the distance between
    two stored vectors (floating-point arithmetic), which vectors a
    collection accepts given what it already holds (shape and
    dimension checks), and the treatment of an id that is already
    stored. *)
Variable distance : json -> json -> float.
Variable accepts : gmap str item -> json -> bool.
Variable on_existing : existing_id.

Definition get_or_create_collection (name : str) (md : json)
    (db : client) : client :=
  match db !! name with
  | Some _ => db
  | None => <[name := Collection md ∅]> db
  end.

Definition stored (name : str) (db : client) : gmap str item :=
  match db !! name with
  | Some c => items c
  | None => ∅
  end.

(** [collection.count()] *)
Definition count (name : str) (db : client) : Z :=
  Z.of_nat (size (stored name db)).

Fixpoint zip_records (ids : list str) (embeddings : list json)
    (documents : list str) (metadatas : list json)
  : list (str * item) :=
  match ids, embeddings, documents, metadatas with
  | i :: ids', e :: es, d :: ds, m :: ms =>
      (i, Item e d m) :: zip_records ids' es ds ms
  | _, _, _, _ => []
  end.

Definition value_error (m : string) : exn := Exn ValueErrorC (lit m).

(** [collection.add(embeddings=, documents=, ids=, metadatas=)]: the
    arguments are validated first and nothing is written when the call
    raises. *)
Definition add (name : str) (embeddings : list json)
    (documents : list str) (ids : list str) (metadatas : list json)
    (db : client) : result client :=
  match db !! name with
  | None => Raise (value_error "Collection does not exist")
  | Some c =>
      if negb (nonempty ids) then
        Raise (value_error "Expected IDs to be a non-empty list")
      else if negb ((length embeddings =? length ids)%nat
                    && (length documents =? length ids)%nat
                    && (length metadatas =? length ids)%nat) then
        Raise (value_error "Unequal lengths of ids and fields")
      else if negb (bool_decide (NoDup ids)) then
        Raise (value_error "Expected IDs to be unique")
      else if negb (forallb (accepts (items c)) embeddings) then
        Raise (value_error "Embedding rejected by the collection")
      else
        let new : gmap str item :=
          list_to_map (zip_records ids embeddings documents metadatas) in
        match on_existing with
        | KeepStored =>
            Ok (<[name := Collection (coll_metadata c) (items c ∪ new)]> db)
        | Overwrite =>
            Ok (<[name := Collection (coll_metadata c) (new ∪ items c)]> db)
        | Reject =>
            if bool_decide (Forall (fun i => items c !! i = None) ids) then
              Ok (<[name := Collection (coll_metadata c) (new ∪ items c)]> db)
            else Raise (value_error "ID already exists")
        end
  end.

(** Records in ascending order of distance to [q]. *)
Fixpoint insert_by (q : json) (x : str * item) (l : list (str * item))
  : list (str * item) :=
  match l with
  | [] => [x]
  | y :: l' =>
      if PrimFloat.leb (distance q (embedding (snd x)))
                       (distance q (embedding (snd y)))
      then x :: l else y :: insert_by q x l'
  end.

Definition nearest (q : json) (m : gmap str item) : list (str * item) :=
  foldr (insert_by q) [] (map_to_list m).

(** [collection.query(query_embeddings=, n_results=)] *)
Definition query (name : str) (query_embeddings : list json)
    (n_results : Z) (db : client) : result query_result :=
  match db !! name with
  | None => Raise (value_error "Collection does not exist")
  | Some c =>
      if n_results <=? 0 then
        Raise (Exn TypeErrorC
                 (lit "Number of requested results " ++ str_of_int n_results
                  ++ lit ", cannot be negative, or zero."))
      else if negb (forallb (accepts (items c)) query_embeddings) then
        Raise (value_error "Embedding rejected by the collection")
      else
        let hits q := take (Z.to_nat n_results) (nearest q (items c)) in
        Ok {| qr_documents :=
                map (fun q => map (fun r => document (snd r)) (hits q))
                    query_embeddings;
              qr_distances :=
                map (fun q => map (fun r => distance q (embedding (snd r)))
                                  (hits q))
                    query_embeddings;
              qr_metadatas :=
                map (fun q => map (fun r => metadata (snd r)) (hits q))
                    query_embeddings |}
  end.

(** [client.list_collections()], by name. *)
Definition list_collections (db : client) : list str :=
  map fst (map_to_list db).

(** [client.delete_collection(name)] *)
Definition delete_collection (name : str) (db : client) : result client :=
  match db !! name with
  | None => Raise (value_error "Collection does not exist")
  | Some _ => Ok (delete name db)
  end.

End Library.

End Chroma.

(** * vector_db.py *)

Module VectorDB.

(** [self.embeddings_provider] and [self.embedding_model], as [__init__]
    leaves them; the model is given by its
    [encode(texts, normalize_embeddings=True)], whose rows are the
    vectors. *)
Record t := Build {
  embeddings_provider : str;
  embedding_model : option (list str -> result (list (list float)))
}.

(** The value of [search_results] that [query_documents] returns. *)
Record search_results := SearchResults {
  documents : list str;
  distances : list float;
  metadatas : list json
}.

(** [{"hnsw:space": "cosine"}] *)
Definition cosine_space : json :=
  JDict [(lit "hnsw:space", JStr (lit "cosine"))].

(** [emb.tolist()] *)
Definition tolist (emb : list float) : json := JList (map JFloat emb).

Section World.

Variable requests_post : str -> json -> bool -> result Requests.response.
Variable json_loads : bytes -> result json.
Variable distance : json -> json -> float.
Variable accepts : gmap str Chroma.item -> json -> bool.
Variable on_existing : Chroma.existing_id.
(** [hashlib.md5(s.encode()).hexdigest()] *)
Variable md5_hexdigest : str -> str.
Variable settings : Config.Settings.
Variable ollama_client : OllamaClient.t.

Definition get_or_create_collection (collection_name : str)
    (db : Chroma.client) : Chroma.client :=
  Chroma.get_or_create_collection collection_name cosine_space db.

Definition create_collection_name (pdf_url : str) : str :=
  lit "pdf_" ++ md5_hexdigest pdf_url.

(** The [except] clause logs and re-raises, so the value is that of
    the [try] block. *)
Definition get_embeddings (self : t) (texts : list str)
  : result (list json) :=
  if decide (embeddings_provider self = lit "ollama") then
    OllamaClient.embeddings requests_post settings ollama_client texts None
  else
    match embedding_model self with
    | None =>
        Raise (Exn ExceptionC
                 (lit "Sentence-Transformers model not initialized"))
    | Some encode =>
        embeddings ← encode texts;
        Ok (map tolist embeddings)
    end.

(** The value and the state of the index after the call; the state is
    kept when the call raises. *)
Definition add_documents (self : t) (pdf_url : str) (chunks : list str)
    (metadata : option (list json)) (db : Chroma.client)
  : result str * Chroma.client :=
  let collection_name := create_collection_name pdf_url in
  let db := get_or_create_collection collection_name db in
  match get_embeddings self chunks with
  | Raise e => (Raise e, db)
  | Ok embeddings =>
      let ids :=
        map (fun i => lit "chunk_" ++ str_of_int i) (range (len chunks)) in
      let metadata :=
        match metadata with
        | None =>
            map (fun i => JDict [(lit "chunk_index", JInt i)])
                (range (len chunks))
        | Some m => m
        end in
      match Chroma.add accepts on_existing collection_name
              embeddings chunks ids metadata db with
      | Raise e => (Raise e, db)
      | Ok db' => (Ok collection_name, db')
      end
  end.

(** [xs[0] if xs else []] *)
Definition first_or_empty {A} (xs : list (list A)) : list A :=
  match xs with
  | x :: _ => x
  | [] => []
  end.

Definition query_documents (self : t) (pdf_url : str) (query : str)
    (n_results : Z) (db : Chroma.client)
  : result search_results * Chroma.client :=
  let collection_name := create_collection_name pdf_url in
  let db := get_or_create_collection collection_name db in
  if Chroma.count collection_name db =? 0 then
    (Ok (SearchResults [] [] []), db)
  else
    match get_embeddings self [query] with
    | Raise e => (Raise e, db)
    | Ok [] =>
        (Raise (Exn IndexErrorC (lit "list index out of range")), db)
    | Ok (query_embedding :: _) =>
        match Chroma.query distance accepts collection_name
                [query_embedding]
                (Z.min n_results (Chroma.count collection_name db))
                db with
        | Raise e => (Raise e, db)
        | Ok results =>
            (Ok {| documents := first_or_empty (Chroma.qr_documents results);
                   distances := first_or_empty (Chroma.qr_distances results);
                   metadatas := first_or_empty (Chroma.qr_metadatas results) |},
             db)
        end
    end.

(** The [except] clause swallows the error of a missing collection. *)
Definition delete_collection (pdf_url : str) (db : Chroma.client)
  : Chroma.client :=
  match Chroma.delete_collection (create_collection_name pdf_url) db with
  | Ok db' => db'
  | Raise _ => db
  end.

Definition collection_exists (pdf_url : str) (db : Chroma.client)
  : bool * Chroma.client :=
  let collection_name := create_collection_name pdf_url in
  let collections := Chroma.list_collections db in
  (existsb (fun name => bool_decide (name = collection_name)) collections,
   db).

End World.

End VectorDB.

(** * ai/qa.py *)

Module QASystem.

(** [self.model] *)
Record t := Build { model : str }.

Definition init (settings : Config.Settings) : t :=
  {| model := Config.OLLAMA_CHAT_MODEL settings |}.

(** The dictionary that [answer_question] returns; the early return has
    no ["num_sources"]. *)
Record answer_data := AnswerData {
  answer : str;
  sources : list str;
  confidence : str;
  num_sources : option Z
}.

Definition no_context_answer : str :=
  lit "I don't have enough context from this PDF to answer that question. Please make sure the PDF has been processed.".

Definition message (role content : str) : json :=
  JDict [(lit "role", JStr role); (lit "content", JStr content)].

(** [enumerate(l)] *)
Definition enumerate {A} (l : list A) : list (Z * A) :=
  imap (fun i x => (Z.of_nat i, x)) l.

Definition prompt_head : str :=
  lit "Based on this educational content, suggest 5 interesting questions a student might ask:"
  ++ newline ++ newline ++ lit "Content:" ++ newline.

Definition prompt_tail : str :=
  newline ++ newline
  ++ lit "Generate 5 specific, thoughtful questions that would help students understand this material better."
  ++ newline
  ++ lit "Format: Return only the questions, one per line, without numbering.".

Section World.

Variable requests_post : str -> json -> bool -> result Requests.response.
Variable json_loads : bytes -> result json.
Variable distance : json -> json -> float.
Variable accepts : gmap str Chroma.item -> json -> bool.
Variable md5_hexdigest : str -> str.
Variable settings : Config.Settings.
Variable ollama_client : OllamaClient.t.
Variable vector_db : VectorDB.t.

Definition answer_question (self : t) (pdf_url question : str)
    (conversation_history : option (list json)) (db : Chroma.client)
  : result answer_data * Chroma.client :=
  let '(searched, db) :=
    VectorDB.query_documents requests_post distance accepts md5_hexdigest
      settings ollama_client vector_db pdf_url question 2 db in
  (try_except
     (search_results ← searched;
      let contexts := VectorDB.documents search_results in
      if negb (nonempty contexts) then
        Ok {| answer := no_context_answer;
              sources := [];
              confidence := lit "low";
              num_sources := None |}
      else
        let trimmed := map (fun ctx => slice_to ctx 300) contexts in
        let context_text :=
          join newline
            (map (fun '(i, ctx) =>
                    lit "[" ++ str_of_int (i + 1) ++ lit "] " ++ ctx)
                 (enumerate trimmed)) in
        let messages :=
          [message (lit "system")
             (lit "Answer using ONLY the context. Be brief.")] in
        let messages :=
          match conversation_history with
          | Some h => if nonempty h then messages ++ slice_from h (-2)
                      else messages
          | None => messages
          end in
        let messages :=
          messages ++
          [message (lit "user")
             (context_text ++ newline ++ newline ++ lit "Q: " ++ question)] in
        answer ← OllamaClient.chat requests_post json_loads ollama_client
                   messages (Some (model self))
                   (Some (Config.OLLAMA_TEMPERATURE settings)) (Some 200);
        let confidence :=
          if 3 <=? len contexts then lit "high"
          else if 1 <=? len contexts then lit "medium"
          else lit "low" in
        Ok {| answer := answer;
              sources := slice_to contexts 3;
              confidence := confidence;
              num_sources := Some (len contexts) |})
     (fun e =>
        Raise (Exn ExceptionC
                 (lit "Failed to answer question: " ++ str_of_exn e))),
   db).

(** Lines 97-108: the prompt built from the sample. *)
Definition suggestion_prompt (pdf_text_sample : str) : str :=
  let max_chars := 5000 in
  let pdf_text_sample :=
    if max_chars <? len pdf_text_sample
    then slice_to pdf_text_sample max_chars
    else pdf_text_sample in
  prompt_head ++ pdf_text_sample ++ prompt_tail.

Definition suggestion_messages (pdf_text_sample : str) : list json :=
  [message (lit "system")
     (lit "You are an educational assistant helping students learn.");
   message (lit "user") (suggestion_prompt pdf_text_sample)].

(** Line 119: [[q.strip() for q in content.split("\n") if q.strip()]] *)
Definition question_lines (content : str) : list str :=
  map strip
    (filter (fun q => nonempty (strip q) = true) (split 10%N content)).

Definition get_suggested_questions (self : t) (pdf_text_sample : str)
  : result (list str) :=
  try_except
    (content ← OllamaClient.chat requests_post json_loads ollama_client
                 (suggestion_messages pdf_text_sample)
                 (Some (model self))
                 (Some 0x1.6666666666666p-1%float (* 0.7 *)) (Some 300);
     let questions := question_lines content in
     Ok (slice_to questions 5))
    (fun e => Ok []).

End World.

End QASystem.

(** * pdf_handler.py, continued: text extraction and [process_pdf] *)

Module PDFText.

(** The dictionary that [process_pdf] returns. *)
Record pdf_data := PdfData {
  full_text : str;
  chunks : list PDFHandler.chunk;
  total_chunks : Z;
  total_chars : Z;
  source : str
}.

(** Lines 50-57 and 86-93: the loop over [pdf_reader.pages].  A page is
    given by the outcome of [page.extract_text()]; a page whose extraction
    raises is logged and skipped. *)
Fixpoint extract_pages (pages : list (result str)) (text : str) : str :=
  match pages with
  | [] => text
  | page :: pages' =>
      match page with
      | Ok page_text =>
          extract_pages pages' (text ++ (page_text ++ newline ++ newline))
      | Raise _ => extract_pages pages' text
      end
  end.

Section Sources.

(** The outside world: [requests.get(pdf_url, timeout=30)], as the
    response and its [content]; [PdfReader] on downloaded bytes and on a
    file path, as the pages of the document. *)
Variable requests_get : str -> result (Requests.response * bytes).
Variable PdfReader : bytes -> result (list (result str)).
Variable PdfReader_path : str -> result (list (result str)).

Definition extract_text_from_url (pdf_url : str) : result str :=
  match (response ← requests_get pdf_url;
         _ ← Requests.raise_for_status (fst response);
         pages ← PdfReader (snd response);
         Ok (strip (extract_pages pages []))) with
  | Ok text => Ok text
  | Raise e =>
      if isinstance e RequestExceptionC then
        Raise (Exn ExceptionC (lit "Failed to download PDF: " ++ str_of_exn e))
      else if isinstance e ExceptionC then
        Raise (Exn ExceptionC (lit "Failed to process PDF: " ++ str_of_exn e))
      else Raise e
  end.

Definition extract_text_from_file (file_path : str) : result str :=
  try_except
    (pages ← PdfReader_path file_path;
     Ok (strip (extract_pages pages [])))
    (fun e =>
       Raise (Exn ExceptionC
                (lit "Failed to process PDF file: " ++ str_of_exn e))).

(** [process_pdf]; its [except] clause logs and re-raises.  [None] when
    the loop of [chunk_text] does not exit within [fuel] iterations. *)
Definition process_pdf (fuel : nat) (self : PDFHandler.t)
    (pdf_source : str) (is_url : bool) : option (result pdf_data) :=
  match (if is_url then extract_text_from_url pdf_source
         else extract_text_from_file pdf_source) with
  | Raise e => Some (Raise e)
  | Ok full_text =>
      match PDFHandler.chunk_text fuel self full_text with
      | None => None
      | Some (Raise e) => Some (Raise e)
      | Some (Ok chunks) =>
          Some (Ok {| full_text := full_text;
                      chunks := chunks;
                      total_chunks := len chunks;
                      total_chars := len full_text;
                      source := pdf_source |})
      end
  end.

End Sources.

End PDFText.

(** * main.py: the helpers and the question endpoint around the pipeline *)

Module Main.

(** How a call of an endpoint ends: with its value, with the
    [HTTPException] it raises, or with an exception that its
    [except Exception] clause does not catch. *)
Inductive http_result (A : Type) :=
| Returned (a : A)
| HTTPException (status_code : Z) (detail : str)
| Uncaught (e : exn).
Arguments Returned {A} a.
Arguments HTTPException {A} status_code detail.
Arguments Uncaught {A} e.

(** [except Exception as e: raise HTTPException(status_code=500, detail=msg)] *)
Definition internal_error {A} (msg : exn -> str) (e : exn) : http_result A :=
  if isinstance e ExceptionC then HTTPException 500 (msg e) else Uncaught e.

Definition _is_upload_identifier (pdf_ref : str) : bool :=
  startswith pdf_ref (lit "upload_").

(** Lines 769-774 of [_extract_pdf_links]: the links in their order, each
    kept at its first occurrence. *)
Fixpoint unique_links (candidates : list str) (seen unique : list str)
  : list str :=
  match candidates with
  | [] => unique
  | link :: candidates' =>
      if bool_decide (link ∈ seen) then unique_links candidates' seen unique
      else unique_links candidates' (link :: seen) (unique ++ [link])
  end.

Section Application.

Variable requests_post : str -> json -> bool -> result Requests.response.
Variable json_loads : bytes -> result json.
Variable distance : json -> json -> float.
Variable accepts : gmap str Chroma.item -> json -> bool.
Variable on_existing : Chroma.existing_id.
Variable md5_hexdigest : str -> str.
Variable settings : Config.Settings.
Variable ollama_client : OllamaClient.t.
Variable vector_db : VectorDB.t.
Variable qa_system : QASystem.t.
(** [str(Path(settings.UPLOAD_DIR) / filename)] *)
Variable upload_path : str -> str.
(** [BeautifulSoup(html, "html.parser").find_all(name)], each tag by its
    attributes; [urljoin]; and [_looks_like_pdf], which rests on
    [str.lower] and [urlparse]. *)
Variable find_all : str -> str -> list (list (str * str)).
Variable urljoin : str -> str -> str.
Variable _looks_like_pdf : str -> bool.
(** [_process_pdf_source], which resolves the reference on the file system
    or on the web and runs [process_pdf]; and [_friendly_error], which
    rests on [str.lower]. *)
Variable _process_pdf_source : str -> result PDFText.pdf_data.
Variable _friendly_error : exn -> str.

Definition _resolve_upload_path (pdf_identifier : str) : str :=
  let filename := replace_first (lit "upload_") [] pdf_identifier in
  upload_path filename.

(** [tag.get(attr)] *)
Fixpoint attribute (attr : str) (tag : list (str * str)) : option str :=
  match tag with
  | [] => None
  | (k, v) :: tag' => if decide (k = attr) then Some v else attribute attr tag'
  end.

(** The second loop of [_extract_pdf_links], for one tag name. *)
Definition embedded_candidates (html base_url : str) (tag_attr : str * str)
  : list str :=
  omap (fun tag =>
          match attribute (snd tag_attr) tag with
          | Some src =>
              if nonempty src then
                let full := urljoin base_url src in
                if _looks_like_pdf full then Some full else None
              else None
          | None => None
          end)
       (find_all html (fst tag_attr)).

Definition _extract_pdf_links (html base_url : str) : list str :=
  let candidates :=
    omap (fun anchor =>
            match attribute (lit "href") anchor with
            | Some href =>
                let full := urljoin base_url href in
                if _looks_like_pdf full then Some full else None
            | None => None
            end)
         (find_all html (lit "a")) in
  let candidates :=
    candidates ++
    concat (map (embedded_candidates html base_url)
              [(lit "iframe", lit "src"); (lit "embed", lit "src");
               (lit "object", lit "data")]) in
  unique_links candidates [] [].

(** The [/api/ask] endpoint, on the fields of the request. *)
Definition ask_question (pdf_url question : str)
    (conversation_history : option (list json)) (db : Chroma.client)
  : http_result QASystem.answer_data * Chroma.client :=
  let '(exists_, db) := VectorDB.collection_exists md5_hexdigest pdf_url db in
  let '(ensured, db) :=
    if negb exists_ then
      match _process_pdf_source pdf_url with
      | Raise e => (Raise e, db)
      | Ok pdf_data =>
          let chunk_texts := map PDFHandler.text (PDFText.chunks pdf_data) in
          let '(added, db) :=
            VectorDB.add_documents requests_post accepts on_existing
              md5_hexdigest settings ollama_client vector_db pdf_url
              chunk_texts None db in
          match added with
          | Raise e => (Raise e, db)
          | Ok _ => (Ok tt, db)
          end
      end
    else (Ok tt, db) in
  match ensured with
  | Raise e => (internal_error _friendly_error e, db)
  | Ok _ =>
      let '(answered, db) :=
        QASystem.answer_question requests_post json_loads distance accepts
          md5_hexdigest settings ollama_client vector_db qa_system pdf_url
          question conversation_history db in
      match answered with
      | Ok answer_data => (Returned answer_data, db)
      | Raise e => (internal_error _friendly_error e, db)
      end
  end.

End Application.

End Main.

(** * Vocabulary for the streaming loop *)

Module Stream.

Section Backend.

Variable json_loads : bytes -> result json.

(** The loop goes on to the next line after [line]. *)
Definition goes_on (line : bytes) : bool :=
  match OllamaClient.read_line json_loads line [] with
  | OllamaClient.Continue _ => true
  | OllamaClient.Leave _ _ => false
  end.

(** The fragments that the loop accumulates over [lines]. *)
Definition fragments (lines : list bytes) : list json :=
  fst (OllamaClient.read_lines json_loads lines None []).

End Backend.

End Stream.

(** * Vocabulary for the chunks, the end of a stream and the pages *)

Module ChunkSpec.

(** [k] is cut from [T]: its text is the stripped slice between its
    offsets, is not empty, and has the recorded length. *)
Definition cut_from (T : str) (k : PDFHandler.chunk) : Prop :=
  PDFHandler.text k
    = strip (slice T (PDFHandler.start_pos k) (PDFHandler.end_pos k)) /\
  PDFHandler.text k <> [] /\
  strip (PDFHandler.text k) = PDFHandler.text k /\
  PDFHandler.chunk_len k = len (PDFHandler.text k).

(** [b] starts after [a] starts, and at most [overlap] characters before
    [a] ends. *)
Definition follows (overlap : Z) (a b : PDFHandler.chunk) : Prop :=
  PDFHandler.start_pos a < PDFHandler.start_pos b /\
  PDFHandler.end_pos a - overlap <= PDFHandler.start_pos b.

(** The window of [k] lies in [T] and is at most one character wider than
    [chunk_size]. *)
Definition bounded (self : PDFHandler.t) (T : str) (k : PDFHandler.chunk)
  : Prop :=
  0 <= PDFHandler.start_pos k < len T /\
  PDFHandler.start_pos k < PDFHandler.end_pos k
    <= PDFHandler.start_pos k + PDFHandler.chunk_size self + 1 /\
  1 <= PDFHandler.chunk_len k <= PDFHandler.chunk_size self + 1.

(** Every two neighbours of [l] are related by [R]. *)
Definition chained {A} (R : A -> A -> Prop) (l : list A) : Prop :=
  forall i a b, l !! i = Some a -> l !! S i = Some b -> R a b.

End ChunkSpec.

Module StreamEnd.

Section Backend.

Variable json_loads : bytes -> result json.

(** [line] is a record with a set completion flag: the loop stops at it
    without an exception. *)
Definition is_done (line : bytes) : bool :=
  match OllamaClient.read_line json_loads line [] with
  | OllamaClient.Leave _ None => true
  | _ => false
  end.

End Backend.

End StreamEnd.

Module PageSpec.

(** The texts of the pages whose extraction succeeds, in page order. *)
Definition readable (pages : list (result str)) : list str :=
  omap (fun page => match page with Ok t => Some t | Raise _ => None end) pages.

(** The text of a document whose pages have the texts [texts]: every page
    is followed by an empty line, and the whole is stripped. *)
Definition document_text (texts : list str) : str :=
  strip (concat (map (fun t => t ++ newline ++ newline) texts)).

End PageSpec.

(** * Vocabulary for a sequence of calls of the question endpoint *)

Module Session.

(** A call of the question endpoint, as the index sees it. *)
Definition call : Type :=
  Chroma.client -> Main.http_result QASystem.answer_data * Chroma.client.

(** The calls one after the other, each on the index that the call
    before it left: their outcomes, and the index in the end. *)
Fixpoint run (calls : list call) (db : Chroma.client)
  : list (Main.http_result QASystem.answer_data) * Chroma.client :=
  match calls with
  | [] => ([], db)
  | c :: calls' =>
      let '(r, db) := c db in
      let '(rs, db) := run calls' db in
      (r :: rs, db)
  end.

(** A call of the question endpoint for [pdf_url], with whatever
    backends, settings, PDF source, question and history. *)
Inductive asks (md5_hexdigest : str -> str) (pdf_url : str) : call -> Prop :=
| asks_intro requests_post json_loads distance accepts on_existing settings
    ollama_client vector_db qa_system _process_pdf_source _friendly_error
    question conversation_history :
    asks md5_hexdigest pdf_url
      (Main.ask_question requests_post json_loads distance accepts
         on_existing md5_hexdigest settings ollama_client vector_db
         qa_system _process_pdf_source _friendly_error pdf_url question
         conversation_history).

End Session.

(** * Sample inputs for the worked examples *)

Module Examples.

(** The configuration and the document of the ingestion example:
    chunk_size=20, overlap=5. *)
Definition narrow : PDFHandler.t :=
  {| PDFHandler.chunk_size := 20; PDFHandler.chunk_overlap := 5 |}.
Definition cat_dog_birds : str :=
  lit "The cat sat. The dog ran. Birds fly south.".

Definition ran_chunk (cid : Z) : PDFHandler.chunk :=
  {| PDFHandler.chunk_id := cid; PDFHandler.text := lit "ran.";
     PDFHandler.start_pos := 20; PDFHandler.end_pos := 25;
     PDFHandler.chunk_len := 4 |}.

Definition hello_chunk : PDFHandler.chunk :=
  {| PDFHandler.chunk_id := 0; PDFHandler.text := lit "hello";
     PDFHandler.start_pos := 0; PDFHandler.end_pos := 1000;
     PDFHandler.chunk_len := 5 |}.

(** A three-character window without overlap, and a text that ends in
    blanks. *)
Definition tiny : PDFHandler.t :=
  {| PDFHandler.chunk_size := 3; PDFHandler.chunk_overlap := 0 |}.
Definition trailing_blanks : str := lit "ab.   ".
Definition ab_chunk : PDFHandler.chunk :=
  {| PDFHandler.chunk_id := 0; PDFHandler.text := lit "ab.";
     PDFHandler.start_pos := 0; PDFHandler.end_pos := 3;
     PDFHandler.chunk_len := 3 |}.

(** [s] as bytes, with every apostrophe turned into a double quote. *)
Definition jlit (s : string) : bytes :=
  map (fun b => if Byte.eqb b Byte.x27 then Byte.x22 else b) (blit s).

Definition bytes_eqb (a b : bytes) : bool :=
  bool_decide (map Byte.to_N a = map Byte.to_N b).

(** A record of the streaming chat protocol, as a line and as the value
    [json.loads] gives for that line. *)
Definition ollama_line (content : string) (done : bool) : bytes :=
  jlit ("{'message':{'role':'assistant','content':'" ++ content
        ++ "'},'done':" ++ (if done then "true" else "false") ++ "}").

Definition ollama_record (content : string) (done : bool) : json :=
  JDict [(lit "message",
          JDict [(lit "role", JStr (lit "assistant"));
                 (lit "content", JStr (lit content))]);
         (lit "done", JBool done)].

Definition sample_records : list (string * bool) :=
  [(" The", false); (" dog", false); (" ran. ", false); ("", true)]%string.

(** [json.loads] on the lines of the examples: the records above decode
    to their values, and ["data: ping"], which is no JSON text, raises. *)
Definition sample_json_loads (line : bytes) : result json :=
  match find (fun r => bytes_eqb line (ollama_line (fst r) (snd r)))
             sample_records with
  | Some r => Ok (ollama_record (fst r) (snd r))
  | None =>
      Raise (Exn JSONDecodeErrorC
               (lit "Expecting value: line 1 column 1 (char 0)"))
  end.

Definition not_json : bytes := blit "data: ping".

(** A backend that answers every POST with status 200 and the given
    body. *)
Definition sample_post (lines : list bytes) (raises : option exn)
  : str -> json -> bool -> result Requests.response :=
  fun url _ _ =>
    Ok {| Requests.status_code := 200;
          Requests.reason := lit "OK";
          Requests.url := url;
          Requests.iter_lines := lines;
          Requests.iter_raises := raises;
          Requests.json_ := Ok (JDict []) |}.

(** The exception that ends the iteration when the backend sends nothing
    for longer than the read timeout. *)
Definition stream_timeout : exn :=
  Requests.stream_read_timeout
    (lit "HTTPConnectionPool(host='localhost', port=11434): Read timed out.").

Definition sample_client : OllamaClient.t :=
  {| OllamaClient.base_url := lit "http://localhost:11434";
     OllamaClient.default_model := lit "llama3.1:8b";
     OllamaClient.timeout := 60 |}.

Definition hi : list json :=
  [JDict [(lit "role", JStr (lit "user")); (lit "content", JStr (lit "hi"))]].

(** Bodies of a streamed chat response. *)
Definition body_done : list bytes :=
  [ollama_line " The" false; ollama_line " dog" false; ollama_line "" true].
Definition body_noise : list bytes :=
  [ollama_line " The" false; not_json; ollama_line " dog" false;
   ollama_line "" true].
Definition body_cut : list bytes :=
  [ollama_line " The" false; ollama_line " dog" false;
   ollama_line " ran. " false].

Definition json_error : exn :=
  Exn JSONDecodeErrorC (lit "Expecting value: line 1 column 1 (char 0)").

Definition animals_pdf : str := lit "https://example.org/animals.pdf".
Definition missing_pdf : str := lit "https://example.org/missing.pdf".

(** [hashlib.md5(s.encode()).hexdigest()] on the two identifiers above. *)
Definition sample_md5 (s : str) : str :=
  if decide (s = animals_pdf) then lit "11134c18f9dc905d117e63e542f9db31"
  else if decide (s = missing_pdf) then lit "4d54f16bbcc7e05b9984388bb8a28650"
  else [].

Definition sample_vector : json := JList [JFloat 0.5; JFloat 0.25].

(** A backend for both endpoints: a streamed POST gets the chat body
    [body_done]; a plain POST gets an embedding, except for the empty
    prompt, whose response has no ["embedding"] field. *)
Definition sample_backend (url : str) (payload : json) (stream : bool)
  : result Requests.response :=
  Ok {| Requests.status_code := 200;
        Requests.reason := lit "OK";
        Requests.url := url;
        Requests.iter_lines := if stream then body_done else [];
        Requests.iter_raises := None;
        Requests.json_ :=
          match get payload (lit "prompt") JNull with
          | Ok (JStr []) => Ok (JDict [])
          | _ => Ok (JDict [(lit "embedding", sample_vector)])
          end |}.

Definition sample_settings : Config.Settings :=
  {| Config.OLLAMA_BASE_URL := lit "http://localhost:11434";
     Config.OLLAMA_CHAT_MODEL := lit "llama3.1:8b";
     Config.OLLAMA_TEMPERATURE := 0.5;
     Config.OLLAMA_TIMEOUT := 60;
     Config.OLLAMA_EMBEDDING_MODEL := lit "nomic-embed-text" |}.

Definition remote_db : VectorDB.t :=
  {| VectorDB.embeddings_provider := lit "ollama";
     VectorDB.embedding_model := None |}.

Definition sample_distance (q v : json) : float := 0.
(** A collection that takes every vector but the empty one. *)
Definition sample_accepts (m : gmap str Chroma.item) (v : json) : bool :=
  match v with
  | JList (_ :: _) => true
  | _ => false
  end.

(** A local model that gives every text the same two-dimensional row. *)
Definition local_db : VectorDB.t :=
  {| VectorDB.embeddings_provider := lit "sentence_transformers";
     VectorDB.embedding_model :=
       Some (fun texts => Ok (map (fun _ => [0.5; 0.25]%float) texts)) |}.

(** A provider name that [__init__] gives no model. *)
Definition unconfigured_db : VectorDB.t :=
  {| VectorDB.embeddings_provider := lit "openai";
     VectorDB.embedding_model := None |}.

Definition sample_qa : QASystem.t := {| QASystem.model := lit "llama3.1:8b" |}.

(** The index after the document "The dog ran." has been added. *)
Definition animals_index : Chroma.client :=
  snd (VectorDB.add_documents sample_backend sample_accepts Chroma.KeepStored
         sample_md5 sample_settings sample_client remote_db animals_pdf
         [lit "The dog ran."] None ∅).

Definition dog_question : str := lit "What did the dog do?".

Definition dog_answer : QASystem.answer_data :=
  {| QASystem.answer := lit "The dog";
     QASystem.sources := [lit "The dog ran."];
     QASystem.confidence := lit "medium";
     QASystem.num_sources := Some 1 |}.

Definition missing_collection : str :=
  lit "pdf_4d54f16bbcc7e05b9984388bb8a28650".

End Examples.

(** * More sample inputs *)

Module MoreExamples.

Import Examples.

(** Windows of 20 characters without overlap, and of 100 characters with
    an overlap of one. *)
Definition sentences : PDFHandler.t :=
  {| PDFHandler.chunk_size := 20; PDFHandler.chunk_overlap := 0 |}.
Definition wide : PDFHandler.t :=
  {| PDFHandler.chunk_size := 100; PDFHandler.chunk_overlap := 1 |}.

Definition three_chunks : list PDFHandler.chunk :=
  [ {| PDFHandler.chunk_id := 0; PDFHandler.text := lit "The cat sat.";
       PDFHandler.start_pos := 0; PDFHandler.end_pos := 12;
       PDFHandler.chunk_len := 12 |};
    {| PDFHandler.chunk_id := 1; PDFHandler.text := lit "The dog ran.";
       PDFHandler.start_pos := 12; PDFHandler.end_pos := 25;
       PDFHandler.chunk_len := 12 |};
    {| PDFHandler.chunk_id := 2; PDFHandler.text := lit "Birds fly south.";
       PDFHandler.start_pos := 25; PDFHandler.end_pos := 45;
       PDFHandler.chunk_len := 16 |} ].

(** The document of the ingestion example, three times over. *)
Definition long_text : str :=
  cat_dog_birds ++ lit " " ++ cat_dog_birds ++ lit " " ++ cat_dog_birds.

Definition connection_reset : exn :=
  Exn ConnectionErrorC (lit "Connection aborted.").

(** A body with a line after the completion record. *)
Definition body_after_done : list bytes :=
  [ollama_line " The" false; ollama_line " dog" false; ollama_line "" true;
   not_json].

(** A backend whose embedding endpoint answers with status 500 for the
    prompt "bad" and with a vector otherwise. *)
Definition flaky_backend (url : str) (payload : json) (stream : bool)
  : result Requests.response :=
  Ok {| Requests.status_code :=
          match get payload (lit "prompt") JNull with
          | Ok (JStr p) => if decide (p = lit "bad") then 500 else 200
          | _ => 200
          end;
        Requests.reason :=
          match get payload (lit "prompt") JNull with
          | Ok (JStr p) =>
              if decide (p = lit "bad") then lit "Internal Server Error"
              else lit "OK"
          | _ => lit "OK"
          end;
        Requests.url := url;
        Requests.iter_lines := if stream then body_done else [];
        Requests.iter_raises := None;
        Requests.json_ := Ok (JDict [(lit "embedding", sample_vector)]) |}.

Definition server_error : exn :=
  Exn HTTPErrorC
    (lit "500 Server Error: Internal Server Error for url: "
     ++ lit "http://localhost:11434/api/embeddings").

(** A backend that cannot be reached. *)
Definition unreachable_backend (url : str) (payload : json) (stream : bool)
  : result Requests.response :=
  Raise connection_reset.

Definition animals_collection : str :=
  lit "pdf_11134c18f9dc905d117e63e542f9db31".

Definition dog_results : VectorDB.search_results :=
  {| VectorDB.documents := [lit "The dog ran."];
     VectorDB.distances := [0%float];
     VectorDB.metadatas := [JDict [(lit "chunk_index", JInt 0)]] |}.

(** A backend whose embedding endpoint answers with a vector and whose
    chat body holds a line that is no JSON. *)
Definition noisy_backend (url : str) (payload : json) (stream : bool)
  : result Requests.response :=
  Ok {| Requests.status_code := 200;
        Requests.reason := lit "OK";
        Requests.url := url;
        Requests.iter_lines := if stream then body_noise else [];
        Requests.iter_raises := None;
        Requests.json_ := Ok (JDict [(lit "embedding", sample_vector)]) |}.

Definition wrapped_json_error : exn :=
  Exn ExceptionC
    (lit "Failed to answer question: Expecting value: line 1 column 1 (char 0)").

(** A PDF of three pages, the second of which cannot be read, behind a
    URL and as a file; and a URL that answers 404. *)
Definition pdf_bytes : bytes := blit "%PDF-1.4".
Definition sample_get (url : str) : result (Requests.response * bytes) :=
  Ok ({| Requests.status_code :=
           if decide (url = missing_pdf) then 404 else 200;
         Requests.reason :=
           if decide (url = missing_pdf) then lit "Not Found" else lit "OK";
         Requests.url := url;
         Requests.iter_lines := [];
         Requests.iter_raises := None;
         Requests.json_ := Ok JNull |}, pdf_bytes).
Definition sample_pages : list (result str) :=
  [Ok (lit " The cat sat."); Raise (Exn TypeErrorC (lit "unreadable page"));
   Ok (lit "The dog ran.")].
Definition sample_reader (content : bytes) : result (list (result str)) :=
  Ok sample_pages.
Definition sample_reader_path (path : str) : result (list (result str)) :=
  Ok sample_pages.
Definition pages_text : str :=
  lit "The cat sat." ++ newline ++ newline ++ lit "The dog ran.".

Definition not_found_cause : exn :=
  Exn HTTPErrorC
    (lit "404 Client Error: Not Found for url: "
     ++ lit "https://example.org/missing.pdf").
Definition not_found : exn :=
  Exn ExceptionC
    (lit "Failed to download PDF: 404 Client Error: Not Found for url: "
     ++ lit "https://example.org/missing.pdf").

(** The PDF source of the question endpoint in the examples: one chunk. *)
Definition sample_source (pdf_ref : str) : result PDFText.pdf_data :=
  Ok {| PDFText.full_text := lit "hello";
        PDFText.chunks := [hello_chunk];
        PDFText.total_chunks := 1;
        PDFText.total_chars := 5;
        PDFText.source := pdf_ref |}.

Definition sample_friendly (e : exn) : str := str_of_exn e.


(** Two later calls of the question endpoint, with the backend up. *)
Definition later_calls : list Session.call :=
  [Main.ask_question sample_backend sample_json_loads sample_distance
     sample_accepts Chroma.KeepStored sample_md5 sample_settings
     sample_client remote_db sample_qa sample_source sample_friendly
     animals_pdf dog_question None;
   Main.ask_question sample_backend sample_json_loads sample_distance
     sample_accepts Chroma.KeepStored sample_md5 sample_settings
     sample_client remote_db sample_qa sample_source sample_friendly
     animals_pdf (lit "Where do birds fly?") None].

Definition no_context : QASystem.answer_data :=
  {| QASystem.answer := QASystem.no_context_answer;
     QASystem.sources := [];
     QASystem.confidence := lit "low";
     QASystem.num_sources := None |}.

End MoreExamples.

Import Examples.

(** Unfolding of the [result] monad's bind on a known outcome. *)
Ltac py_bind := cbn [mbind mret result_bind result_ret Py.bind] in *.

(** * Facts about the Python built-ins *)

Section Builtins.

Lemma len_nonneg {A} (l : list A) : 0 <= len l.
Proof. unfold len. lia. Qed.

Lemma nonempty_true {A} (l : list A) : nonempty l = true <-> l <> [].
Proof. destruct l; simpl; split; intros; congruence. Qed.

Lemma elem_of_range_down (a b i : Z) :
  i ∈ range_down a b <-> b < i <= a.
Proof.
  unfold range_down. rewrite list_elem_of_fmap. split.
  - intros (k & -> & Hk). apply elem_of_seq in Hk. lia.
  - intros Hi. exists (Z.to_nat (a - i)). split; [lia|].
    apply elem_of_seq. lia.
Qed.

Lemma index_in_range (s : str) (i : Z) :
  0 <= i < len s -> exists c, index s i = Ok c.
Proof.
  intros Hi. unfold index.
  destruct (i <? 0) eqn:Hneg; [lia|].
  replace ((0 <=? i) && (i <? len s)) with true
    by (symmetry; apply andb_true_iff; lia).
  destruct (s !! Z.to_nat i) as [c|] eqn:Hc; [eauto|].
  apply lookup_ge_None in Hc. unfold len in Hi. lia.
Qed.

Lemma lstrip_keeps_last (s : str) (c : char) :
  last s = Some c -> isspace c = false -> last (lstrip s) = Some c.
Proof.
  induction s as [|a s IH]; intros Hl Hc; [done|].
  simpl. destruct (isspace a) eqn:Ha; [|done].
  destruct s as [|b s]; simpl in Hl.
  - congruence.
  - apply IH; done.
Qed.

Lemma lstrip_fixed (s : str) (c : char) :
  head s = Some c -> isspace c = false -> lstrip s = s.
Proof.
  destruct s as [|a s]; intros Hh Hc; [done|].
  simpl in *. injection Hh as ->. by rewrite Hc.
Qed.

Lemma strip_keeps_text (s : str) (c : char) :
  last s = Some c -> isspace c = false -> nonempty (strip s) = true.
Proof.
  intros Hl Hc. unfold strip, rstrip.
  pose proof (lstrip_keeps_last s c Hl Hc) as Hl'.
  rewrite (lstrip_fixed (rev (lstrip s)) c).
  - rewrite rev_involutive. destruct (lstrip s); done.
  - rewrite <- (rev_involutive (lstrip s)) in Hl'.
    destruct (rev (lstrip s)) as [|x r]; [done|].
    simpl in Hl'. rewrite last_snoc in Hl'. done.
  - done.
Qed.

Lemma slice_tail (s : str) (i j : Z) (c : char) :
  i < len s -> len s <= j -> last s = Some c ->
  last (slice s i j) = Some c.
Proof.
  intros Hi Hj Hl. unfold slice, adjust.
  assert (Hn : 0 < len s) by (destruct s; [done | unfold len; simpl; lia]).
  replace (j <? 0) with false by (symmetry; apply Z.ltb_ge; lia).
  rewrite (Z.min_r j) by lia.
  set (a := if i <? 0 then Z.max 0 (i + len s) else Z.min i (len s)).
  assert (Ha : 0 <= a < len s).
  { subst a. destruct (i <? 0) eqn:E; [apply Z.ltb_lt in E|apply Z.ltb_ge in E]; lia. }
  rewrite take_ge by (rewrite length_drop; unfold len in *; lia).
  rewrite last_lookup, length_drop, lookup_drop.
  rewrite last_lookup in Hl. rewrite <- Hl. f_equal.
  unfold len in *. lia.
Qed.

End Builtins.

(** * The chunk splitter *)

Section ChunkText.

Import PDFHandler.

Lemma find_break_inv (T : str) (ixs : list Z) (e0 e : Z) :
  find_break T ixs e0 = Ok e ->
  e = e0 \/ exists i, i ∈ ixs /\ e = i + 1.
Proof.
  induction ixs as [|i ixs IH]; cbn [find_break]; intros H.
  - left. congruence.
  - destruct (index T i) as [c|] eqn:Hc; py_bind; [|done].
    destruct (char_in c sentence_ends).
    + right. exists i. split; [left | congruence].
    + destruct (IH H) as [->|(j & Hj & ->)]; [by left|].
      right. exists j. split; [by right | done].
Qed.

Lemma find_break_total (T : str) (ixs : list Z) (e0 : Z) :
  (forall i, i ∈ ixs -> 0 <= i < len T) ->
  exists e, find_break T ixs e0 = Ok e.
Proof.
  induction ixs as [|i ixs IH]; cbn [find_break]; intros Hin; [eauto|].
  destruct (index_in_range T i) as [c ->]; [apply Hin; left|]. py_bind.
  destruct (char_in c sentence_ends); [eauto|].
  apply IH. intros j Hj. apply Hin. by right.
Qed.

(** The window end is the naive end, or a sentence break inside the
    look-back range, which lies inside the text. *)
Lemma window_end_inv (self : t) (T : str) (start e : Z) :
  window_end self T start = Ok e ->
  e = start + chunk_size self \/
  (start + chunk_size self < len T /\
   Z.max start (start + chunk_size self - 100) + 2 <= e
     <= start + chunk_size self + 1).
Proof.
  unfold window_end. intros H.
  destruct (start + chunk_size self <? len T) eqn:Hlt.
  - apply Z.ltb_lt in Hlt.
    apply find_break_inv in H as [->|(i & Hi & ->)]; [by left|].
    apply elem_of_range_down in Hi. right. lia.
  - left. congruence.
Qed.

Lemma window_end_total (self : t) (T : str) (start : Z) :
  0 <= start -> exists e, window_end self T start = Ok e.
Proof.
  intros Hs. unfold window_end.
  destruct (start + chunk_size self <? len T) eqn:Hlt; [|eauto].
  apply Z.ltb_lt in Hlt. apply find_break_total.
  intros i Hi. apply elem_of_range_down in Hi. lia.
Qed.

(** One unfolding of the loop, for a start offset inside the text. *)
Lemma chunk_loop_step (fuel : nat) (self : t) (T : str)
    (start cid : Z) (chunks : list chunk) (e : Z) :
  start < len T ->
  window_end self T start = Ok e ->
  chunk_loop (S fuel) self T start cid chunks =
  if nonempty (strip (slice T start e)) then
    chunk_loop fuel self T (e - chunk_overlap self) (cid + 1)
      (chunks ++ [Chunk cid (strip (slice T start e)) start e
                    (len (strip (slice T start e)))])
  else chunk_loop fuel self T (e - chunk_overlap self) cid chunks.
Proof.
  intros Hs He. cbn [chunk_loop].
  replace (start <? len T) with true by (symmetry; by apply Z.ltb_lt).
  by rewrite He.
Qed.

Lemma chunk_loop_exit (fuel : nat) (self : t) (T : str)
    (start cid : Z) (chunks : list chunk) :
  len T <= start ->
  chunk_loop (S fuel) self T start cid chunks = Some (Ok chunks).
Proof.
  intros Hs. cbn [chunk_loop].
  by replace (start <? len T) with false by (symmetry; by apply Z.ltb_ge).
Qed.

Lemma chunk_loop_last (self : t) (T : str) (c : char) :
  0 <= chunk_overlap self ->
  last T = Some c -> isspace c = false ->
  forall (fuel : nat) (start cid : Z) (chunks res : list chunk),
    start < len T ->
    chunk_loop fuel self T start cid chunks = Some (Ok res) ->
    exists k, last res = Some k /\ len T <= end_pos k /\
      (end_pos k = start_pos k + chunk_size self \/ end_pos k = len T).
Proof.
  intros Hov Hl Hc. induction fuel as [|fuel IH]; intros start cid chunks res Hs H;
    [done|].
  destruct (window_end self T start) as [e|x] eqn:He.
  2:{ cbn [chunk_loop] in H. replace (start <? len T) with true in H
        by (symmetry; by apply Z.ltb_lt). rewrite He in H. done. }
  rewrite (chunk_loop_step _ _ _ _ _ _ e Hs He) in H.
  destruct (Z.lt_ge_cases (e - chunk_overlap self) (len T)) as [Hin|Hout].
  - destruct (nonempty (strip (slice T start e))); eapply IH; eauto.
  - rewrite (strip_keeps_text _ c) in H;
      [|apply slice_tail; [done|lia|done]|done].
    destruct fuel as [|fuel]; [done|].
    rewrite chunk_loop_exit in H by done.
    injection H as <-. eexists. split; [apply last_snoc|]. simpl.
    split; [lia|].
    apply window_end_inv in He as [->|[? ?]]; [by left|right; lia].
Qed.

End ChunkText.

Section ChunkTextResults.

Import PDFHandler.

Lemma chunk_loop_terminates (self : t) (T : str) :
  0 <= chunk_overlap self ->
  chunk_overlap self + 99 <= chunk_size self ->
  forall (fuel : nat) (start cid : Z) (chunks : list chunk),
    0 <= start -> len T - start <= Z.of_nat fuel ->
    exists res, chunk_loop (S fuel) self T start cid chunks = Some (Ok res).
Proof.
  intros Hov Hwide. induction fuel as [|fuel IH]; intros start cid chunks H0 Hm.
  - rewrite chunk_loop_exit by lia. eauto.
  - destruct (Z.lt_ge_cases start (len T)) as [Hin|Hout].
    2:{ rewrite chunk_loop_exit by lia. eauto. }
    destruct (window_end_total self T start H0) as [e He].
    rewrite (chunk_loop_step _ _ _ _ _ _ e Hin He).
    assert (start < e - chunk_overlap self)
      by (apply window_end_inv in He as [->|[? ?]]; lia).
    destruct (nonempty (strip (slice T start e))); apply IH; lia.
Qed.

(** With a window at least 99 characters wider than the overlap, which
    the default configuration has, the splitter returns. *)
Lemma chunk_text_terminates (self : t) (T : str) :
  0 <= chunk_overlap self ->
  chunk_overlap self + 99 <= chunk_size self ->
  exists chunks, chunk_text (S (length T)) self T = Some (Ok chunks).
Proof.
  intros Hov Hwide. apply chunk_loop_terminates; unfold len; lia.
Qed.

(** With such a configuration a text that does not end in whitespace
    always gets a last chunk, whose [end_pos] is at least the length of
    the text. *)
Lemma chunk_text_wide_last (self : t) (T : str) (c : char) :
  0 <= chunk_overlap self ->
  chunk_overlap self + 99 <= chunk_size self ->
  last T = Some c -> isspace c = false ->
  exists chunks k,
    chunk_text (S (length T)) self T = Some (Ok chunks) /\
    last chunks = Some k /\ len T <= end_pos k.
Proof.
  intros Hov Hwide Hl Hc.
  destruct (chunk_text_terminates self T Hov Hwide) as [chunks Hchunks].
  destruct (chunk_loop_last self T c Hov Hl Hc (S (length T)) 0 0 [] chunks)
    as (k & Hk & Hend & _); [|exact Hchunks|by exists chunks, k].
  destruct T; [done | unfold len; simpl; lia].
Qed.

(** From offset 20 the window snaps back to the full stop at offset 24,
    and the next start offset is 25 - 5 = 20 again. *)
Lemma narrow_loop_repeats (fuel : nat) (cid : Z) (chunks : list chunk) :
  chunk_loop (S fuel) narrow cat_dog_birds 20 cid chunks =
  chunk_loop fuel narrow cat_dog_birds 20 (cid + 1) (chunks ++ [ran_chunk cid]).
Proof. reflexivity. Qed.

Lemma narrow_loop_spins (fuel : nat) :
  forall (cid : Z) (chunks : list chunk),
    chunk_loop fuel narrow cat_dog_birds 20 cid chunks = None.
Proof.
  induction fuel as [|fuel IH]; intros cid chunks; [done|].
  rewrite narrow_loop_repeats. apply IH.
Qed.

Lemma narrow_reaches_20 (fuel : nat) :
  chunk_text (S (S fuel)) narrow cat_dog_birds =
  chunk_loop fuel narrow cat_dog_birds 20 2
    [ {| chunk_id := 0; text := lit "The cat sat."; start_pos := 0;
         end_pos := 12; chunk_len := 12 |};
      {| chunk_id := 1; text := lit "sat. The dog ran."; start_pos := 7;
         end_pos := 25; chunk_len := 17 |} ].
Proof. reflexivity. Qed.

(** C4: on the document "The cat sat. The dog ran. Birds fly south." with
    chunk_size=20 and overlap=5 (0 <= overlap < chunk_size) the loop of
    [chunk_text] never exits: whatever the number of iterations allowed,
    the start offset is still inside the text. *)
Theorem chunk_text_never_returns (fuel : nat) :
  chunk_text fuel narrow cat_dog_birds = None.
Proof.
  destruct fuel as [|[|fuel]]; [done..|].
  rewrite narrow_reaches_20. apply narrow_loop_spins.
Qed.

(** C5, as the code has it: when [chunk_text] returns for a text that
    does not end in whitespace, the last chunk's [end_pos] is at least
    the length of the text; it is the unclamped window end
    [start_pos + chunk_size], or a sentence break at exactly the length
    of the text. *)
Theorem chunk_text_last_end_pos (fuel : nat) (self : t) (T : str)
    (c : char) (chunks : list chunk) :
  0 <= chunk_overlap self ->
  last T = Some c -> isspace c = false ->
  chunk_text fuel self T = Some (Ok chunks) ->
  exists k, last chunks = Some k /\ len T <= end_pos k /\
    (end_pos k = start_pos k + chunk_size self \/ end_pos k = len T).
Proof.
  intros Hov Hl Hc H.
  apply (chunk_loop_last self T c Hov Hl Hc fuel 0 0 [] chunks); [|done].
  destruct T; [done | unfold len; simpl; lia].
Qed.

Lemma chunk_text_last_end_pos_witness :
  exists k, last [hello_chunk] = Some k /\ len (lit "hello") <= end_pos k /\
    (end_pos k = start_pos k + chunk_size default \/
     end_pos k = len (lit "hello")).
Proof.
  apply (chunk_text_last_end_pos 2 default (lit "hello") 111%N [hello_chunk]).
  - simpl. lia.
  - reflexivity.
  - reflexivity.
  - reflexivity.
Defined.

(** C5 as stated fails: for the text "hello" and the default
    configuration the only chunk records [end_pos] = 1000, not 5. *)
Lemma chunk_text_end_pos_counterexample :
  chunk_text 2 default (lit "hello") = Some (Ok [hello_chunk]) /\
  last [hello_chunk] = Some hello_chunk /\
  end_pos hello_chunk = 1000 /\
  len (lit "hello") = 5 /\
  end_pos hello_chunk <> len (lit "hello").
Proof. repeat split; try reflexivity. discriminate. Qed.

End ChunkTextResults.

(** * The streaming chat client *)

Section StreamingChat.

Import OllamaClient Stream.

Variable requests_post : str -> json -> bool -> result Requests.response.
Variable json_loads : bytes -> result json.

Abbreviation read_line := (read_line json_loads).
Abbreviation read_lines := (read_lines json_loads).
Abbreviation goes_on := (goes_on json_loads).
Abbreviation fragments := (fragments json_loads).
Abbreviation chat := (chat requests_post json_loads).

(** What the body does with a line does not depend on the fragments
    accumulated before it, which it only extends. *)
Lemma read_line_extends (line : bytes) (parts : list json) :
  read_line line parts =
  match read_line line [] with
  | Continue p => Continue (parts ++ p)
  | Leave p r => Leave (parts ++ p) r
  end.
Proof.
  unfold OllamaClient.read_line.
  destruct (negb (nonempty line)); [by rewrite app_nil_r|].
  destruct (json_loads line) as [chunk|e]; [|by rewrite app_nil_r].
  destruct (_ ← get chunk (lit "message") (JDict []); _) as [token|e];
    [|by rewrite app_nil_r].
  destruct (get chunk (lit "done") JNull) as [done|e];
    destruct (truthy token); try destruct (truthy done);
    by rewrite ?app_nil_r.
Qed.

Lemma read_lines_through (lines : list bytes) (raises : option exn)
    (parts : list json) :
  forallb goes_on lines = true ->
  read_lines lines raises parts = (parts ++ fragments lines, raises).
Proof.
  revert parts raises.
  induction lines as [|line lines IH]; intros parts raises Hgo.
  - cbn. by rewrite app_nil_r.
  - cbn [forallb] in Hgo. apply andb_true_iff in Hgo as [Hl Hgo].
    unfold Stream.fragments. cbn [OllamaClient.read_lines].
    rewrite (read_line_extends line parts).
    unfold Stream.goes_on in Hl.
    destruct (read_line line []) as [p|p r]; [|done].
    rewrite (IH (parts ++ p) raises Hgo), (IH p None Hgo). cbn [fst].
    by rewrite app_assoc.
Qed.

Lemma read_lines_leaves (lines1 lines2 : list bytes) (line : bytes)
    (raises r : option exn) (p parts : list json) :
  forallb goes_on lines1 = true ->
  read_line line [] = Leave p r ->
  read_lines (lines1 ++ line :: lines2) raises parts =
  (parts ++ fragments lines1 ++ p, r).
Proof.
  revert parts. induction lines1 as [|l lines1 IH]; intros parts Hgo Hl.
  - cbn [app OllamaClient.read_lines]. rewrite (read_line_extends line parts), Hl.
    done.
  - cbn [forallb] in Hgo. apply andb_true_iff in Hgo as [Hl1 Hgo].
    unfold Stream.fragments. cbn [app OllamaClient.read_lines].
    rewrite (read_line_extends l parts).
    unfold Stream.goes_on in Hl1.
    destruct (read_line l []) as [q|q r']; [|done].
    rewrite (IH (parts ++ q) Hgo Hl).
    rewrite (read_lines_through lines1 None q Hgo). cbn [fst].
    by rewrite !app_assoc.
Qed.

(** An empty line is skipped. *)
Lemma read_lines_skips_empty (lines1 lines2 : list bytes)
    (raises : option exn) (parts : list json) :
  read_lines (lines1 ++ [] :: lines2) raises parts =
  read_lines (lines1 ++ lines2) raises parts.
Proof.
  revert parts. induction lines1 as [|l lines1 IH]; intros parts; [done|].
  cbn [app OllamaClient.read_lines].
  destruct (read_line l parts); [apply IH | done].
Qed.

Lemma read_line_malformed (line : bytes) (e : exn) :
  nonempty line = true -> json_loads line = Raise e ->
  read_line line [] = Leave [] (Some e).
Proof.
  intros Hne He. unfold OllamaClient.read_line. by rewrite Hne, He.
Qed.

Lemma join_items_strings (frags : list str) (i : Z) :
  join_items i (map JStr frags) = Ok (concat frags).
Proof.
  revert i. induction frags as [|s frags IH]; intros i; [done|].
  cbn [map join_items concat]. rewrite IH. done.
Qed.

(** C1, as the code has it: a non-empty line that [json.loads] rejects,
    reached by the loop, ends the chat call with the decoder's
    exception; the line is not skipped, the rest of the body is not read,
    and the fragments accumulated before it are not returned. *)
Theorem chat_malformed_line_raises (self : t) (messages : list json)
    (model : option str) (temperature : option float)
    (max_tokens : option Z) (resp : Requests.response)
    (lines1 lines2 : list bytes) (line : bytes) (e : exn) :
  requests_post (chat_url self)
    (streamed (chat_payload self messages model temperature max_tokens))
    true = Ok resp ->
  Requests.raise_for_status resp = Ok tt ->
  Requests.iter_lines resp = lines1 ++ line :: lines2 ->
  forallb goes_on lines1 = true ->
  nonempty line = true ->
  json_loads line = Raise e ->
  exn_cls e = JSONDecodeErrorC ->
  chat self messages model temperature max_tokens = Raise e.
Proof.
  intros Hpost Hstatus Hbody Hgo Hne Hbad Hcls.
  unfold OllamaClient.chat, _stream_chat, try_block.
  rewrite Hpost, Hstatus, Hbody.
  rewrite (read_lines_leaves lines1 lines2 line _ (Some e) [] [] Hgo
             (read_line_malformed line e Hne Hbad)).
  unfold isinstance. rewrite Hcls. done.
Qed.

(** The handler that the code has for [Timeout]: it returns the stripped
    concatenation of the fragments when there is at least one, and raises
    the timeout error when there is none.  It is the clause that the
    comment "Return whatever was generated so far" belongs to; it acts on
    an exception of class [Timeout] only. *)
Lemma timeout_handler_returns_partial (self : t) (messages : list json)
    (model : option str) (temperature : option float)
    (max_tokens : option Z) (resp : Requests.response)
    (e : exn) (frags : list str) :
  requests_post (chat_url self)
    (streamed (chat_payload self messages model temperature max_tokens))
    true = Ok resp ->
  Requests.raise_for_status resp = Ok tt ->
  forallb goes_on (Requests.iter_lines resp) = true ->
  Requests.iter_raises resp = Some e ->
  exn_cls e = ReadTimeoutC ->
  fragments (Requests.iter_lines resp) = map JStr frags ->
  chat self messages model temperature max_tokens =
  if nonempty frags then Ok (strip (concat frags))
  else Raise (Exn ExceptionC msg_timed_out).
Proof.
  intros Hpost Hstatus Hgo Hraises Hcls Hfrags.
  unfold OllamaClient.chat, _stream_chat, try_block.
  rewrite Hpost, Hstatus, (read_lines_through _ _ [] Hgo), Hraises, Hfrags.
  cbn [app]. unfold isinstance. rewrite Hcls. cbn [issubclass].
  replace (issubclass ReadTimeoutC ConnectionErrorC) with false by done.
  replace (issubclass ReadTimeoutC TimeoutC) with true by done.
  destruct frags as [|s frags]; [done|].
  cbn [map nonempty]. unfold joined.
  change (JStr s :: map JStr frags) with (map JStr (s :: frags)).
  rewrite join_items_strings. done.
Qed.

(** A timeout that [requests.post] raises, before any line of the body
    has been read, ends the chat call with the timeout error. *)
Lemma chat_timeout_before_headers (self : t) (messages : list json)
    (model : option str) (temperature : option float)
    (max_tokens : option Z) (e : exn) :
  requests_post (chat_url self)
    (streamed (chat_payload self messages model temperature max_tokens))
    true = Raise e ->
  isinstance e ConnectionErrorC = false ->
  isinstance e TimeoutC = true ->
  chat self messages model temperature max_tokens =
  Raise (Exn ExceptionC msg_timed_out).
Proof.
  intros Hpost Hconn Htime.
  unfold OllamaClient.chat, _stream_chat, try_block.
  rewrite Hpost, Hconn, Htime. done.
Qed.

(** C2 fails on the code.  A read timeout that strikes while the body is
    streamed reaches the client as a [ConnectionError], so the handler for
    connection errors takes it: the chat call raises the "Cannot connect"
    exception whatever fragments have been accumulated, and the handler
    for [Timeout], which would return them, is passed by. *)
Theorem chat_read_timeout_loses_fragments (self : t)
    (messages : list json) (model : option str)
    (temperature : option float) (max_tokens : option Z)
    (resp : Requests.response) (msg : str) :
  requests_post (chat_url self)
    (streamed (chat_payload self messages model temperature max_tokens))
    true = Ok resp ->
  Requests.raise_for_status resp = Ok tt ->
  forallb goes_on (Requests.iter_lines resp) = true ->
  Requests.iter_raises resp = Some (Requests.stream_read_timeout msg) ->
  chat self messages model temperature max_tokens =
  Raise (Exn ExceptionC msg_cannot_connect).
Proof.
  intros Hpost Hstatus Hgo Hraises.
  unfold OllamaClient.chat, _stream_chat, try_block.
  rewrite Hpost, Hstatus, (read_lines_through _ _ [] Hgo), Hraises.
  done.
Qed.

End StreamingChat.

(** * The vector index *)

Section Index.

Import Chroma.

Variable distance : json -> json -> float.
Variable accepts : gmap str item -> json -> bool.
Variable on_existing : existing_id.

Lemma get_or_create_lookup (name : str) (md : json) (db : client) :
  exists c, get_or_create_collection name md db !! name = Some c /\
    items c = stored name db.
Proof.
  unfold get_or_create_collection, stored.
  destruct (db !! name) as [c|] eqn:Hc.
  - exists c. by rewrite Hc.
  - eexists. by rewrite lookup_insert_eq.
Qed.

Lemma get_or_create_idem (name : str) (md : json) (db : client) :
  get_or_create_collection name md (get_or_create_collection name md db) =
  get_or_create_collection name md db.
Proof.
  destruct (get_or_create_lookup name md db) as (c & Hc & _).
  unfold get_or_create_collection at 1. by rewrite Hc.
Qed.

Lemma count_zero (name : str) (db : client) :
  count name db = 0 <-> stored name db = ∅.
Proof.
  unfold count. rewrite <- map_size_empty_iff. lia.
Qed.

Lemma stored_get_or_create (name : str) (md : json) (db : client) :
  stored name (get_or_create_collection name md db) = stored name db.
Proof.
  destruct (get_or_create_lookup name md db) as (c & Hc & Hi).
  unfold stored at 1. by rewrite Hc.
Qed.

(** Adding the same batch again leaves the index as the first call left
    it, whatever the library does with ids that are already stored. *)
Lemma add_twice (name : str) (embeddings : list json)
    (documents ids : list str) (metadatas : list json) (db db1 : client) :
  add accepts on_existing name embeddings documents ids metadatas db = Ok db1 ->
  match add accepts on_existing name embeddings documents ids metadatas db1 with
  | Ok db2 => db2 = db1
  | Raise _ => True
  end.
Proof.
  unfold add. intros H.
  destruct (db !! name) as [c|] eqn:Hc; [|done].
  destruct (negb (nonempty ids)); [done|].
  destruct (negb _); [done|].
  destruct (negb (bool_decide (NoDup ids))); [done|].
  destruct (negb (forallb (accepts (items c)) embeddings)); [done|].
  set (new := list_to_map (zip_records ids embeddings documents metadatas)) in *.
  destruct on_existing.
  - injection H as <-. rewrite lookup_insert_eq. cbn [items coll_metadata].
    destruct (negb _); [done|].
    by rewrite <- map_union_assoc, map_union_idemp, insert_insert_eq.
  - injection H as <-. rewrite lookup_insert_eq. cbn [items coll_metadata].
    destruct (negb _); [done|].
    by rewrite map_union_assoc, map_union_idemp, insert_insert_eq.
  - destruct (bool_decide _); [|done].
    injection H as <-. rewrite lookup_insert_eq. cbn [items coll_metadata].
    destruct (negb _); [done|]. destruct (bool_decide _); [|done].
    by rewrite map_union_assoc, map_union_idemp, insert_insert_eq.
Qed.

Lemma query_length (name : str) (q : json) (n : Z) (db : client)
    (res : query_result) :
  query distance accepts name [q] n db = Ok res ->
  (length (VectorDB.first_or_empty (qr_documents res)) <= Z.to_nat n)%nat.
Proof.
  unfold query. intros H.
  destruct (db !! name) as [c|]; [|done].
  destruct (n <=? 0); [done|].
  destruct (negb _); [done|].
  injection H as <-. cbn. rewrite length_map, length_take. lia.
Qed.

End Index.

Section VectorIndex.

Import VectorDB.

Variable requests_post : str -> json -> bool -> result Requests.response.
Variable distance : json -> json -> float.
Variable accepts : gmap str Chroma.item -> json -> bool.
Variable on_existing : Chroma.existing_id.
Variable md5_hexdigest : str -> str.
Variable settings : Config.Settings.
Variable ollama_client : OllamaClient.t.

Abbreviation add_documents :=
  (VectorDB.add_documents requests_post accepts on_existing md5_hexdigest
     settings ollama_client).
Abbreviation query_documents :=
  (VectorDB.query_documents requests_post distance accepts md5_hexdigest
     settings ollama_client).
Abbreviation collection_name := (create_collection_name md5_hexdigest).

Lemma add_keeps_collection (name : str) (embeddings : list json)
    (documents ids : list str) (metadatas : list json)
    (db db1 : Chroma.client) :
  Chroma.add accepts on_existing name embeddings documents ids metadatas db
    = Ok db1 ->
  get_or_create_collection name db1 = db1.
Proof.
  unfold Chroma.add. intros H.
  assert (is_Some (db1 !! name)) as [c Hc].
  { destruct (db !! name) as [c|]; [|done].
    repeat (destruct (negb _); [done|]).
    destruct on_existing; try destruct (bool_decide _); try done;
      injection H as <-; rewrite lookup_insert_eq; eauto. }
  unfold get_or_create_collection, Chroma.get_or_create_collection.
  by rewrite Hc.
Qed.

Lemma add_documents_again (self : t) (pdf_url : str) (chunks : list str)
    (metadata : option (list json)) (db : Chroma.client) :
  snd (add_documents self pdf_url chunks metadata
         (snd (add_documents self pdf_url chunks metadata db))) =
  snd (add_documents self pdf_url chunks metadata db).
Proof.
  unfold VectorDB.add_documents.
  set (name := collection_name pdf_url).
  set (db' := get_or_create_collection name db).
  assert (Hidem : get_or_create_collection name db' = db')
    by apply get_or_create_idem.
  destruct (get_embeddings requests_post settings ollama_client self chunks)
    as [embeddings|e] eqn:Hemb.
  2:{ cbn [snd]. rewrite Hidem. done. }
  set (ids := map _ (range (len chunks))).
  set (mds := match metadata with Some m => m | None => _ end).
  destruct (Chroma.add accepts on_existing name embeddings chunks ids mds db')
    as [db1|e] eqn:Hadd; cbn [snd].
  - rewrite (add_keeps_collection _ _ _ _ _ _ _ Hadd).
    pose proof (add_twice accepts on_existing _ _ _ _ _ _ _ Hadd) as Htwice.
    destruct (Chroma.add accepts on_existing name embeddings chunks ids mds db1);
      [by subst | done].
  - rewrite Hidem, Hadd. done.
Qed.

(** C7: a search on a collection that does not exist, or that holds no
    item, returns empty [documents], [distances] and [metadatas], and
    does not raise. *)
Theorem query_documents_empty_collection (self : t) (pdf_url query : str)
    (n_results : Z) (db : Chroma.client) :
  db !! collection_name pdf_url = None \/
  (exists c, db !! collection_name pdf_url = Some c /\ Chroma.items c = ∅) ->
  fst (query_documents self pdf_url query n_results db) =
  Ok {| documents := []; distances := []; metadatas := [] |}.
Proof.
  intros H. unfold VectorDB.query_documents.
  replace (Chroma.count _ _ =? 0) with true; [done|].
  symmetry. apply Z.eqb_eq, count_zero.
  unfold get_or_create_collection. rewrite stored_get_or_create.
  unfold Chroma.stored. destruct H as [->|(c & -> & ->)]; done.
Qed.

(** C8, as the code has it: an existence check leaves the stored
    collections unchanged; a search leaves them unchanged when the
    collection of the identifier exists, and otherwise creates that
    collection, empty, as an upsert would. *)
Theorem search_creates_missing_collection (self : t) (pdf_url query : str)
    (n_results : Z) (db : Chroma.client) :
  snd (collection_exists md5_hexdigest pdf_url db) = db /\
  snd (query_documents self pdf_url query n_results db) =
  match db !! collection_name pdf_url with
  | Some _ => db
  | None =>
      <[collection_name pdf_url := Chroma.Collection cosine_space ∅]> db
  end.
Proof.
  split; [done|]. unfold VectorDB.query_documents.
  set (db' := get_or_create_collection _ db).
  assert (Hdb' : db' = match db !! collection_name pdf_url with
                       | Some _ => db
                       | None => <[collection_name pdf_url :=
                                     Chroma.Collection cosine_space ∅]> db
                       end) by done.
  rewrite <- Hdb'.
  destruct (Chroma.count _ db' =? 0); [done|].
  destruct (get_embeddings _ _ _ _ _) as [[|q qs]|e]; try done.
  destruct (Chroma.query _ _ _ _ _ _); done.
Qed.

Lemma query_documents_length (self : t) (pdf_url query : str)
    (n_results : Z) (db : Chroma.client) (sr : search_results) :
  fst (query_documents self pdf_url query n_results db) = Ok sr ->
  (length (documents sr) <= Z.to_nat n_results)%nat.
Proof.
  unfold VectorDB.query_documents.
  destruct (Chroma.count _ _ =? 0); cbn [fst].
  - intros [= <-]. cbn. lia.
  - destruct (get_embeddings _ _ _ _ _) as [[|q qs]|e]; try done.
    destruct (Chroma.query _ _ _ _ _ _) as [res|e] eqn:Hq; [|done].
    cbn [fst]. intros [= <-]. cbn [documents].
    apply query_length in Hq. lia.
Qed.

End VectorIndex.

(** * Embeddings *)

Section Embeddings.

Variable requests_post : str -> json -> bool -> result Requests.response.
Variable settings : Config.Settings.
Variable ollama_client : OllamaClient.t.

Abbreviation embed_one :=
  (OllamaClient.embed_one requests_post settings ollama_client).
Abbreviation embeddings :=
  (OllamaClient.embeddings requests_post settings ollama_client).
Abbreviation get_embeddings :=
  (VectorDB.get_embeddings requests_post settings ollama_client).

Lemma embeddings_loop_spec (model : option str) (texts : list str) :
  forall results vs,
    OllamaClient.embeddings_loop requests_post settings ollama_client
      texts model results = Ok vs <->
    exists ws, vs = results ++ ws /\
      Forall2 (fun text v => embed_one model text = Ok v) texts ws.
Proof.
  induction texts as [|text texts IH]; intros results vs;
    cbn [OllamaClient.embeddings_loop].
  - split.
    + intros [= <-]. exists []. by rewrite app_nil_r.
    + intros (ws & -> & Hws). apply Forall2_nil_inv_l in Hws as ->.
      by rewrite app_nil_r.
  - destruct (embed_one model text) as [v|e] eqn:Hv; py_bind.
    + rewrite IH. split.
      * intros (ws & -> & Hws). exists (v :: ws).
        split; [by rewrite <- app_assoc | by constructor].
      * intros (ws & -> & Hws).
        apply Forall2_cons_inv_l in Hws as (v' & ws' & Hv' & Hws' & ->).
        assert (v' = v) as -> by congruence.
        exists ws'. split; [by rewrite <- app_assoc | done].
    + split; [done|]. intros (ws & _ & Hws).
      apply Forall2_cons_inv_l in Hws as (v' & ws' & Hv' & _). congruence.
Qed.

(** The remote variant returns exactly when every text gets a vector,
    and then the vectors are those of the texts, position by position. *)
Lemma embeddings_spec (model : option str) (texts : list str)
    (vs : list json) :
  embeddings texts model = Ok vs <->
  Forall2 (fun text v => embed_one model text = Ok v) texts vs.
Proof.
  unfold OllamaClient.embeddings. rewrite embeddings_loop_spec. split.
  - by intros (ws & -> & Hws).
  - intros H. by exists vs.
Qed.

Lemma embed_one_missing_field (model : option str) (text : str)
    (d : list (str * json)) :
  OllamaClient._post requests_post ollama_client (lit "/api/embeddings")
    (JDict [(lit "model",
             JStr (OllamaClient.model_or model
                     (Config.OLLAMA_EMBEDDING_MODEL settings)));
            (lit "prompt", JStr text)]) = Ok (JDict d) ->
  assoc (lit "embedding") d = None ->
  embed_one model text = Ok (JList []).
Proof.
  intros Hpost Hd. unfold OllamaClient.embed_one. rewrite Hpost. py_bind.
  unfold get. rewrite Hd. done.
Qed.

(** C9: when [get_embeddings] returns, it returns one vector per input
    text, in the order of the texts.  For the remote variant the vector
    at a position is the one extracted from the response for the text at
    that position, and it is empty when the response has no
    ["embedding"] field.  For the local variant the vectors are the rows
    that the model's [encode] returns, which is taken to return one row
    per text. *)
Theorem get_embeddings_one_per_text (self : VectorDB.t) (texts : list str)
    (vs : list json) :
  (forall encode rows,
      VectorDB.embedding_model self = Some encode ->
      encode texts = Ok rows -> length rows = length texts) ->
  get_embeddings self texts = Ok vs ->
  length vs = length texts /\
  (VectorDB.embeddings_provider self = lit "ollama" ->
   Forall2 (fun text v => embed_one None text = Ok v) texts vs /\
   forall (i : nat) (text : str) (d : list (str * json)),
     texts !! i = Some text ->
     OllamaClient._post requests_post ollama_client (lit "/api/embeddings")
       (JDict [(lit "model",
                JStr (Config.OLLAMA_EMBEDDING_MODEL settings));
               (lit "prompt", JStr text)]) = Ok (JDict d) ->
     assoc (lit "embedding") d = None ->
     vs !! i = Some (JList [])) /\
  (VectorDB.embeddings_provider self <> lit "ollama" ->
   exists encode rows,
     VectorDB.embedding_model self = Some encode /\
     encode texts = Ok rows /\ vs = map VectorDB.tolist rows).
Proof.
  intros Hencode. unfold VectorDB.get_embeddings.
  destruct (decide (VectorDB.embeddings_provider self = lit "ollama"))
    as [Hp|Hp].
  - intros H. apply embeddings_spec in H.
    split; [symmetry; by eapply Forall2_length|].
    split; [|done]. intros _. split; [done|].
    intros i text d Hi Hpost Hd.
    destruct (Forall2_lookup_l _ _ _ _ _ H Hi) as (v & Hv & Hev).
    rewrite Hv. f_equal.
    pose proof (embed_one_missing_field None text d Hpost Hd). congruence.
  - destruct (VectorDB.embedding_model self) as [encode|] eqn:Hm; [|done].
    destruct (encode texts) as [rows|e] eqn:Hrows; [|done]. py_bind.
    intros [= <-]. rewrite length_map.
    split; [by apply (Hencode encode)|].
    split; [done|]. intros _. by exists encode, rows.
Qed.

End Embeddings.

(** * The answerer *)

Section Answerer.

Import QASystem.

Variable requests_post : str -> json -> bool -> result Requests.response.
Variable json_loads : bytes -> result json.
Variable distance : json -> json -> float.
Variable accepts : gmap str Chroma.item -> json -> bool.
Variable md5_hexdigest : str -> str.
Variable settings : Config.Settings.
Variable ollama_client : OllamaClient.t.
Variable vector_db : VectorDB.t.

Abbreviation answer_question :=
  (QASystem.answer_question requests_post json_loads distance accepts
     md5_hexdigest settings ollama_client vector_db).
Abbreviation get_suggested_questions :=
  (QASystem.get_suggested_questions requests_post json_loads ollama_client).
Abbreviation search :=
  (VectorDB.query_documents requests_post distance accepts md5_hexdigest
     settings ollama_client vector_db).
Abbreviation chat :=
  (OllamaClient.chat requests_post json_loads ollama_client).

Lemma every_exn_is_Exception (e : exn) : isinstance e ExceptionC = true.
Proof. destruct e as [[] ?]; reflexivity. Qed.

Lemma try_except_catches {A} (body : result A) (handler : exn -> result A) :
  try_except body handler =
  match body with Ok a => Ok a | Raise e => handler e end.
Proof.
  destruct body as [a|e]; [done|].
  unfold try_except. by rewrite every_exn_is_Exception.
Qed.

(** C3: the confidence that [answer_question] returns is never "high":
    the search it runs with [n_results=2] returns at most two contexts,
    and the confidence is "medium" when there is at least one context
    and "low" when there is none. *)
Theorem answer_question_confidence (self : t) (pdf_url question : str)
    (conversation_history : option (list json)) (db : Chroma.client)
    (r : answer_data) :
  fst (answer_question self pdf_url question conversation_history db) = Ok r ->
  exists sr,
    fst (search pdf_url question 2 db) = Ok sr /\
    (length (VectorDB.documents sr) <= 2)%nat /\
    confidence r =
      (if nonempty (VectorDB.documents sr) then lit "medium" else lit "low") /\
    confidence r <> lit "high".
Proof.
  unfold QASystem.answer_question.
  destruct (search pdf_url question 2 db) as [searched db'] eqn:Hs.
  cbn [fst]. rewrite try_except_catches.
  destruct searched as [sr|e]; py_bind; [|done].
  assert (Hlen : (length (VectorDB.documents sr) <= 2)%nat).
  { apply (query_documents_length requests_post distance accepts
             md5_hexdigest settings ollama_client vector_db pdf_url question
             2 db). by rewrite Hs. }
  intros H. exists sr. split; [done|]. split; [done|].
  destruct (VectorDB.documents sr) as [|ctx ctxs] eqn:Hdocs.
  - cbn in H. injection H as <-. done.
  - cbn [nonempty negb] in H.
    destruct (chat _ _ _ _) as [a|e]; [|done]. py_bind.
    injection H as <-. cbn [confidence].
    replace (3 <=? len (ctx :: ctxs)) with false
      by (symmetry; apply Z.leb_gt; unfold len; cbn [length] in *; lia).
    replace (1 <=? len (ctx :: ctxs)) with true
      by (symmetry; apply Z.leb_le; unfold len; cbn [length]; lia).
    done.
Qed.

Lemma slice_to_take {A} (l : list A) (n : Z) :
  0 <= n -> slice_to l n = take (Z.to_nat n) l.
Proof.
  intros Hn. unfold slice_to, slice, adjust.
  replace (0 <? 0) with false by done.
  replace (n <? 0) with false by (symmetry; apply Z.ltb_ge; lia).
  rewrite (Z.min_l 0) by (unfold len; lia).
  change (Z.to_nat 0) with 0%nat. rewrite drop_0, Z.sub_0_r. unfold len.
  destruct (Z.le_ge_cases n (Z.of_nat (length l))).
  - by rewrite Z.min_l by lia.
  - rewrite Z.min_r by lia. rewrite Nat2Z.id.
    rewrite !take_ge by lia. done.
Qed.

Lemma question_lines_spec (content q : str) :
  q ∈ question_lines content ->
  q <> [] /\ exists line, line ∈ split 10%N content /\ q = strip line.
Proof.
  unfold question_lines. intros H.
  apply list_elem_of_fmap in H as (line & -> & Hl).
  apply list_elem_of_filter in Hl as [Hne Hl].
  split; [by apply nonempty_true | by exists line].
Qed.

(** C10: [get_suggested_questions] always returns a list.  When the chat
    call fails the list is empty; otherwise it holds at most five
    questions, each of them non-empty and the stripped form of a line of
    the model's output. *)
Theorem get_suggested_questions_never_raises (self : t)
    (pdf_text_sample : str) :
  exists questions,
    get_suggested_questions self pdf_text_sample = Ok questions /\
    match chat (suggestion_messages pdf_text_sample) (Some (model self))
            (Some 0x1.6666666666666p-1%float) (Some 300) with
    | Raise _ => questions = []
    | Ok content =>
        (length questions <= 5)%nat /\
        forall q, q ∈ questions ->
          q <> [] /\ exists line, line ∈ split 10%N content /\ q = strip line
    end.
Proof.
  unfold QASystem.get_suggested_questions. rewrite try_except_catches.
  destruct (chat _ _ _ _) as [content|e]; py_bind; [|by exists []].
  eexists. split; [done|].
  rewrite slice_to_take by lia. split.
  - rewrite length_take. lia.
  - intros q Hq. apply question_lines_spec.
    by apply (subseteq_take 5).
Qed.

End Answerer.

(** * Worked examples *)

Section Worked.

Import OllamaClient.

(** A line that is no JSON text, between two fragments. *)
Lemma chat_malformed_line_raises_witness :
  chat (sample_post body_noise None) sample_json_loads sample_client hi
    None None (Some 5) = Raise json_error.
Proof.
  apply (chat_malformed_line_raises (sample_post body_noise None)
           sample_json_loads sample_client hi None None (Some 5)
           {| Requests.status_code := 200;
              Requests.reason := lit "OK";
              Requests.url := lit "http://localhost:11434/api/chat";
              Requests.iter_lines := body_noise;
              Requests.iter_raises := None;
              Requests.json_ := Ok (JDict []) |}
           [ollama_line " The" false]
           [ollama_line " dog" false; ollama_line "" true]
           not_json json_error); reflexivity.
Defined.

(** C1 as stated fails: with the line ["data: ping"] in the body the
    chat call raises the decoder's error, while the same body without
    that line gives "The dog"; the line is not skipped. *)
Lemma chat_malformed_line_counterexample :
  nonempty not_json = true /\
  sample_json_loads not_json = Raise json_error /\
  chat (sample_post body_noise None) sample_json_loads sample_client hi
    None None (Some 5) = Raise json_error /\
  chat (sample_post body_done None) sample_json_loads sample_client hi
    None None (Some 5) = Ok (lit "The dog").
Proof. repeat split; reflexivity. Qed.

(** Three fragments, then the backend stalls until the read times out:
    the fragments are lost. *)
Lemma chat_read_timeout_loses_fragments_witness :
  Stream.fragments sample_json_loads body_cut =
    [JStr (lit " The"); JStr (lit " dog"); JStr (lit " ran. ")] /\
  chat (sample_post body_cut (Some stream_timeout)) sample_json_loads
    sample_client hi None None (Some 5)
  = Raise (Exn ExceptionC msg_cannot_connect).
Proof.
  split; [reflexivity|].
  apply (chat_read_timeout_loses_fragments
           (sample_post body_cut (Some stream_timeout))
           sample_json_loads sample_client hi None None (Some 5)
           {| Requests.status_code := 200;
              Requests.reason := lit "OK";
              Requests.url := lit "http://localhost:11434/api/chat";
              Requests.iter_lines := body_cut;
              Requests.iter_raises := Some stream_timeout;
              Requests.json_ := Ok (JDict []) |}
           (lit "HTTPConnectionPool(host='localhost', port=11434): Read timed out."));
    reflexivity.
Defined.

(** One context retrieved: the confidence is "medium". *)
Lemma answer_question_confidence_witness :
  exists sr,
    fst (VectorDB.query_documents sample_backend sample_distance
           sample_accepts sample_md5 sample_settings sample_client
           remote_db animals_pdf dog_question 2 animals_index) = Ok sr /\
    (length (VectorDB.documents sr) <= 2)%nat /\
    QASystem.confidence dog_answer =
      (if nonempty (VectorDB.documents sr) then lit "medium" else lit "low") /\
    QASystem.confidence dog_answer <> lit "high".
Proof.
  apply (answer_question_confidence sample_backend sample_json_loads
           sample_distance sample_accepts sample_md5 sample_settings
           sample_client remote_db sample_qa animals_pdf dog_question None
           animals_index dog_answer).
  vm_compute. reflexivity.
Defined.

(** A search for a document that was never indexed. *)
Lemma query_documents_empty_collection_witness :
  fst (VectorDB.query_documents sample_backend sample_distance
         sample_accepts sample_md5 sample_settings sample_client remote_db
         missing_pdf dog_question 5 ∅) =
  Ok {| VectorDB.documents := []; VectorDB.distances := [];
        VectorDB.metadatas := [] |}.
Proof.
  apply (query_documents_empty_collection sample_backend sample_distance
           sample_accepts sample_md5 sample_settings sample_client remote_db
           missing_pdf dog_question 5 ∅).
  left. apply lookup_empty.
Defined.

(** C8 as stated fails: on an empty index, a search for an identifier
    that was never upserted leaves one collection behind, and the
    existence check, false before the search, is true after it. *)
Lemma search_creates_collection_counterexample :
  fst (VectorDB.collection_exists sample_md5 missing_pdf ∅) = false /\
  snd (VectorDB.query_documents sample_backend sample_distance
         sample_accepts sample_md5 sample_settings sample_client remote_db
         missing_pdf dog_question 2 ∅)
    = {[ missing_collection := Chroma.Collection VectorDB.cosine_space ∅ ]} /\
  Chroma.list_collections
    (snd (VectorDB.query_documents sample_backend sample_distance
            sample_accepts sample_md5 sample_settings sample_client
            remote_db missing_pdf dog_question 2 ∅))
    = [missing_collection] /\
  fst (VectorDB.collection_exists sample_md5 missing_pdf
         (snd (VectorDB.query_documents sample_backend sample_distance
                 sample_accepts sample_md5 sample_settings sample_client
                 remote_db missing_pdf dog_question 2 ∅))) = true.
Proof. repeat split; reflexivity. Qed.

(** Two texts through the remote variant; the response for the second
    has no ["embedding"] field. *)
Lemma get_embeddings_one_per_text_witness :
  length [sample_vector; JList []] = length [lit "The dog ran."; []] /\
  [sample_vector; JList []] !! 1%nat = Some (JList []).
Proof.
  destruct (get_embeddings_one_per_text sample_backend sample_settings
              sample_client remote_db [lit "The dog ran."; []]
              [sample_vector; JList []])
    as (Hlen & Hremote & _).
  - intros encode rows H. discriminate H.
  - reflexivity.
  - split; [exact Hlen|].
    destruct (Hremote eq_refl) as [_ Hmissing].
    apply (Hmissing 1%nat [] []); reflexivity.
Defined.

(** The last window of a text that ends in whitespace can strip to
    nothing; the last chunk returned is then an earlier one, and its
    [end_pos] is smaller than the length of the text. *)
Lemma chunk_text_trailing_blanks :
  PDFHandler.chunk_text 3 tiny trailing_blanks = Some (Ok [ab_chunk]) /\
  PDFHandler.end_pos ab_chunk = 3 /\ len trailing_blanks = 6.
Proof. repeat split; reflexivity. Qed.

(** The local variant returns the rows of its model, one per text; a
    provider without a model fails fast. *)
Lemma get_embeddings_local :
  VectorDB.get_embeddings sample_backend sample_settings sample_client
    local_db [lit "The cat sat."; lit "The dog ran."] =
  Ok [sample_vector; sample_vector] /\
  VectorDB.get_embeddings sample_backend sample_settings sample_client
    unconfigured_db [lit "The cat sat."] =
  Raise (Exn ExceptionC (lit "Sentence-Transformers model not initialized")).
Proof. split; reflexivity. Qed.

(** Adding the document of [animals_index] a second time changes
    nothing, and the search finds its one chunk. *)
Lemma add_documents_again_example :
  snd (VectorDB.add_documents sample_backend sample_accepts Chroma.KeepStored
         sample_md5 sample_settings sample_client remote_db animals_pdf
         [lit "The dog ran."] None animals_index) = animals_index /\
  fst (VectorDB.query_documents sample_backend sample_distance sample_accepts
         sample_md5 sample_settings sample_client remote_db animals_pdf
         dog_question 2 animals_index) =
  Ok {| VectorDB.documents := [lit "The dog ran."];
        VectorDB.distances := [0%float];
        VectorDB.metadatas := [JDict [(lit "chunk_index", JInt 0)]] |}.
Proof. split; vm_compute; reflexivity. Qed.

End Worked.

(** * More on the Python built-ins *)

Section MoreBuiltins.

Lemma rev_reverse {A} (l : list A) : rev l = reverse l.
Proof. unfold reverse. by rewrite <- rev_alt. Qed.

Lemma lstrip_head (s : str) (c : char) :
  head (lstrip s) = Some c -> isspace c = false.
Proof.
  induction s as [|a s IH]; cbn [lstrip]; [done|].
  destruct (isspace a) eqn:Ha; [done|].
  cbn. intros [= <-]. done.
Qed.

Lemma lstrip_suffix (s : str) : exists k, lstrip s = drop k s.
Proof.
  induction s as [|a s [k IH]]; cbn [lstrip]; [by exists 0%nat|].
  destruct (isspace a); [by exists (S k) | by exists 0%nat].
Qed.

(** [rstrip] keeps a prefix, whose last character is not whitespace. *)
Lemma rstrip_prefix (s : str) : exists n, rstrip s = take n s.
Proof.
  unfold rstrip. destruct (lstrip_suffix (rev s)) as [k ->].
  exists (length s - k)%nat.
  by rewrite !rev_reverse, drop_reverse, reverse_involutive.
Qed.

Lemma rstrip_last (s : str) (c : char) :
  last (rstrip s) = Some c -> isspace c = false.
Proof.
  unfold rstrip. intros H. apply (lstrip_head (rev s)).
  rewrite <- H. rewrite (rev_reverse (lstrip (rev s))).
  by rewrite last_reverse.
Qed.

Lemma strip_last (s : str) (c : char) :
  last (strip s) = Some c -> isspace c = false.
Proof. apply rstrip_last. Qed.

Lemma strip_head (s : str) (c : char) :
  head (strip s) = Some c -> isspace c = false.
Proof.
  unfold strip. destruct (rstrip_prefix (lstrip s)) as [n ->].
  intros H. apply (lstrip_head s).
  destruct n; [done|]. by destruct (lstrip s).
Qed.

Lemma rstrip_fixed (s : str) (c : char) :
  last s = Some c -> isspace c = false -> rstrip s = s.
Proof.
  intros Hl Hc. unfold rstrip. rewrite (lstrip_fixed (rev s) c).
  - apply rev_involutive.
  - rewrite rev_reverse, head_reverse. done.
  - done.
Qed.

Lemma strip_idem (s : str) : strip (strip s) = strip s.
Proof.
  destruct (strip s) as [|a t] eqn:Hs; [done|].
  rewrite <- Hs. unfold strip at 1.
  rewrite (lstrip_fixed (strip s) a).
  - destruct (last (strip s)) as [c|] eqn:Hl.
    + apply (rstrip_fixed _ c Hl). by apply (strip_last s).
    + apply last_None in Hl. by rewrite Hl in Hs.
  - by rewrite Hs.
  - apply (strip_head s). by rewrite Hs.
Qed.

Lemma lstrip_blank (s : str) : forallb isspace s = true -> lstrip s = [].
Proof.
  induction s as [|a s IH]; cbn; [done|].
  intros H. apply andb_true_iff in H as [-> H]. by apply IH.
Qed.

Lemma strip_blank (s : str) : forallb isspace s = true -> strip s = [].
Proof. intros H. unfold strip. by rewrite (lstrip_blank s H). Qed.

Lemma strip_length (s : str) : (length (strip s) <= length s)%nat.
Proof.
  unfold strip. destruct (rstrip_prefix (lstrip s)) as [n ->].
  destruct (lstrip_suffix s) as [k ->].
  rewrite length_take, length_drop. lia.
Qed.

Lemma slice_blank (s : str) (i j : Z) :
  forallb isspace s = true -> forallb isspace (slice s i j) = true.
Proof.
  intros H. unfold slice. apply forallb_forall. intros c Hc.
  rewrite forallb_forall in H. apply H.
  apply list_elem_of_In. apply list_elem_of_In in Hc.
  apply (subseteq_take _ _ _) in Hc. by apply (subseteq_drop _ _ _) in Hc.
Qed.

Lemma slice_length (s : str) (i j : Z) :
  0 <= i -> 0 <= j -> len (slice s i j) <= Z.max 0 (j - i).
Proof.
  intros Hi Hj. unfold slice, adjust, len.
  rewrite length_take, length_drop.
  destruct (i <? 0) eqn:E; [apply Z.ltb_lt in E; lia|].
  destruct (j <? 0) eqn:E'; [apply Z.ltb_lt in E'; lia|]. lia.
Qed.

End MoreBuiltins.

(** * More on the chunk splitter *)

Section ChunkInvariants.

Import PDFHandler ChunkSpec.

Lemma range_snoc {A} (l : list A) (x : A) :
  range (len (l ++ [x])) = range (len l) ++ [len l].
Proof.
  unfold range, len. rewrite length_app. cbn [length].
  rewrite !Nat2Z.id, Nat.add_1_r, seq_S, map_app. done.
Qed.

Lemma chained_snoc {A} (R : A -> A -> Prop) (l : list A) (c : A) :
  chained R l -> (forall k, last l = Some k -> R k c) ->
  chained R (l ++ [c]).
Proof.
  intros Hl Hc i a b Ha Hb.
  destruct (decide (S i < length l)%nat) as [Hi|Hi].
  - rewrite lookup_app_l in Ha by lia. rewrite lookup_app_l in Hb by lia.
    by apply (Hl i).
  - assert (S i = length l) as Hi'.
    { apply lookup_lt_Some in Hb. rewrite length_app in Hb. cbn in Hb. lia. }
    rewrite lookup_app_l in Ha by lia.
    rewrite lookup_app_r in Hb by lia.
    replace (S i - length l)%nat with 0%nat in Hb by lia.
    injection Hb as <-. apply Hc. rewrite last_lookup, <- Hi'. done.
Qed.

Lemma cut_from_new (T : str) (cid start e : Z) :
  nonempty (strip (slice T start e)) = true ->
  cut_from T (Chunk cid (strip (slice T start e)) start e
                (len (strip (slice T start e)))).
Proof.
  intros Hne. unfold cut_from. cbn.
  split; [done|]. split; [by apply nonempty_true|].
  split; [apply strip_idem | done].
Qed.

Lemma chunk_loop_wellformed (self : t) (T : str) :
  forall (fuel : nat) (start cid : Z) (chunks res : list chunk),
    chunk_loop fuel self T start cid chunks = Some (Ok res) ->
    cid = len chunks ->
    map chunk_id chunks = range (len chunks) ->
    Forall (cut_from T) chunks ->
    map chunk_id res = range (len res) /\ Forall (cut_from T) res.
Proof.
  induction fuel as [|fuel IH]; intros start cid chunks res H Hcid Hids Hcut;
    [done|].
  destruct (Z.lt_ge_cases start (len T)) as [Hin|Hout].
  2:{ rewrite chunk_loop_exit in H by done. injection H as <-. done. }
  destruct (window_end self T start) as [e|x] eqn:He.
  2:{ cbn [chunk_loop] in H.
      replace (start <? len T) with true in H by (symmetry; by apply Z.ltb_lt).
      rewrite He in H. done. }
  rewrite (chunk_loop_step _ _ _ _ _ _ e Hin He) in H.
  destruct (nonempty (strip (slice T start e))) eqn:Hne.
  - eapply IH; [exact H| | |].
    + rewrite Hcid. unfold len. rewrite length_app. cbn. lia.
    + rewrite map_app, range_snoc, Hids. cbn. by rewrite Hcid.
    + apply Forall_app. split; [done|]. constructor; [|done].
      by apply cut_from_new.
  - eapply IH; eauto.
Qed.

(** Whenever [chunk_text] returns, the chunk ids count up from 0 in the
    order of the list, and every chunk is cut from the text: its text is
    the stripped slice between its [start_pos] and [end_pos], is not
    empty, has no leading or trailing whitespace, and has the recorded
    length. *)
Theorem chunk_text_wellformed (fuel : nat) (self : t) (T : str)
    (chunks : list chunk) :
  chunk_text fuel self T = Some (Ok chunks) ->
  map chunk_id chunks = range (len chunks) /\ Forall (cut_from T) chunks.
Proof.
  intros H. by apply (chunk_loop_wellformed self T fuel 0 0 [] chunks).
Qed.

Lemma chunk_loop_wide (self : t) (T : str) :
  0 <= chunk_overlap self ->
  chunk_overlap self + 99 <= chunk_size self ->
  forall (fuel : nat) (start cid : Z) (chunks : list chunk),
    0 <= start -> len T - start <= Z.of_nat fuel ->
    chained (follows (chunk_overlap self)) chunks ->
    Forall (bounded self T) chunks ->
    (forall k, last chunks = Some k ->
               start_pos k < start /\ end_pos k - chunk_overlap self <= start) ->
    exists res,
      chunk_loop (S fuel) self T start cid chunks = Some (Ok res) /\
      chained (follows (chunk_overlap self)) res /\
      Forall (bounded self T) res.
Proof.
  intros Hov Hwide.
  induction fuel as [|fuel IH]; intros start cid chunks H0 Hm Hch Hb Hlast.
  - rewrite chunk_loop_exit by lia. eauto.
  - destruct (Z.lt_ge_cases start (len T)) as [Hin|Hout].
    2:{ rewrite chunk_loop_exit by lia. eauto. }
    destruct (window_end_total self T start H0) as [e He].
    rewrite (chunk_loop_step _ _ _ _ _ _ e Hin He).
    assert (He' : start + chunk_overlap self < e <= start + chunk_size self + 1)
      by (apply window_end_inv in He as [->|[? ?]]; lia).
    destruct (nonempty (strip (slice T start e))) eqn:Hne.
    + apply IH; [lia|lia| | |].
      * apply chained_snoc; [done|]. intros k Hk. unfold follows. cbn.
        by apply Hlast.
      * apply Forall_app. split; [done|]. constructor; [|done].
        unfold bounded. cbn. split; [lia|]. split; [lia|].
        apply nonempty_true in Hne.
        pose proof (strip_length (slice T start e)) as Hs.
        pose proof (slice_length T start e) as Hl.
        assert (length (strip (slice T start e)) <> 0%nat)
          by (by destruct (strip (slice T start e))).
        unfold len in *. lia.
      * intros k Hk. rewrite last_snoc in Hk. injection Hk as <-. cbn. lia.
    + apply IH; [lia|lia|done|done|].
      intros k Hk. destruct (Hlast k Hk). lia.
Qed.

(** With 0 <= overlap and overlap + 99 <= chunk_size, [chunk_text]
    returns within one iteration per character and does not raise.  The
    start offsets of the chunks increase strictly, a chunk starts at most
    [overlap] characters before the chunk before it ends, every window
    starts inside the text, and a chunk is at most [chunk_size + 1]
    characters long. *)
Theorem chunk_text_wide (self : t) (T : str) :
  0 <= chunk_overlap self ->
  chunk_overlap self + 99 <= chunk_size self ->
  exists chunks,
    chunk_text (S (length T)) self T = Some (Ok chunks) /\
    chained (follows (chunk_overlap self)) chunks /\
    Forall (bounded self T) chunks.
Proof.
  intros Hov Hwide.
  apply (chunk_loop_wide self T Hov Hwide (length T) 0 0 []);
    [lia | unfold len; lia | | constructor | done].
  intros i a b Ha. done.
Qed.

End ChunkInvariants.

(** * More on the chat client *)

Section ChatOutcomes.

Import OllamaClient Stream StreamEnd.

Variable requests_post : str -> json -> bool -> result Requests.response.
Variable json_loads : bytes -> result json.

Abbreviation read_line := (read_line json_loads).
Abbreviation read_lines := (read_lines json_loads).
Abbreviation goes_on := (goes_on json_loads).
Abbreviation is_done := (is_done json_loads).
Abbreviation fragments := (fragments json_loads).
Abbreviation chat := (chat requests_post json_loads).

Lemma join_items_raises (parts : list json) :
  forall (i : Z) (e : exn),
    join_items i parts = Raise e -> exn_cls e = TypeErrorC.
Proof.
  induction parts as [|j parts IH]; intros i e; cbn [join_items]; [done|].
  destruct j; try (by intros [= <-]).
  destruct (join_items (i + 1) parts) as [r|e'] eqn:Hr; py_bind; [done|].
  intros [= <-]. by apply (IH (i + 1)).
Qed.

Lemma joined_raises (parts : list json) (e : exn) :
  joined parts = Raise e -> exn_cls e = TypeErrorC.
Proof.
  unfold joined. destruct (join_items 0 parts) as [s|e'] eqn:Hj; py_bind;
    [done|].
  intros [= <-]. by apply (join_items_raises parts 0).
Qed.

Lemma joined_stripped (parts : list json) (s : str) :
  joined parts = Ok s -> strip s = s.
Proof.
  unfold joined. destruct (join_items 0 parts) as [r|e]; py_bind; [|done].
  intros [= <-]. apply strip_idem.
Qed.

Lemma fragments_app_done (lines1 : list bytes) (line : bytes) :
  forallb goes_on lines1 = true ->
  forall p r, read_line line [] = Leave p r ->
  fragments (lines1 ++ [line]) = fragments lines1 ++ p.
Proof.
  intros Hgo p r Hl. unfold Stream.fragments at 1.
  by rewrite (read_lines_leaves json_loads lines1 [] line None r p [] Hgo Hl).
Qed.

(** A connection error ends the chat call with the "Cannot connect"
    exception, whether [requests.post] raises it or the body iterator
    raises it after fragments have been accumulated: the fragments are
    discarded.  This holds for [ConnectTimeout] as well, which is also a
    [Timeout]. *)
Theorem chat_connection_error (self : t) (messages : list json)
    (model : option str) (temperature : option float)
    (max_tokens : option Z) (e : exn) :
  requests_post (chat_url self)
    (streamed (chat_payload self messages model temperature max_tokens))
    true = Raise e \/
  (exists resp,
      requests_post (chat_url self)
        (streamed (chat_payload self messages model temperature max_tokens))
        true = Ok resp /\
      Requests.raise_for_status resp = Ok tt /\
      forallb goes_on (Requests.iter_lines resp) = true /\
      Requests.iter_raises resp = Some e) ->
  isinstance e ConnectionErrorC = true ->
  chat self messages model temperature max_tokens =
  Raise (Exn ExceptionC msg_cannot_connect).
Proof.
  intros H Hconn. unfold OllamaClient.chat, _stream_chat, try_block.
  destruct H as [->|(resp & -> & -> & Hgo & Hr)].
  - by rewrite Hconn.
  - rewrite (read_lines_through json_loads _ _ [] Hgo), Hr. by rewrite Hconn.
Qed.

(** The loop stops at the first record whose completion flag is set: the
    chat call returns the stripped concatenation of the fragments up to
    and including that record, whatever follows it in the body and
    however the body ends. *)
Theorem chat_stops_at_done (self : t) (messages : list json)
    (model : option str) (temperature : option float)
    (max_tokens : option Z) (resp : Requests.response)
    (lines1 lines2 : list bytes) (line : bytes) (frags : list str) :
  requests_post (chat_url self)
    (streamed (chat_payload self messages model temperature max_tokens))
    true = Ok resp ->
  Requests.raise_for_status resp = Ok tt ->
  Requests.iter_lines resp = lines1 ++ line :: lines2 ->
  forallb goes_on lines1 = true ->
  is_done line = true ->
  fragments (lines1 ++ [line]) = map JStr frags ->
  chat self messages model temperature max_tokens =
  Ok (strip (concat frags)).
Proof.
  intros Hpost Hstatus Hbody Hgo Hdone Hfrags.
  unfold StreamEnd.is_done in Hdone.
  destruct (read_line line []) as [p|p [x|]] eqn:Hl; try done.
  rewrite (fragments_app_done lines1 line Hgo p None Hl) in Hfrags.
  unfold OllamaClient.chat, _stream_chat, try_block.
  rewrite Hpost, Hstatus, Hbody.
  rewrite (read_lines_leaves json_loads lines1 lines2 line _ None p [] Hgo Hl).
  cbn [app]. rewrite Hfrags. unfold joined.
  by rewrite join_items_strings.
Qed.

(** [chat] never lets a [requests] connection or timeout exception
    through: an exception that it raises is an instance of neither
    [ConnectionError] nor [Timeout]. *)
Theorem chat_hides_transport_errors (self : t) (messages : list json)
    (model : option str) (temperature : option float)
    (max_tokens : option Z) (e : exn) :
  chat self messages model temperature max_tokens = Raise e ->
  isinstance e ConnectionErrorC = false /\ isinstance e TimeoutC = false.
Proof.
  unfold OllamaClient.chat, _stream_chat.
  destruct (try_block _ _ _ _) as [parts [x|]].
  - destruct (isinstance x ConnectionErrorC) eqn:Hc; [by intros [= <-]|].
    destruct (isinstance x TimeoutC) eqn:Ht.
    + destruct (nonempty parts); [|by intros [= <-]].
      intros H. apply joined_raises in H. unfold isinstance. by rewrite H.
    + by intros [= <-].
  - intros H. apply joined_raises in H. unfold isinstance. by rewrite H.
Qed.

(** The text that [chat] returns has no leading and no trailing
    whitespace. *)
Theorem chat_returns_stripped (self : t) (messages : list json)
    (model : option str) (temperature : option float)
    (max_tokens : option Z) (s : str) :
  chat self messages model temperature max_tokens = Ok s ->
  strip s = s /\
  (forall c, head s = Some c -> isspace c = false) /\
  (forall c, last s = Some c -> isspace c = false).
Proof.
  intros H.
  assert (Hs : strip s = s).
  { revert H. unfold OllamaClient.chat, _stream_chat.
    destruct (try_block _ _ _ _) as [parts [x|]].
    - destruct (isinstance x ConnectionErrorC); [done|].
      destruct (isinstance x TimeoutC); [|done].
      destruct (nonempty parts); [apply joined_stripped | done].
    - apply joined_stripped. }
  split; [done|]. rewrite <- Hs.
  split; intros c; [apply strip_head | apply strip_last].
Qed.

(** [warm_up] never raises, whatever the backend does. *)
Theorem warm_up_never_raises (self : t) :
  warm_up requests_post json_loads self = Ok tt.
Proof.
  unfold warm_up. rewrite try_except_catches.
  by destruct (OllamaClient.chat _ _ _ _ _ _ _).
Qed.

End ChatOutcomes.

Section ClientSetup.

Lemma rstrip_chars_spec (chars s : str) :
  exists t,
    s = rstrip_chars chars s ++ t /\
    forallb (fun c => existsb (N.eqb c) chars) t = true /\
    (forall c, last (rstrip_chars chars s) = Some c ->
               existsb (N.eqb c) chars = false).
Proof.
  unfold rstrip_chars.
  set (go := fix go (r : str) : str :=
               match r with
               | [] => []
               | c :: r' => if existsb (N.eqb c) chars then go r' else r
               end).
  assert (Hgo : forall r, exists u,
             r = u ++ go r /\
             forallb (fun c => existsb (N.eqb c) chars) u = true /\
             (forall c, head (go r) = Some c -> existsb (N.eqb c) chars = false)).
  { induction r as [|c r (u & Hr & Hu & Hh)]; [by exists []|].
    cbn [go]. destruct (existsb (N.eqb c) chars) eqn:Hc.
    - exists (c :: u). split; [cbn; congruence|]. split; [|done].
      cbn. by rewrite Hc.
    - exists []. split; [done|]. split; [done|].
      cbn. by intros ? [= <-]. }
  destruct (Hgo (rev s)) as (u & Hr & Hu & Hh).
  exists (rev u). split; [|split].
  - rewrite <- rev_app_distr, <- Hr. by rewrite rev_involutive.
  - rewrite forallb_forall in Hu. apply forallb_forall. intros c Hc.
    apply Hu. by apply in_rev.
  - intros c Hc. apply Hh. rewrite <- Hc.
    by rewrite (rev_reverse (go (rev s))), last_reverse.
Qed.

(** [OllamaClient()] keeps the configured base URL up to its trailing
    slashes: it removes only ["/"] characters from the end, and all of
    them, so the URLs it builds have a single slash before the path. *)
Theorem init_strips_trailing_slashes (settings : Config.Settings) :
  exists k,
    Config.OLLAMA_BASE_URL settings =
      OllamaClient.base_url (OllamaClient.init settings) ++ replicate k 47%N /\
    last (OllamaClient.base_url (OllamaClient.init settings)) <> Some 47%N.
Proof.
  destruct (rstrip_chars_spec (lit "/") (Config.OLLAMA_BASE_URL settings))
    as (t & Ht & Hall & Hlast).
  exists (length t). split.
  - cbn [OllamaClient.init OllamaClient.base_url]. rewrite Ht at 1. f_equal.
    clear Ht. induction t as [|c t IH]; [done|].
    cbn in Hall. apply andb_true_iff in Hall as [Hc Hall].
    cbn [length replicate]. rewrite <- IH by done. f_equal.
    rewrite orb_false_r in Hc. by apply N.eqb_eq in Hc.
  - intros H. specialize (Hlast _ H). done.
Qed.

End ClientSetup.

Section EmbeddingFailures.

Variable requests_post : str -> json -> bool -> result Requests.response.
Variable settings : Config.Settings.
Variable ollama_client : OllamaClient.t.

Abbreviation embed_one :=
  (OllamaClient.embed_one requests_post settings ollama_client).
Abbreviation embeddings :=
  (OllamaClient.embeddings requests_post settings ollama_client).

Lemma embeddings_loop_fails (model : option str) (e : exn)
    (texts1 texts2 : list str) (text : str) :
  Forall (fun t => exists v, embed_one model t = Ok v) texts1 ->
  embed_one model text = Raise e ->
  forall results,
    OllamaClient.embeddings_loop requests_post settings ollama_client
      (texts1 ++ text :: texts2) model results = Raise e.
Proof.
  intros Hok Hbad. induction Hok as [|t texts1 [v Hv] _ IH]; intros results;
    cbn [app OllamaClient.embeddings_loop].
  - by rewrite Hbad.
  - rewrite Hv. py_bind. apply IH.
Qed.

(** The remote embedding call fails fast: when the request for one text
    fails after the requests for the texts before it succeeded, the call
    raises that error; it returns no partial list, and the outcome does
    not depend on the texts after the failing one. *)
Theorem embeddings_fail_fast (model : option str) (e : exn)
    (texts1 texts2 : list str) (text : str) :
  Forall (fun t => exists v, embed_one model t = Ok v) texts1 ->
  embed_one model text = Raise e ->
  embeddings (texts1 ++ text :: texts2) model = Raise e.
Proof.
  intros Hok Hbad. by apply embeddings_loop_fails.
Qed.

End EmbeddingFailures.

(** * More on the vector index *)

Section IndexOperations.

Import VectorDB.

Variable requests_post : str -> json -> bool -> result Requests.response.
Variable distance : json -> json -> float.
Variable accepts : gmap str Chroma.item -> json -> bool.
Variable on_existing : Chroma.existing_id.
Variable md5_hexdigest : str -> str.
Variable settings : Config.Settings.
Variable ollama_client : OllamaClient.t.

Abbreviation add_documents :=
  (VectorDB.add_documents requests_post accepts on_existing md5_hexdigest
     settings ollama_client).
Abbreviation query_documents :=
  (VectorDB.query_documents requests_post distance accepts md5_hexdigest
     settings ollama_client).
Abbreviation collection_name := (create_collection_name md5_hexdigest).
Abbreviation collection_exists := (VectorDB.collection_exists md5_hexdigest).
Abbreviation delete_collection := (VectorDB.delete_collection md5_hexdigest).
Abbreviation get_embeddings :=
  (VectorDB.get_embeddings requests_post settings ollama_client).

Lemma collection_exists_spec (pdf_url : str) (db : Chroma.client) :
  fst (collection_exists pdf_url db) = true <->
  is_Some (db !! collection_name pdf_url).
Proof.
  unfold VectorDB.collection_exists, Chroma.list_collections. cbn [fst].
  rewrite existsb_exists. split.
  - intros (name & Hin & Hname). apply bool_decide_eq_true in Hname as ->.
    apply list_elem_of_In, list_elem_of_fmap in Hin as ([k c] & -> & Hkc).
    apply elem_of_map_to_list in Hkc. by exists c.
  - intros [c Hc]. exists (collection_name pdf_url). split.
    + apply list_elem_of_In, list_elem_of_fmap.
      exists (collection_name pdf_url, c). split; [done|].
      by apply elem_of_map_to_list.
    + by apply bool_decide_eq_true.
Qed.

Lemma add_other_collection (name name' : str) (embeddings : list json)
    (documents ids : list str) (metadatas : list json)
    (db db1 : Chroma.client) :
  Chroma.add accepts on_existing name embeddings documents ids metadatas db
    = Ok db1 ->
  name' <> name -> db1 !! name' = db !! name'.
Proof.
  unfold Chroma.add. intros H Hne.
  destruct (db !! name) as [c|]; [|done].
  repeat (destruct (negb _); [done|]).
  destruct on_existing; try destruct (bool_decide _); try done;
    injection H as <-; by rewrite lookup_insert_ne.
Qed.

Lemma get_or_create_other (name name' : str) (db : Chroma.client) :
  name' <> name -> get_or_create_collection name db !! name' = db !! name'.
Proof.
  intros Hne. unfold get_or_create_collection, Chroma.get_or_create_collection.
  destruct (db !! name); [done|]. by rewrite lookup_insert_ne.
Qed.

Lemma add_documents_state (self : t) (pdf_url : str) (chunks : list str)
    (metadata : option (list json)) (db : Chroma.client) :
  snd (add_documents self pdf_url chunks metadata db)
    = get_or_create_collection (collection_name pdf_url) db \/
  exists embeddings ids mds,
    Chroma.add accepts on_existing (collection_name pdf_url) embeddings chunks
      ids mds (get_or_create_collection (collection_name pdf_url) db)
    = Ok (snd (add_documents self pdf_url chunks metadata db)).
Proof.
  unfold VectorDB.add_documents.
  destruct (get_embeddings self chunks) as [embeddings|e]; [|by left].
  destruct (Chroma.add _ _ _ _ _ _ _ _) as [db1|e] eqn:Hadd; [|by left].
  right. eauto.
Qed.

Lemma query_documents_state (self : t) (pdf_url query : str)
    (n_results : Z) (db : Chroma.client) :
  snd (query_documents self pdf_url query n_results db)
    = get_or_create_collection (collection_name pdf_url) db.
Proof.
  unfold VectorDB.query_documents.
  destruct (Chroma.count _ _ =? 0); [done|].
  destruct (get_embeddings _ _) as [[|q qs]|e]; try done.
  destruct (Chroma.query _ _ _ _ _ _); done.
Qed.

(** After [add_documents], whether it returned or raised, the collection
    of the identifier exists: [collection_exists] is true. *)
Theorem add_documents_leaves_collection (self : t) (pdf_url : str)
    (chunks : list str) (metadata : option (list json))
    (db : Chroma.client) :
  fst (collection_exists pdf_url
         (snd (add_documents self pdf_url chunks metadata db))) = true.
Proof.
  apply collection_exists_spec.
  destruct (add_documents_state self pdf_url chunks metadata db)
    as [->|(embeddings & ids & mds & Hadd)].
  - destruct (get_or_create_lookup (collection_name pdf_url) cosine_space db)
      as (c & Hc & _). by exists c.
  - apply add_keeps_collection in Hadd.
    rewrite <- Hadd.
    destruct (get_or_create_lookup (collection_name pdf_url) cosine_space
                (snd (add_documents self pdf_url chunks metadata db)))
      as (c & Hc & _). by exists c.
Qed.

(** Operations on one identifier leave the collection of every other
    name as it is: [add_documents], [query_documents] and
    [delete_collection] change at most the collection named after their
    identifier. *)
Theorem other_collections_untouched (self : t) (pdf_url : str)
    (chunks : list str) (metadata : option (list json)) (query : str)
    (n_results : Z) (db : Chroma.client) (name' : str) :
  name' <> collection_name pdf_url ->
  snd (add_documents self pdf_url chunks metadata db) !! name' = db !! name' /\
  snd (query_documents self pdf_url query n_results db) !! name' = db !! name' /\
  delete_collection pdf_url db !! name' = db !! name'.
Proof.
  intros Hne. split; [|split].
  - destruct (add_documents_state self pdf_url chunks metadata db)
      as [->|(embeddings & ids & mds & Hadd)].
    + by apply get_or_create_other.
    + rewrite (add_other_collection _ _ _ _ _ _ _ _ Hadd Hne).
      by apply get_or_create_other.
  - rewrite query_documents_state. by apply get_or_create_other.
  - unfold VectorDB.delete_collection, Chroma.delete_collection.
    destruct (db !! collection_name pdf_url); [|done].
    by rewrite lookup_delete_ne.
Qed.

Lemma query_documents_on_empty (self : t) (pdf_url query : str)
    (n_results : Z) (db : Chroma.client) :
  Chroma.stored (collection_name pdf_url) db = ∅ ->
  fst (query_documents self pdf_url query n_results db) =
  Ok {| documents := []; distances := []; metadatas := [] |}.
Proof.
  intros H. unfold VectorDB.query_documents.
  replace (Chroma.count _ _ =? 0) with true; [done|].
  symmetry. apply Z.eqb_eq, count_zero.
  unfold get_or_create_collection. by rewrite stored_get_or_create.
Qed.

(** [delete_collection] removes the collection of the identifier and
    never raises: afterwards [collection_exists] is false and a search
    finds nothing; deleting again changes nothing. *)
Theorem delete_collection_removes (self : t) (pdf_url query : str)
    (n_results : Z) (db : Chroma.client) :
  fst (collection_exists pdf_url (delete_collection pdf_url db)) = false /\
  fst (query_documents self pdf_url query n_results
         (delete_collection pdf_url db)) =
    Ok {| documents := []; distances := []; metadatas := [] |} /\
  delete_collection pdf_url (delete_collection pdf_url db) =
    delete_collection pdf_url db.
Proof.
  assert (Hgone : delete_collection pdf_url db !! collection_name pdf_url = None).
  { unfold VectorDB.delete_collection, Chroma.delete_collection.
    destruct (db !! collection_name pdf_url) eqn:Hc; [|done].
    apply lookup_delete_eq. }
  split; [|split].
  - apply not_true_is_false. intros H.
    apply collection_exists_spec in H as [c Hc]. congruence.
  - apply query_documents_on_empty. unfold Chroma.stored. by rewrite Hgone.
  - unfold VectorDB.delete_collection at 1, Chroma.delete_collection.
    by rewrite Hgone.
Qed.

Lemma insert_by_perm (q : json) (x : str * Chroma.item)
    (l : list (str * Chroma.item)) :
  Chroma.insert_by distance q x l ≡ₚ x :: l.
Proof.
  induction l as [|y l IH]; cbn [Chroma.insert_by]; [done|].
  destruct (PrimFloat.leb _ _); [done|].
  rewrite IH. apply Permutation_swap.
Qed.

Lemma nearest_perm (q : json) (m : gmap str Chroma.item) :
  Chroma.nearest distance q m ≡ₚ map_to_list m.
Proof.
  unfold Chroma.nearest. induction (map_to_list m) as [|x l IH]; [done|].
  cbn [foldr]. by rewrite insert_by_perm, IH.
Qed.

Lemma nearest_length (q : json) (m : gmap str Chroma.item) :
  length (Chroma.nearest distance q m) = size m.
Proof. by rewrite nearest_perm, length_map_to_list. Qed.

(** What a search that returns has found, in terms of the records stored
    for the identifier. *)
Lemma query_documents_hits (self : t) (pdf_url query : str)
    (n_results : Z) (db : Chroma.client) (sr : search_results) :
  fst (query_documents self pdf_url query n_results db) = Ok sr ->
  (Chroma.count (collection_name pdf_url) db = 0 /\
   sr = {| documents := []; distances := []; metadatas := [] |}) \/
  exists q hits,
    hits = take (Z.to_nat (Z.min n_results
                             (Chroma.count (collection_name pdf_url) db)))
             (Chroma.nearest distance q
                (Chroma.stored (collection_name pdf_url) db)) /\
    0 < n_results /\
    documents sr = map (fun r => Chroma.document (snd r)) hits /\
    distances sr = map (fun r => distance q (Chroma.embedding (snd r))) hits /\
    metadatas sr = map (fun r => Chroma.metadata (snd r)) hits.
Proof.
  unfold VectorDB.query_documents.
  set (name := collection_name pdf_url).
  assert (Hcount : Chroma.count name (get_or_create_collection name db)
                   = Chroma.count name db).
  { unfold Chroma.count, get_or_create_collection.
    by rewrite stored_get_or_create. }
  destruct (get_or_create_lookup name cosine_space db) as (c & Hc & Hitems).
  fold (get_or_create_collection name db) in Hc.
  rewrite Hcount.
  destruct (Chroma.count name db =? 0) eqn:Hz; cbn [fst].
  { intros [= <-]. left. by apply Z.eqb_eq in Hz. }
  destruct (get_embeddings self [query]) as [[|q qs]|e]; try done.
  unfold Chroma.query. rewrite Hc.
  destruct (Z.min n_results (Chroma.count name db) <=? 0) eqn:Hn; [done|].
  destruct (negb _); [done|]. cbn [fst]. intros [= <-]. right.
  exists q, (take (Z.to_nat (Z.min n_results (Chroma.count name db)))
               (Chroma.nearest distance q (Chroma.stored name db))).
  rewrite Hitems. cbn. repeat split; try done.
  apply Z.leb_gt in Hn. lia.
Qed.

(** The three lists of a search result are parallel: they have the same
    length, which is at most [n_results] and at most the number of
    records stored for the identifier. *)
Theorem query_documents_parallel (self : t) (pdf_url query : str)
    (n_results : Z) (db : Chroma.client) (sr : search_results) :
  fst (query_documents self pdf_url query n_results db) = Ok sr ->
  length (distances sr) = length (documents sr) /\
  length (metadatas sr) = length (documents sr) /\
  len (documents sr) <= Z.max 0 n_results /\
  len (documents sr) <= Chroma.count (collection_name pdf_url) db.
Proof.
  intros H. apply query_documents_hits in H
    as [[_ ->]|(q & hits & Hhits & Hn & -> & -> & ->)].
  - cbn [documents distances metadatas]. unfold len, Chroma.count.
    cbn [length]. lia.
  - rewrite !length_map. split; [done|]. split; [done|].
    unfold len. rewrite length_map, Hhits, length_take, nearest_length.
    unfold Chroma.count. lia.
Qed.

End IndexOperations.

Section ChunkIds.

Lemma digits_inj (d d' : Decimal.uint) : digits d = digits d' -> d = d'.
Proof.
  revert d'. induction d; destruct d'; cbn [digits]; try discriminate;
    try done; intros [= H]; f_equal; by apply IHd.
Qed.

Lemma digits_no_sign (d : Decimal.uint) : head (digits d) <> Some 45%N.
Proof. destruct d; cbn; congruence. Qed.

Lemma str_of_int_inj (x y : Z) : str_of_int x = str_of_int y -> x = y.
Proof.
  unfold str_of_int. intros H.
  rewrite <- (DecimalZ.of_to x), <- (DecimalZ.of_to y). f_equal.
  destruct (Z.to_int x) as [d|d], (Z.to_int y) as [d'|d'].
  - f_equal. by apply digits_inj.
  - exfalso. apply (digits_no_sign d). by rewrite H.
  - exfalso. apply (digits_no_sign d'). by rewrite <- H.
  - injection H as H. f_equal. by apply digits_inj.
Qed.

Lemma range_len {A} (l : list A) :
  range (len l) = map Z.of_nat (seq 0 (length l)).
Proof. unfold range, len. by rewrite Nat2Z.id. Qed.

(** The ids that [add_documents] gives to [n] chunks. *)
Lemma chunk_ids_lookup {A} (chunks : list A) (i : nat) :
  (i < length chunks)%nat ->
  map (fun i => lit "chunk_" ++ str_of_int i) (range (len chunks)) !! i
  = Some (lit "chunk_" ++ str_of_int (Z.of_nat i)).
Proof.
  intros Hi. rewrite range_len, map_map.
  rewrite list_lookup_fmap, lookup_seq_lt by done. done.
Qed.

Lemma chunk_ids_NoDup {A} (chunks : list A) :
  NoDup (map (fun i => lit "chunk_" ++ str_of_int i) (range (len chunks))).
Proof.
  rewrite range_len, map_map.
  apply (NoDup_fmap_2_strong _ (seq 0 (length chunks))); [|apply NoDup_seq].
  intros x y _ _ H. apply app_inv_head in H.
  apply str_of_int_inj in H. lia.
Qed.

Lemma chunk_ids_length {A} (chunks : list A) :
  length (map (fun i => lit "chunk_" ++ str_of_int i) (range (len chunks)))
  = length chunks.
Proof. by rewrite range_len, !length_map, length_seq. Qed.

End ChunkIds.

Section Records.

Import Chroma.

Lemma zip_records_fst (ids : list str) :
  forall (es : list json) (ds : list str) (ms : list json),
    length es = length ids -> length ds = length ids ->
    length ms = length ids ->
    (zip_records ids es ds ms).*1 = ids.
Proof.
  induction ids as [|i ids IH]; intros [|e es] [|d ds] [|m ms] He Hd Hm;
    try done.
  cbn. f_equal. apply IH; cbn in *; lia.
Qed.

Lemma zip_records_lookup (ids : list str) :
  forall (es : list json) (ds : list str) (ms : list json) (n : nat) i e d m,
    ids !! n = Some i -> es !! n = Some e -> ds !! n = Some d ->
    ms !! n = Some m ->
    zip_records ids es ds ms !! n = Some (i, Item e d m).
Proof.
  induction ids as [|i0 ids IH]; intros [|e0 es] [|d0 ds] [|m0 ms] n i e d m;
    try done.
  destruct n as [|n]; cbn.
  - by intros [= ->] [= ->] [= ->] [= ->].
  - apply IH.
Qed.

Lemma zip_records_documents (ids : list str) :
  forall (es : list json) (ds : list str) (ms : list json) r,
    r ∈ zip_records ids es ds ms -> document (snd r) ∈ ds.
Proof.
  induction ids as [|i0 ids IH]; intros [|e0 es] [|d0 ds] [|m0 ms] r;
    cbn [zip_records]; try (by intros ?%elem_of_nil).
  intros [->|H]%elem_of_cons; [left|right; by eapply IH].
Qed.

Lemma records_size (ids : list str) (es : list json) (ds : list str)
    (ms : list json) :
  length es = length ids -> length ds = length ids ->
  length ms = length ids -> NoDup ids ->
  size (list_to_map (zip_records ids es ds ms) : gmap str item) = length ids.
Proof.
  intros He Hd Hm Hnd.
  pose proof (zip_records_fst ids es ds ms He Hd Hm) as Hfst.
  rewrite <- length_map_to_list, map_to_list_to_map by (by rewrite Hfst).
  by rewrite <- (length_fmap fst), Hfst.
Qed.

Lemma records_lookup (ids : list str) (es : list json) (ds : list str)
    (ms : list json) (n : nat) i e d m :
  length es = length ids -> length ds = length ids ->
  length ms = length ids -> NoDup ids ->
  ids !! n = Some i -> es !! n = Some e -> ds !! n = Some d ->
  ms !! n = Some m ->
  (list_to_map (zip_records ids es ds ms) : gmap str item) !! i
  = Some (Item e d m).
Proof.
  intros He Hd Hm Hnd Hi Hes Hds Hms.
  apply elem_of_list_to_map_1.
  - by rewrite zip_records_fst.
  - apply list_elem_of_lookup. exists n. by apply zip_records_lookup.
Qed.

Lemma records_documents (ids : list str) (es : list json) (ds : list str)
    (ms : list json) (k : str) (it : item) :
  (list_to_map (zip_records ids es ds ms) : gmap str item) !! k = Some it ->
  document it ∈ ds.
Proof.
  intros H. apply elem_of_list_to_map_2 in H.
  by apply (zip_records_documents _ _ _ _ _ H).
Qed.

End Records.

Section Ingestion.

Import VectorDB.

Variable requests_post : str -> json -> bool -> result Requests.response.
Variable distance : json -> json -> float.
Variable accepts : gmap str Chroma.item -> json -> bool.
Variable on_existing : Chroma.existing_id.
Variable md5_hexdigest : str -> str.
Variable settings : Config.Settings.
Variable ollama_client : OllamaClient.t.

Abbreviation add_documents :=
  (VectorDB.add_documents requests_post accepts on_existing md5_hexdigest
     settings ollama_client).
Abbreviation query_documents :=
  (VectorDB.query_documents requests_post distance accepts md5_hexdigest
     settings ollama_client).
Abbreviation collection_name := (create_collection_name md5_hexdigest).
Abbreviation get_embeddings :=
  (VectorDB.get_embeddings requests_post settings ollama_client).

Lemma add_fresh (name : str) (embeddings : list json)
    (documents ids : list str) (metadatas : list json)
    (db : Chroma.client) (c : Chroma.collection) :
  db !! name = Some c -> Chroma.items c = ∅ ->
  ids <> [] ->
  length embeddings = length ids -> length documents = length ids ->
  length metadatas = length ids ->
  NoDup ids ->
  forallb (accepts ∅) embeddings = true ->
  exists db',
    Chroma.add accepts on_existing name embeddings documents ids metadatas db
      = Ok db' /\
    Chroma.stored name db' =
      list_to_map (Chroma.zip_records ids embeddings documents metadatas).
Proof.
  intros Hc Hitems Hne He Hd Hm Hnd Hacc.
  unfold Chroma.add. rewrite Hc, Hitems.
  replace (nonempty ids) with true by (by destruct ids).
  rewrite He, Hd, Hm, !Nat.eqb_refl. cbn [andb negb].
  rewrite (bool_decide_eq_true_2 _ Hnd). cbn [negb].
  rewrite Hacc. cbn [negb].
  assert (Hstored : forall m, Chroma.stored name
            (<[name := Chroma.Collection (Chroma.coll_metadata c) m]> db) = m).
  { intros m. unfold Chroma.stored. by rewrite lookup_insert_eq. }
  destruct on_existing.
  - eexists. split; [done|]. by rewrite Hstored, (left_id_L ∅ (∪)).
  - eexists. split; [done|]. by rewrite Hstored, (right_id_L ∅ (∪)).
  - rewrite bool_decide_eq_true_2
      by (apply Forall_forall; intros; apply lookup_empty).
    eexists. split; [done|]. by rewrite Hstored, (right_id_L ∅ (∪)).
Qed.

(** The records that an ingestion of [chunks] with vectors [embeddings]
    writes. *)
Lemma add_documents_fresh (self : t) (pdf_url : str) (chunks : list str)
    (embeddings : list json) (db : Chroma.client) :
  Chroma.stored (collection_name pdf_url) db = ∅ ->
  get_embeddings self chunks = Ok embeddings ->
  length embeddings = length chunks ->
  forallb (accepts ∅) embeddings = true ->
  chunks <> [] ->
  exists db',
    add_documents self pdf_url chunks None db
      = (Ok (collection_name pdf_url), db') /\
    Chroma.stored (collection_name pdf_url) db' =
      list_to_map
        (Chroma.zip_records
           (map (fun i => lit "chunk_" ++ str_of_int i) (range (len chunks)))
           embeddings chunks
           (map (fun i => JDict [(lit "chunk_index", JInt i)])
              (range (len chunks)))).
Proof.
  intros Hfresh Hemb Hlen Hacc Hne.
  destruct (get_or_create_lookup (collection_name pdf_url) cosine_space db)
    as (c & Hc & Hitems).
  rewrite Hfresh in Hitems.
  destruct (add_fresh (collection_name pdf_url) embeddings chunks
              (map (fun i => lit "chunk_" ++ str_of_int i) (range (len chunks)))
              (map (fun i => JDict [(lit "chunk_index", JInt i)])
                 (range (len chunks)))
              _ c Hc Hitems) as (db' & Hadd & Hstored).
  - intros H. apply (f_equal length) in H.
    rewrite chunk_ids_length in H. by destruct chunks.
  - by rewrite chunk_ids_length.
  - by rewrite chunk_ids_length.
  - by rewrite chunk_ids_length, range_len, !length_map, length_seq.
  - apply chunk_ids_NoDup.
  - done.
  - exists db'. split; [|done].
    unfold VectorDB.add_documents. rewrite Hemb.
    unfold get_or_create_collection. by rewrite Hadd.
Qed.

(** Ingestion round trip.  On an identifier without stored records, when
    the embedding call returns one accepted vector per chunk and there is
    at least one chunk, [add_documents] returns the collection name and
    the collection then holds exactly one record per chunk: record
    ["chunk_<i>"] carries chunk [i], its vector and the metadata
    [{"chunk_index": i}]. *)
Theorem add_documents_stores_chunks (self : t) (pdf_url : str)
    (chunks : list str) (embeddings : list json) (db : Chroma.client) :
  Chroma.stored (collection_name pdf_url) db = ∅ ->
  get_embeddings self chunks = Ok embeddings ->
  length embeddings = length chunks ->
  forallb (accepts ∅) embeddings = true ->
  chunks <> [] ->
  exists db',
    add_documents self pdf_url chunks None db
      = (Ok (collection_name pdf_url), db') /\
    Chroma.count (collection_name pdf_url) db' = len chunks /\
    forall (i : nat) (chunk : str) (embedding : json),
      chunks !! i = Some chunk -> embeddings !! i = Some embedding ->
      Chroma.stored (collection_name pdf_url) db'
        !! (lit "chunk_" ++ str_of_int (Z.of_nat i))
      = Some (Chroma.Item embedding chunk
                (JDict [(lit "chunk_index", JInt (Z.of_nat i))])).
Proof.
  intros Hfresh Hemb Hlen Hacc Hne.
  destruct (add_documents_fresh self pdf_url chunks embeddings db
              Hfresh Hemb Hlen Hacc Hne) as (db' & Hadd & Hstored).
  exists db'. split; [done|]. split.
  - unfold Chroma.count. rewrite Hstored, records_size.
    + by rewrite chunk_ids_length.
    + by rewrite chunk_ids_length.
    + by rewrite chunk_ids_length.
    + by rewrite chunk_ids_length, range_len, !length_map, length_seq.
    + apply chunk_ids_NoDup.
  - intros i chunk embedding Hi He. rewrite Hstored.
    apply (records_lookup _ _ _ _ i); try done.
    + by rewrite chunk_ids_length.
    + by rewrite chunk_ids_length.
    + by rewrite chunk_ids_length, range_len, !length_map, length_seq.
    + apply chunk_ids_NoDup.
    + apply chunk_ids_lookup. by apply lookup_lt_Some in Hi.
    + rewrite range_len, map_map, list_lookup_fmap.
      rewrite lookup_seq_lt by (by apply lookup_lt_Some in Hi). done.
Qed.

(** Search after ingestion.  After such an ingestion, a search on the
    identifier that returns gives [min(n_results, len(chunks))]
    documents, each of them one of the chunks. *)
Theorem search_after_ingestion (self : t) (pdf_url : str)
    (chunks : list str) (embeddings : list json) (db : Chroma.client)
    (query : str) (n_results : Z) (sr : search_results) :
  Chroma.stored (collection_name pdf_url) db = ∅ ->
  get_embeddings self chunks = Ok embeddings ->
  length embeddings = length chunks ->
  forallb (accepts ∅) embeddings = true ->
  chunks <> [] ->
  fst (query_documents self pdf_url query n_results
         (snd (add_documents self pdf_url chunks None db))) = Ok sr ->
  len (documents sr) = Z.min n_results (len chunks) /\
  forall d, d ∈ documents sr -> d ∈ chunks.
Proof.
  intros Hfresh Hemb Hlen Hacc Hne Hq.
  destruct (add_documents_fresh self pdf_url chunks embeddings db
              Hfresh Hemb Hlen Hacc Hne) as (db' & Hadd & Hstored).
  rewrite Hadd in Hq. cbn [snd] in Hq.
  assert (Hcount : Chroma.count (collection_name pdf_url) db' = len chunks).
  { unfold Chroma.count. rewrite Hstored, records_size.
    - by rewrite chunk_ids_length.
    - by rewrite chunk_ids_length.
    - by rewrite chunk_ids_length.
    - by rewrite chunk_ids_length, range_len, !length_map, length_seq.
    - apply chunk_ids_NoDup. }
  assert (Hpos : 0 < len chunks)
    by (destruct chunks; [done | unfold len; cbn; lia]).
  apply (query_documents_hits requests_post distance accepts md5_hexdigest
           settings ollama_client) in Hq
    as [[Hzero _]|(q & hits & Hhits & Hn & Hdocs & _ & _)]; [lia|].
  rewrite Hcount in Hhits. split.
  - rewrite Hdocs. unfold len. rewrite length_map, Hhits, length_take.
    rewrite (nearest_length distance).
    unfold Chroma.count, len in *. lia.
  - intros d Hd. rewrite Hdocs in Hd.
    apply list_elem_of_fmap in Hd as (r & -> & Hr).
    rewrite Hhits in Hr. apply subseteq_take in Hr.
    rewrite (nearest_perm distance) in Hr.
    destruct r as [k it]. apply elem_of_map_to_list in Hr.
    rewrite Hstored in Hr. by apply records_documents in Hr.
Qed.

End Ingestion.

(** * Records that are already stored *)

Section StoredRecords.

Import VectorDB.

Variable requests_post : str -> json -> bool -> result Requests.response.
Variable distance : json -> json -> float.
Variable accepts : gmap str Chroma.item -> json -> bool.
Variable md5_hexdigest : str -> str.
Variable settings : Config.Settings.
Variable ollama_client : OllamaClient.t.

Abbreviation add_documents :=
  (VectorDB.add_documents requests_post accepts Chroma.KeepStored
     md5_hexdigest settings ollama_client).
Abbreviation query_documents :=
  (VectorDB.query_documents requests_post distance accepts md5_hexdigest
     settings ollama_client).
Abbreviation collection_name := (create_collection_name md5_hexdigest).
Abbreviation get_embeddings :=
  (VectorDB.get_embeddings requests_post settings ollama_client).




End StoredRecords.

(** * More on the answerer *)

Section Slices.

Lemma slice_from_last2 {A} (l : list A) :
  slice_from l (-2) = drop (length l - 2) l.
Proof.
  unfold slice_from, slice, adjust, len.
  replace (-2 <? 0) with true by done.
  replace (Z.of_nat (length l) <? 0) with false
    by (symmetry; apply Z.ltb_ge; lia).
  rewrite Z.min_id.
  replace (Z.to_nat (Z.max 0 (-2 + Z.of_nat (length l))))
    with (length l - 2)%nat by lia.
  rewrite take_ge; [done|]. rewrite length_drop. lia.
Qed.

Lemma slice_from_last2_idem {A} (l : list A) :
  slice_from (slice_from l (-2)) (-2) = slice_from l (-2).
Proof.
  rewrite !slice_from_last2, length_drop.
  replace (length l - (length l - 2) - 2)%nat with 0%nat by lia. done.
Qed.

Lemma slice_from_last2_nonempty {A} (l : list A) :
  nonempty (slice_from l (-2)) = nonempty l.
Proof.
  rewrite slice_from_last2. destruct l as [|a [|b l]]; try done.
  cbn [length]. replace (S (S (length l)) - 2)%nat with (length l) by lia.
  assert (H : length (drop (length l) (a :: b :: l)) = 2%nat)
    by (rewrite length_drop; cbn; lia).
  by destruct (drop (length l) (a :: b :: l)).
Qed.

Lemma slice_to_short {A} (l : list A) (n : Z) :
  len l <= n -> slice_to l n = l.
Proof.
  intros H. pose proof (len_nonneg l).
  rewrite slice_to_take by lia. apply take_ge. unfold len in *. lia.
Qed.

Lemma slice_to_len {A} (l : list A) (n : Z) :
  0 <= n <= len l -> len (slice_to l n) = n.
Proof.
  intros H. rewrite slice_to_take by lia. unfold len in *.
  rewrite length_take. lia.
Qed.

End Slices.

Section AnswererMore.

Import QASystem.

Variable requests_post : str -> json -> bool -> result Requests.response.
Variable json_loads : bytes -> result json.
Variable distance : json -> json -> float.
Variable accepts : gmap str Chroma.item -> json -> bool.
Variable md5_hexdigest : str -> str.
Variable settings : Config.Settings.
Variable ollama_client : OllamaClient.t.
Variable vector_db : VectorDB.t.

Abbreviation answer_question :=
  (QASystem.answer_question requests_post json_loads distance accepts
     md5_hexdigest settings ollama_client vector_db).
Abbreviation get_suggested_questions :=
  (QASystem.get_suggested_questions requests_post json_loads ollama_client).
Abbreviation search :=
  (VectorDB.query_documents requests_post distance accepts md5_hexdigest
     settings ollama_client vector_db).
Abbreviation collection_name := (VectorDB.create_collection_name md5_hexdigest).

Lemma answer_question_on_empty (self : t) (pdf_url question : str)
    (conversation_history : option (list json)) (db : Chroma.client) :
  Chroma.stored (collection_name pdf_url) db = ∅ ->
  fst (answer_question self pdf_url question conversation_history db) =
  Ok {| answer := no_context_answer; sources := [];
        confidence := lit "low"; num_sources := None |}.
Proof.
  intros Hempty. unfold QASystem.answer_question.
  pose proof (query_documents_on_empty requests_post distance accepts
                md5_hexdigest settings ollama_client vector_db pdf_url
                question 2 db Hempty) as Hs.
  destruct (search pdf_url question 2 db) as [searched db'].
  cbn [fst] in *. rewrite Hs. done.
Qed.

(** Without stored records for the identifier (no collection, or an empty
    one) [answer_question] returns the fixed "not enough context" answer
    with confidence "low" and no sources.  The chat backend and the
    embedding backend play no part: this holds whatever they do. *)
Theorem answer_question_without_context (self : t) (pdf_url question : str)
    (conversation_history : option (list json)) (db : Chroma.client) :
  Chroma.stored (collection_name pdf_url) db = ∅ ->
  fst (answer_question self pdf_url question conversation_history db) =
  Ok {| answer := no_context_answer; sources := [];
        confidence := lit "low"; num_sources := None |}.
Proof. apply answer_question_on_empty. Qed.

(** When [answer_question] returns, its sources are exactly the
    documents that the search returned, in their order and untruncated;
    with at least one document, the answer is the text that the chat call
    returned and [num_sources] is the number of documents. *)
Theorem answer_question_sources (self : t) (pdf_url question : str)
    (conversation_history : option (list json)) (db : Chroma.client)
    (r : answer_data) :
  fst (answer_question self pdf_url question conversation_history db) = Ok r ->
  exists sr,
    fst (search pdf_url question 2 db) = Ok sr /\
    sources r = VectorDB.documents sr /\
    (VectorDB.documents sr = [] ->
     answer r = no_context_answer /\ num_sources r = None) /\
    (VectorDB.documents sr <> [] ->
     num_sources r = Some (len (VectorDB.documents sr)) /\
     exists messages,
       OllamaClient.chat requests_post json_loads ollama_client messages
         (Some (model self)) (Some (Config.OLLAMA_TEMPERATURE settings))
         (Some 200) = Ok (answer r)).
Proof.
  unfold QASystem.answer_question.
  destruct (search pdf_url question 2 db) as [searched db'] eqn:Hs.
  cbn [fst]. rewrite try_except_catches.
  destruct searched as [sr|e]; py_bind; [|done].
  assert (Hlen : (length (VectorDB.documents sr) <= 2)%nat).
  { apply (query_documents_length requests_post distance accepts
             md5_hexdigest settings ollama_client vector_db pdf_url question
             2 db). by rewrite Hs. }
  intros H. exists sr. split; [done|].
  destruct (VectorDB.documents sr) as [|ctx ctxs] eqn:Hdocs.
  - cbn in H. injection H as <-. done.
  - cbn [nonempty negb] in H.
    destruct (OllamaClient.chat _ _ _ ?[messages] _ _ _) as [a|e] eqn:Hchat;
      [|done].
    py_bind. injection H as <-. cbn [sources num_sources answer].
    split; [apply slice_to_short; unfold len; lia|]. split; [done|].
    intros _. split; [done|]. eauto.
Qed.

(** Every failure of [answer_question] reaches the caller as a plain
    [Exception] whose message is "Failed to answer question: " followed by
    the message of the error of the search or of the chat call. *)
Theorem answer_question_wraps_errors (self : t) (pdf_url question : str)
    (conversation_history : option (list json)) (db : Chroma.client)
    (e : exn) :
  fst (answer_question self pdf_url question conversation_history db)
    = Raise e ->
  exists cause,
    e = Exn ExceptionC (lit "Failed to answer question: " ++ str_of_exn cause) /\
    (fst (search pdf_url question 2 db) = Raise cause \/
     exists messages,
       OllamaClient.chat requests_post json_loads ollama_client messages
         (Some (model self)) (Some (Config.OLLAMA_TEMPERATURE settings))
         (Some 200) = Raise cause).
Proof.
  unfold QASystem.answer_question.
  destruct (search pdf_url question 2 db) as [searched db'] eqn:Hs.
  cbn [fst]. rewrite try_except_catches.
  destruct searched as [sr|cause]; py_bind.
  - destruct (negb (nonempty (VectorDB.documents sr))); [done|].
    destruct (OllamaClient.chat _ _ _ ?[messages] _ _ _) as [a|cause] eqn:Hchat;
      py_bind; [done|].
    intros [= <-]. exists cause. split; [done|]. right. eauto.
  - intros [= <-]. exists cause. split; [done|]. by left.
Qed.

(** Only the last two messages of the conversation history reach the
    model: the outcome of [answer_question] is the same when the history
    is replaced by its last two messages, and an empty history is the same
    as none. *)
Theorem answer_question_history_window (self : t) (pdf_url question : str)
    (history : list json) (db : Chroma.client) :
  answer_question self pdf_url question (Some history) db =
    answer_question self pdf_url question (Some (slice_from history (-2))) db /\
  answer_question self pdf_url question (Some []) db =
    answer_question self pdf_url question None db.
Proof.
  split; [|done]. unfold QASystem.answer_question.
  by rewrite slice_from_last2_idem, slice_from_last2_nonempty.
Qed.

Lemma suggestion_prompt_window (sample : str) :
  suggestion_prompt (slice_to sample 5000) = suggestion_prompt sample.
Proof.
  unfold suggestion_prompt.
  destruct (5000 <? len sample) eqn:Hlong.
  - apply Z.ltb_lt in Hlong.
    rewrite (slice_to_len sample 5000) by lia.
    by replace (5000 <? 5000) with false by done.
  - pose proof Hlong as Hb. apply Z.ltb_ge in Hlong.
    rewrite (slice_to_short sample 5000 Hlong). by rewrite Hb.
Qed.

(** [get_suggested_questions] looks at the first 5000 characters of the
    sample only: the outcome is the same for the sample cut to 5000
    characters, hence the same for two samples that agree on them. *)
Theorem get_suggested_questions_window (self : t) (sample : str) :
  get_suggested_questions self sample =
  get_suggested_questions self (slice_to sample 5000).
Proof.
  unfold QASystem.get_suggested_questions, suggestion_messages.
  by rewrite suggestion_prompt_window.
Qed.

End AnswererMore.

(** * Text extraction *)

Section Extraction.

Import PDFText PageSpec.

Variable requests_get : str -> result (Requests.response * bytes).
Variable PdfReader : bytes -> result (list (result str)).
Variable PdfReader_path : str -> result (list (result str)).

Abbreviation extract_text_from_url :=
  (PDFText.extract_text_from_url requests_get PdfReader).
Abbreviation extract_text_from_file :=
  (PDFText.extract_text_from_file PdfReader_path).
Abbreviation process_pdf :=
  (PDFText.process_pdf requests_get PdfReader PdfReader_path).

Lemma extract_pages_readable (pages : list (result str)) :
  forall text,
    extract_pages pages text =
    text ++ concat (map (fun t => t ++ newline ++ newline) (readable pages)).
Proof.
  induction pages as [|[t|e] pages IH]; intros text; cbn [extract_pages].
  - cbn. by rewrite app_nil_r.
  - rewrite IH. cbn. by rewrite <- !app_assoc.
  - apply IH.
Qed.

(** A page whose text extraction fails never fails the document: when the
    PDF is downloaded with a good status and opens, [extract_text_from_url]
    returns the texts of the readable pages in page order, each followed
    by an empty line, stripped as a whole; [extract_text_from_file] does
    the same for a file that opens. *)
Theorem extract_text_skips_failing_pages (pdf_url file_path : str)
    (response : Requests.response) (content : bytes)
    (pages pages' : list (result str)) :
  requests_get pdf_url = Ok (response, content) ->
  Requests.raise_for_status response = Ok tt ->
  PdfReader content = Ok pages ->
  PdfReader_path file_path = Ok pages' ->
  extract_text_from_url pdf_url = Ok (document_text (readable pages)) /\
  extract_text_from_file file_path = Ok (document_text (readable pages')).
Proof.
  intros Hget Hstatus Hread Hread'.
  unfold PDFText.extract_text_from_url, PDFText.extract_text_from_file.
  rewrite Hget. py_bind. cbn [fst snd]. rewrite Hstatus. py_bind.
  rewrite Hread, Hread'. py_bind. rewrite try_except_catches.
  by rewrite !extract_pages_readable.
Qed.

Lemma status_error_is_request_exception (response : Requests.response)
    (cause : exn) :
  Requests.raise_for_status response = Raise cause ->
  isinstance cause RequestExceptionC = true.
Proof.
  unfold Requests.raise_for_status.
  repeat destruct (_ && _); by intros [= <-].
Qed.

(** The errors of [extract_text_from_url] are told apart by their cause.
    When the download, the status check or the opening of the PDF fails,
    the call raises a plain [Exception] whose message is the message of
    that error after "Failed to download PDF: " if the error is a
    [requests] exception, and after "Failed to process PDF: " if it is
    not.  A 4xx or 5xx status is always reported as a failed download. *)
Theorem extract_text_from_url_errors (pdf_url : str) (cause : exn) :
  requests_get pdf_url = Raise cause \/
  (exists response content,
      requests_get pdf_url = Ok (response, content) /\
      (Requests.raise_for_status response = Raise cause \/
       Requests.raise_for_status response = Ok tt /\
       PdfReader content = Raise cause)) ->
  extract_text_from_url pdf_url =
    Raise (Exn ExceptionC
             ((if isinstance cause RequestExceptionC
               then lit "Failed to download PDF: "
               else lit "Failed to process PDF: ") ++ str_of_exn cause)) /\
  forall response content,
    requests_get pdf_url = Ok (response, content) ->
    Requests.raise_for_status response = Raise cause ->
    extract_text_from_url pdf_url =
      Raise (Exn ExceptionC
               (lit "Failed to download PDF: " ++ str_of_exn cause)).
Proof.
  intros Hstep.
  assert (Hraise : extract_text_from_url pdf_url =
            Raise (Exn ExceptionC
                     ((if isinstance cause RequestExceptionC
                       then lit "Failed to download PDF: "
                       else lit "Failed to process PDF: ")
                      ++ str_of_exn cause))).
  { unfold PDFText.extract_text_from_url.
    assert (Hblock : (response ← requests_get pdf_url;
                      _ ← Requests.raise_for_status (fst response);
                      pages ← PdfReader (snd response);
                      Ok (strip (extract_pages pages []))) = Raise cause).
    { destruct Hstep as [->|(response & content & -> & [Hs|[Hs Hp]])];
        py_bind; [done| |]; cbn [fst snd]; rewrite Hs; py_bind; [done|].
      by rewrite Hp. }
    rewrite Hblock.
    destruct (isinstance cause RequestExceptionC); [done|].
    by rewrite every_exn_is_Exception. }
  split; [done|].
  intros response content Hget Hstatus. rewrite Hraise.
  by rewrite (status_error_is_request_exception _ _ Hstatus).
Qed.

Lemma extracted_text_stripped (pdf_source : str) (is_url : bool)
    (full_text : str) :
  (if is_url then extract_text_from_url pdf_source
   else extract_text_from_file pdf_source) = Ok full_text ->
  exists raw, full_text = strip raw.
Proof.
  destruct is_url.
  - unfold PDFText.extract_text_from_url.
    destruct (requests_get pdf_source) as [[response content]|e]; py_bind.
    2:{ by repeat destruct (isinstance _ _). }
    cbn [fst snd].
    destruct (Requests.raise_for_status response) as [[]|e]; py_bind.
    2:{ by repeat destruct (isinstance _ _). }
    destruct (PdfReader content) as [pages|e]; py_bind.
    2:{ by repeat destruct (isinstance _ _). }
    intros [= <-]. eauto.
  - unfold PDFText.extract_text_from_file. rewrite try_except_catches.
    destruct (PdfReader_path pdf_source) as [pages|e]; py_bind; [|done].
    intros [= <-]. eauto.
Qed.

(** [process_pdf] with a window at least 99 characters wider than the
    overlap (the default configuration has 1000 and 200): whenever the
    text is extracted, the call returns within one iteration of the
    chunking loop per character; [total_chars] and [total_chunks] are the
    lengths of [full_text] and [chunks]; and a non-empty text has a last
    chunk whose [end_pos] is at least [total_chars]. *)
Theorem process_pdf_returns (self : PDFHandler.t) (pdf_source : str)
    (is_url : bool) (text : str) :
  0 <= PDFHandler.chunk_overlap self ->
  PDFHandler.chunk_overlap self + 99 <= PDFHandler.chunk_size self ->
  (if is_url then extract_text_from_url pdf_source
   else extract_text_from_file pdf_source) = Ok text ->
  exists data,
    process_pdf (S (length text)) self pdf_source is_url = Some (Ok data) /\
    full_text data = text /\ source data = pdf_source /\
    total_chars data = len text /\
    total_chunks data = len (chunks data) /\
    (text <> [] ->
     exists k, last (chunks data) = Some k /\
               total_chars data <= PDFHandler.end_pos k).
Proof.
  intros Hov Hwide Htext.
  destruct (extracted_text_stripped _ _ _ Htext) as [raw Hraw].
  unfold PDFText.process_pdf. rewrite Htext. clear Htext.
  destruct (last text) as [c|] eqn:Hlast.
  - assert (Hc : isspace c = false)
      by (apply (strip_last raw); by rewrite <- Hraw).
    destruct (chunk_text_wide_last self text c Hov Hwide Hlast Hc)
      as (cs & k & -> & Hk & Hend).
    eexists. split; [done|]. cbn. repeat split; eauto.
  - apply last_None in Hlast. clear Hraw. subst text.
    destruct (chunk_text_terminates self [] Hov Hwide) as [cs ->].
    eexists. split; [done|]. cbn. repeat split; done.
Qed.

End Extraction.

(** * The application layer *)

Section Strings.

Lemma startswith_app (p s : str) : startswith (p ++ s) p = true.
Proof.
  induction p as [|c p IH]; [by destruct s|].
  cbn. by rewrite N.eqb_refl, IH.
Qed.

Lemma replace_first_prefix (old new s : str) :
  replace_first old new (old ++ s) = new ++ s.
Proof.
  destruct (old ++ s) as [|c r] eqn:Hs; cbn [replace_first];
    rewrite <- Hs, startswith_app, drop_app_length; done.
Qed.

End Strings.

Section Links.

Import Main.

Lemma unique_links_elem (candidates : list str) :
  forall seen unique x,
    x ∈ unique_links candidates seen unique <->
    x ∈ unique \/ (x ∈ candidates /\ x ∉ seen).
Proof.
  induction candidates as [|link candidates IH]; intros seen unique x;
    cbn [unique_links].
  - split; [by left|]. intros [H|[H _]]; [done|]. by apply elem_of_nil in H.
  - destruct (bool_decide (link ∈ seen)) eqn:Hseen.
    + apply bool_decide_eq_true in Hseen. rewrite IH. split.
      * intros [H|[H1 H2]]; [by left|]. right. split; [by right|done].
      * intros [H|[H1 H2]]; [by left|].
        apply elem_of_cons in H1 as [->|H1]; [done|]. by right.
    + apply bool_decide_eq_false in Hseen. rewrite IH. split.
      * intros [H|[H1 H2]].
        -- apply elem_of_app in H as [H|H]; [by left|].
           apply list_elem_of_singleton in H as ->. right.
           split; [by left|done].
        -- right. split; [by right|]. intros H. apply H2. by right.
      * intros [H|[H1 H2]].
        -- left. apply elem_of_app. by left.
        -- destruct (decide (x = link)) as [->|Hne].
           ++ left. apply elem_of_app. right. by apply list_elem_of_singleton.
           ++ apply elem_of_cons in H1 as [->|H1]; [done|].
              right. split; [done|]. intros [->|H]%elem_of_cons; done.
Qed.

Lemma unique_links_NoDup (candidates : list str) :
  forall seen unique,
    NoDup unique -> (forall x, x ∈ unique -> x ∈ seen) ->
    NoDup (unique_links candidates seen unique).
Proof.
  induction candidates as [|link candidates IH]; intros seen unique Hnd Hsub;
    cbn [unique_links]; [done|].
  destruct (bool_decide (link ∈ seen)) eqn:Hseen; [by apply IH|].
  apply bool_decide_eq_false in Hseen. apply IH.
  - apply NoDup_app. split; [done|]. split; [|apply NoDup_singleton].
    intros x Hx Hl. apply list_elem_of_singleton in Hl as ->.
    by apply Hseen, Hsub.
  - intros x [H|H]%elem_of_app; [right; by apply Hsub|].
    apply list_elem_of_singleton in H as ->. by left.
Qed.

End Links.

Section Endpoint.

Import Main.

Variable requests_post : str -> json -> bool -> result Requests.response.
Variable json_loads : bytes -> result json.
Variable distance : json -> json -> float.
Variable accepts : gmap str Chroma.item -> json -> bool.
Variable on_existing : Chroma.existing_id.
Variable md5_hexdigest : str -> str.
Variable settings : Config.Settings.
Variable ollama_client : OllamaClient.t.
Variable vector_db : VectorDB.t.
Variable qa_system : QASystem.t.
Variable upload_path : str -> str.
Variable find_all : str -> str -> list (list (str * str)).
Variable urljoin : str -> str -> str.
Variable _looks_like_pdf : str -> bool.
Variable _process_pdf_source : str -> result PDFText.pdf_data.
Variable _friendly_error : exn -> str.

Abbreviation ask_question :=
  (Main.ask_question requests_post json_loads distance accepts on_existing
     md5_hexdigest settings ollama_client vector_db qa_system
     _process_pdf_source _friendly_error).
Abbreviation answer_question :=
  (QASystem.answer_question requests_post json_loads distance accepts
     md5_hexdigest settings ollama_client vector_db qa_system).
Abbreviation _extract_pdf_links :=
  (Main._extract_pdf_links find_all urljoin _looks_like_pdf).
Abbreviation collection_name := (VectorDB.create_collection_name md5_hexdigest).

(** The identifier that the upload endpoint builds, "upload_" followed by
    the file name, is recognised as an upload and resolves to the path of
    that file name, also when the file name contains "upload_" itself. *)
Theorem upload_identifier_round_trip (filename : str) :
  _is_upload_identifier (lit "upload_" ++ filename) = true /\
  _resolve_upload_path upload_path (lit "upload_" ++ filename)
    = upload_path filename.
Proof.
  split.
  - apply startswith_app.
  - unfold Main._resolve_upload_path. by rewrite replace_first_prefix.
Qed.

(** The links of [_extract_pdf_links] are pairwise distinct, each of them
    looks like a PDF, and every anchor whose joined URL looks like a PDF
    is among them. *)
Theorem extract_pdf_links_distinct (html base_url : str) :
  NoDup (_extract_pdf_links html base_url) /\
  (forall link, link ∈ _extract_pdf_links html base_url ->
                _looks_like_pdf link = true) /\
  (forall anchor href,
      anchor ∈ find_all html (lit "a") ->
      attribute (lit "href") anchor = Some href ->
      _looks_like_pdf (urljoin base_url href) = true ->
      urljoin base_url href ∈ _extract_pdf_links html base_url).
Proof.
  unfold Main._extract_pdf_links. split; [|split].
  - apply unique_links_NoDup; [constructor|]. by intros x ?%elem_of_nil.
  - intros link H. apply unique_links_elem in H as [H|[H _]];
      [by apply elem_of_nil in H|].
    apply elem_of_app in H as [H|H].
    + apply list_elem_of_omap in H as (anchor & _ & H).
      destruct (attribute (lit "href") anchor) as [href|]; [|done].
      destruct (_looks_like_pdf (urljoin base_url href)) eqn:Hl; [|done].
      by injection H as <-.
    + apply list_elem_of_In, in_concat in H as (l & H & Hl).
      apply list_elem_of_In in Hl.
      apply list_elem_of_In, list_elem_of_fmap in H as (tag_attr & -> & _).
      unfold embedded_candidates in Hl.
      apply list_elem_of_omap in Hl as (tag & _ & H).
      destruct (attribute (snd tag_attr) tag) as [src|]; [|done].
      destruct (nonempty src); [|done].
      destruct (_looks_like_pdf (urljoin base_url src)) eqn:Hl; [|done].
      by injection H as <-.
  - intros anchor href Hin Hhref Hpdf.
    apply unique_links_elem. right. split; [|by intros ?%elem_of_nil].
    apply elem_of_app. left. apply list_elem_of_omap.
    exists anchor. split; [done|]. by rewrite Hhref, Hpdf.
Qed.

Lemma ask_question_indexed (pdf_url question : str)
    (conversation_history : option (list json)) (db : Chroma.client) :
  is_Some (db !! collection_name pdf_url) ->
  ask_question pdf_url question conversation_history db =
  (match fst (answer_question pdf_url question conversation_history db) with
   | Ok answer_data => Returned answer_data
   | Raise e => internal_error _friendly_error e
   end,
   snd (answer_question pdf_url question conversation_history db)).
Proof.
  intros Hex. unfold Main.ask_question.
  apply (collection_exists_spec md5_hexdigest) in Hex.
  destruct (VectorDB.collection_exists md5_hexdigest pdf_url db)
    as [exists_ db'] eqn:Hce.
  assert (db' = db) as -> by (by injection Hce as _ <-).
  cbn [fst] in Hex. subst exists_. cbn [negb].
  destruct (answer_question pdf_url question conversation_history db)
    as [[a|e] db'']; done.
Qed.

(** Once the collection of the identifier exists, the question endpoint
    does not process the PDF again: it only runs [answer_question], and
    its outcome does not depend on the PDF source. *)
Theorem ask_question_skips_ingestion (pdf_url question : str)
    (conversation_history : option (list json)) (db : Chroma.client) :
  is_Some (db !! collection_name pdf_url) ->
  ask_question pdf_url question conversation_history db =
  (match fst (answer_question pdf_url question conversation_history db) with
   | Ok answer_data => Returned answer_data
   | Raise e => internal_error _friendly_error e
   end,
   snd (answer_question pdf_url question conversation_history db)).
Proof. apply ask_question_indexed. Qed.

End Endpoint.

Section EmptyCollection.

Import Main Session.

Variable requests_post : str -> json -> bool -> result Requests.response.
Variable json_loads : bytes -> result json.
Variable distance : json -> json -> float.
Variable accepts : gmap str Chroma.item -> json -> bool.
Variable on_existing : Chroma.existing_id.
Variable md5_hexdigest : str -> str.
Variable settings : Config.Settings.
Variable ollama_client : OllamaClient.t.
Variable vector_db : VectorDB.t.
Variable qa_system : QASystem.t.
Variable _process_pdf_source : str -> result PDFText.pdf_data.
Variable _friendly_error : exn -> str.

Abbreviation collection_name := (VectorDB.create_collection_name md5_hexdigest).

Lemma answer_question_state (pdf_url question : str)
    (conversation_history : option (list json)) (db : Chroma.client) :
  snd (QASystem.answer_question requests_post json_loads distance accepts
         md5_hexdigest settings ollama_client vector_db qa_system pdf_url
         question conversation_history db) =
  VectorDB.get_or_create_collection (collection_name pdf_url) db.
Proof.
  unfold QASystem.answer_question.
  rewrite <- (query_documents_state requests_post distance accepts
                md5_hexdigest settings ollama_client vector_db pdf_url
                question 2 db).
  by destruct (VectorDB.query_documents _ _ _ _ _ _ _ _ _ _ _).
Qed.

(** On an index that holds the collection of the identifier without a
    record, the question endpoint returns the "not enough context" answer
    and leaves the index as it is. *)
Lemma ask_question_on_empty_collection (pdf_url question : str)
    (conversation_history : option (list json)) (db : Chroma.client)
    (c : Chroma.collection) :
  db !! collection_name pdf_url = Some c -> Chroma.items c = ∅ ->
  Main.ask_question requests_post json_loads distance accepts on_existing
    md5_hexdigest settings ollama_client vector_db qa_system
    _process_pdf_source _friendly_error pdf_url question
    conversation_history db =
  (Returned {| QASystem.answer := QASystem.no_context_answer;
               QASystem.sources := [];
               QASystem.confidence := lit "low";
               QASystem.num_sources := None |}, db).
Proof.
  intros Hc Hempty.
  rewrite ask_question_indexed by eauto.
  assert (Hstored : Chroma.stored (collection_name pdf_url) db = ∅)
    by (unfold Chroma.stored; by rewrite Hc).
  rewrite answer_question_on_empty by done.
  rewrite answer_question_state.
  unfold VectorDB.get_or_create_collection, Chroma.get_or_create_collection.
  by rewrite Hc.
Qed.

End EmptyCollection.

Section Sessions.

Import Main Session.

Variable md5_hexdigest : str -> str.

(** Calls of the question endpoint for an identifier whose collection
    holds no record: each returns the "not enough context" answer, and
    the index stays as it is. *)
Lemma run_on_empty_collection (pdf_url : str) (calls : list call) :
  Forall (asks md5_hexdigest pdf_url) calls ->
  forall (db : Chroma.client) (c : Chroma.collection),
    db !! VectorDB.create_collection_name md5_hexdigest pdf_url = Some c ->
    Chroma.items c = ∅ ->
    run calls db =
    (replicate (length calls)
       (Returned {| QASystem.answer := QASystem.no_context_answer;
                    QASystem.sources := [];
                    QASystem.confidence := lit "low";
                    QASystem.num_sources := None |}), db).
Proof.
  induction 1 as [|call calls Hcall _ IH]; intros db c Hc Hempty; [done|].
  destruct Hcall. cbn [run length replicate].
  rewrite (ask_question_on_empty_collection _ _ _ _ _ _ _ _ _ _ _ _ _ _ _ _ c)
    by done.
  by rewrite (IH db c).
Qed.

End Sessions.

Section FailedIngestion.

Import Main Session.

Variable requests_post : str -> json -> bool -> result Requests.response.
Variable json_loads : bytes -> result json.
Variable distance : json -> json -> float.
Variable accepts : gmap str Chroma.item -> json -> bool.
Variable on_existing : Chroma.existing_id.
Variable md5_hexdigest : str -> str.
Variable settings : Config.Settings.
Variable ollama_client : OllamaClient.t.
Variable vector_db : VectorDB.t.
Variable qa_system : QASystem.t.
Variable _process_pdf_source : str -> result PDFText.pdf_data.
Variable _friendly_error : exn -> str.

(** An ingestion that fails in the embedding call is never repeated.
    When the question endpoint meets an identifier without a collection
    and the embedding of its chunks fails, the call ends with status 500
    and leaves the index with an empty collection for the identifier.
    From then on, calls of the endpoint for that identifier, however many
    and whatever the backends, the PDF source, the question and the
    history are by then, each find the collection, skip the ingestion and
    return the "not enough context" answer, and the index stays as the
    failed call left it. *)
Theorem ask_question_after_failed_ingestion (pdf_url question : str)
    (conversation_history : option (list json)) (db : Chroma.client)
    (pdf_data : PDFText.pdf_data) (e : exn) (later : list call) :
  db !! VectorDB.create_collection_name md5_hexdigest pdf_url = None ->
  _process_pdf_source pdf_url = Ok pdf_data ->
  VectorDB.get_embeddings requests_post settings ollama_client vector_db
    (map PDFHandler.text (PDFText.chunks pdf_data)) = Raise e ->
  Forall (asks md5_hexdigest pdf_url) later ->
  let first :=
    Main.ask_question requests_post json_loads distance accepts on_existing
      md5_hexdigest settings ollama_client vector_db qa_system
      _process_pdf_source _friendly_error pdf_url question
      conversation_history db in
  fst first = HTTPException 500 (_friendly_error e) /\
  snd first =
    <[VectorDB.create_collection_name md5_hexdigest pdf_url :=
        Chroma.Collection VectorDB.cosine_space ∅]> db /\
  run later (snd first) =
    (replicate (length later)
       (Returned {| QASystem.answer := QASystem.no_context_answer;
                    QASystem.sources := [];
                    QASystem.confidence := lit "low";
                    QASystem.num_sources := None |}),
     snd first).
Proof.
  intros Hnew Hsource Hemb Hlater first.
  set (name := VectorDB.create_collection_name md5_hexdigest pdf_url) in *.
  assert (Hfirst : first =
            (HTTPException 500 (_friendly_error e),
             <[name := Chroma.Collection VectorDB.cosine_space ∅]> db)).
  { subst first. unfold Main.ask_question.
    destruct (VectorDB.collection_exists md5_hexdigest pdf_url db)
      as [exists_ db'] eqn:Hce.
    assert (db' = db) as -> by (by injection Hce as _ <-).
    assert (exists_ = false) as ->.
    { apply not_true_is_false. intros ->.
      assert (H : fst (VectorDB.collection_exists md5_hexdigest pdf_url db)
                  = true) by (by rewrite Hce).
      apply collection_exists_spec in H as [c Hc]. fold name in Hc.
      congruence. }
    cbn [negb]. rewrite Hsource.
    unfold VectorDB.add_documents. rewrite Hemb.
    unfold internal_error. rewrite every_exn_is_Exception.
    unfold VectorDB.get_or_create_collection,
      Chroma.get_or_create_collection.
    fold name. by rewrite Hnew. }
  rewrite Hfirst. cbn [fst snd]. split; [done|]. split; [done|].
  apply (run_on_empty_collection md5_hexdigest pdf_url later Hlater _
           (Chroma.Collection VectorDB.cosine_space ∅)); [|done].
  by rewrite lookup_insert_eq.
Qed.

End FailedIngestion.

(** * More worked examples *)

Section MoreWorked.

Import MoreExamples ChunkSpec PageSpec.

(** Three sentences, three chunks. *)
Lemma chunk_text_wellformed_witness :
  map PDFHandler.chunk_id three_chunks = range (len three_chunks) /\
  Forall (cut_from cat_dog_birds) three_chunks.
Proof.
  apply (chunk_text_wellformed 4 sentences cat_dog_birds three_chunks).
  reflexivity.
Defined.

Lemma chunk_text_wide_witness :
  exists chunks,
    PDFHandler.chunk_text (S (length long_text)) wide long_text
      = Some (Ok chunks) /\
    chained (follows (PDFHandler.chunk_overlap wide)) chunks /\
    Forall (bounded wide long_text) chunks.
Proof.
  apply (chunk_text_wide wide long_text); simpl; lia.
Defined.

(** The connection drops after three fragments. *)
Lemma chat_connection_error_witness :
  OllamaClient.chat (sample_post body_cut (Some connection_reset))
    sample_json_loads sample_client hi None None (Some 5)
  = Raise (Exn ExceptionC OllamaClient.msg_cannot_connect).
Proof.
  apply (chat_connection_error (sample_post body_cut (Some connection_reset))
           sample_json_loads sample_client hi None None (Some 5)
           connection_reset).
  - right.
    exists {| Requests.status_code := 200;
              Requests.reason := lit "OK";
              Requests.url := lit "http://localhost:11434/api/chat";
              Requests.iter_lines := body_cut;
              Requests.iter_raises := Some connection_reset;
              Requests.json_ := Ok (JDict []) |}.
    repeat split; reflexivity.
  - reflexivity.
Defined.

(** A line that is no JSON, and a stalled connection, after the completion
    record. *)
Lemma chat_stops_at_done_witness :
  OllamaClient.chat (sample_post body_after_done (Some stream_timeout))
    sample_json_loads sample_client hi None None (Some 5)
  = Ok (lit "The dog").
Proof.
  apply (chat_stops_at_done
           (sample_post body_after_done (Some stream_timeout))
           sample_json_loads sample_client hi None None (Some 5)
           {| Requests.status_code := 200;
              Requests.reason := lit "OK";
              Requests.url := lit "http://localhost:11434/api/chat";
              Requests.iter_lines := body_after_done;
              Requests.iter_raises := Some stream_timeout;
              Requests.json_ := Ok (JDict []) |}
           [ollama_line " The" false; ollama_line " dog" false] [not_json]
           (ollama_line "" true) [lit " The"; lit " dog"]);
    reflexivity.
Defined.

Lemma chat_hides_transport_errors_witness :
  isinstance json_error ConnectionErrorC = false /\
  isinstance json_error TimeoutC = false.
Proof.
  apply (chat_hides_transport_errors (sample_post body_noise None)
           sample_json_loads sample_client hi None None (Some 5) json_error).
  reflexivity.
Defined.

Lemma chat_returns_stripped_witness :
  strip (lit "The dog") = lit "The dog" /\
  (forall c, head (lit "The dog") = Some c -> isspace c = false) /\
  (forall c, last (lit "The dog") = Some c -> isspace c = false).
Proof.
  apply (chat_returns_stripped (sample_post body_done None)
           sample_json_loads sample_client hi None None (Some 5)
           (lit "The dog")).
  reflexivity.
Defined.

(** The second of three texts gets status 500. *)
Lemma embeddings_fail_fast_witness :
  OllamaClient.embeddings flaky_backend sample_settings sample_client
    ([lit "good"] ++ lit "bad" :: [lit "later"]) None
  = Raise server_error.
Proof.
  apply (embeddings_fail_fast flaky_backend sample_settings sample_client
           None server_error [lit "good"] [lit "later"] (lit "bad")).
  - constructor; [|constructor]. exists sample_vector. reflexivity.
  - reflexivity.
Defined.

(** Work on the missing document leaves the collection of the animals
    document as it is. *)
Lemma other_collections_untouched_witness :
  snd (VectorDB.add_documents sample_backend sample_accepts Chroma.KeepStored
         sample_md5 sample_settings sample_client remote_db missing_pdf
         [lit "hello"] None animals_index) !! animals_collection
    = animals_index !! animals_collection /\
  snd (VectorDB.query_documents sample_backend sample_distance sample_accepts
         sample_md5 sample_settings sample_client remote_db missing_pdf
         dog_question 2 animals_index) !! animals_collection
    = animals_index !! animals_collection /\
  VectorDB.delete_collection sample_md5 missing_pdf animals_index
    !! animals_collection
    = animals_index !! animals_collection.
Proof.
  apply (other_collections_untouched sample_backend sample_distance
           sample_accepts Chroma.KeepStored sample_md5 sample_settings
           sample_client remote_db missing_pdf [lit "hello"] None dog_question
           2 animals_index animals_collection).
  vm_compute. discriminate.
Defined.

Lemma query_documents_parallel_witness :
  length (VectorDB.distances dog_results)
    = length (VectorDB.documents dog_results) /\
  length (VectorDB.metadatas dog_results)
    = length (VectorDB.documents dog_results) /\
  len (VectorDB.documents dog_results) <= Z.max 0 2 /\
  len (VectorDB.documents dog_results)
    <= Chroma.count (VectorDB.create_collection_name sample_md5 animals_pdf)
         animals_index.
Proof.
  apply (query_documents_parallel sample_backend sample_distance
           sample_accepts sample_md5 sample_settings sample_client remote_db
           animals_pdf dog_question 2 animals_index dog_results).
  vm_compute. reflexivity.
Defined.

Lemma add_documents_stores_chunks_witness :
  exists db',
    VectorDB.add_documents sample_backend sample_accepts Chroma.KeepStored
      sample_md5 sample_settings sample_client remote_db animals_pdf
      [lit "The dog ran."] None ∅
      = (Ok (VectorDB.create_collection_name sample_md5 animals_pdf), db') /\
    Chroma.count (VectorDB.create_collection_name sample_md5 animals_pdf) db'
      = len [lit "The dog ran."] /\
    forall (i : nat) (chunk : str) (embedding : json),
      [lit "The dog ran."] !! i = Some chunk ->
      [sample_vector] !! i = Some embedding ->
      Chroma.stored (VectorDB.create_collection_name sample_md5 animals_pdf) db'
        !! (lit "chunk_" ++ str_of_int (Z.of_nat i))
      = Some (Chroma.Item embedding chunk
                (JDict [(lit "chunk_index", JInt (Z.of_nat i))])).
Proof.
  apply (add_documents_stores_chunks sample_backend sample_accepts
           Chroma.KeepStored sample_md5 sample_settings sample_client
           remote_db animals_pdf [lit "The dog ran."] [sample_vector] ∅).
  - reflexivity.
  - reflexivity.
  - reflexivity.
  - reflexivity.
  - discriminate.
Defined.

Lemma search_after_ingestion_witness :
  len (VectorDB.documents dog_results) = Z.min 2 (len [lit "The dog ran."]) /\
  forall d, d ∈ VectorDB.documents dog_results -> d ∈ [lit "The dog ran."].
Proof.
  apply (search_after_ingestion sample_backend sample_distance sample_accepts
           Chroma.KeepStored sample_md5 sample_settings sample_client
           remote_db animals_pdf [lit "The dog ran."] [sample_vector] ∅
           dog_question 2 dog_results).
  - reflexivity.
  - reflexivity.
  - reflexivity.
  - reflexivity.
  - discriminate.
  - vm_compute. reflexivity.
Defined.

(** A question about a document that was never indexed, while the
    backend cannot be reached. *)
Lemma answer_question_without_context_witness :
  fst (QASystem.answer_question unreachable_backend sample_json_loads
         sample_distance sample_accepts sample_md5 sample_settings
         sample_client remote_db sample_qa missing_pdf dog_question None ∅)
  = Ok no_context.
Proof.
  apply (answer_question_without_context unreachable_backend
           sample_json_loads sample_distance sample_accepts sample_md5
           sample_settings sample_client remote_db sample_qa missing_pdf
           dog_question None ∅).
  reflexivity.
Defined.

Lemma answer_question_sources_witness :
  exists sr,
    fst (VectorDB.query_documents sample_backend sample_distance
           sample_accepts sample_md5 sample_settings sample_client remote_db
           animals_pdf dog_question 2 animals_index) = Ok sr /\
    QASystem.sources dog_answer = VectorDB.documents sr /\
    (VectorDB.documents sr = [] ->
     QASystem.answer dog_answer = QASystem.no_context_answer /\
     QASystem.num_sources dog_answer = None) /\
    (VectorDB.documents sr <> [] ->
     QASystem.num_sources dog_answer = Some (len (VectorDB.documents sr)) /\
     exists messages,
       OllamaClient.chat sample_backend sample_json_loads sample_client
         messages (Some (QASystem.model sample_qa))
         (Some (Config.OLLAMA_TEMPERATURE sample_settings)) (Some 200)
       = Ok (QASystem.answer dog_answer)).
Proof.
  apply (answer_question_sources sample_backend sample_json_loads
           sample_distance sample_accepts sample_md5 sample_settings
           sample_client remote_db sample_qa animals_pdf dog_question None
           animals_index dog_answer).
  vm_compute. reflexivity.
Defined.

(** The chat body holds a line that is no JSON. *)
Lemma answer_question_wraps_errors_witness :
  exists cause,
    wrapped_json_error
      = Exn ExceptionC (lit "Failed to answer question: " ++ str_of_exn cause) /\
    (fst (VectorDB.query_documents noisy_backend
            sample_distance sample_accepts sample_md5 sample_settings
            sample_client remote_db animals_pdf dog_question 2 animals_index)
       = Raise cause \/
     exists messages,
       OllamaClient.chat noisy_backend sample_json_loads
         sample_client messages (Some (QASystem.model sample_qa))
         (Some (Config.OLLAMA_TEMPERATURE sample_settings)) (Some 200)
       = Raise cause).
Proof.
  apply (answer_question_wraps_errors noisy_backend
           sample_json_loads sample_distance sample_accepts sample_md5
           sample_settings sample_client remote_db sample_qa animals_pdf
           dog_question None animals_index wrapped_json_error).
  vm_compute. reflexivity.
Defined.

(** Three pages, the second unreadable. *)
Lemma extract_text_skips_failing_pages_witness :
  PDFText.extract_text_from_url sample_get sample_reader animals_pdf
    = Ok (document_text (readable sample_pages)) /\
  PDFText.extract_text_from_file sample_reader_path (lit "uploads/animals.pdf")
    = Ok (document_text (readable sample_pages)).
Proof.
  apply (extract_text_skips_failing_pages sample_get sample_reader
           sample_reader_path animals_pdf (lit "uploads/animals.pdf")
           {| Requests.status_code := 200;
              Requests.reason := lit "OK";
              Requests.url := animals_pdf;
              Requests.iter_lines := [];
              Requests.iter_raises := None;
              Requests.json_ := Ok JNull |}
           pdf_bytes sample_pages sample_pages); reflexivity.
Defined.

(** Status 404. *)
Lemma extract_text_from_url_errors_witness :
  PDFText.extract_text_from_url sample_get sample_reader missing_pdf
    = Raise not_found /\
  forall response content,
    sample_get missing_pdf = Ok (response, content) ->
    Requests.raise_for_status response = Raise not_found_cause ->
    PDFText.extract_text_from_url sample_get sample_reader missing_pdf =
      Raise (Exn ExceptionC
               (lit "Failed to download PDF: " ++ str_of_exn not_found_cause)).
Proof.
  apply (extract_text_from_url_errors sample_get sample_reader missing_pdf
           not_found_cause).
  right.
  exists {| Requests.status_code := 404;
            Requests.reason := lit "Not Found";
            Requests.url := missing_pdf;
            Requests.iter_lines := [];
            Requests.iter_raises := None;
            Requests.json_ := Ok JNull |}, pdf_bytes.
  split; [reflexivity|]. left. reflexivity.
Defined.

Lemma process_pdf_returns_witness :
  exists data,
    PDFText.process_pdf sample_get sample_reader sample_reader_path
      (S (length pages_text)) PDFHandler.default animals_pdf true
      = Some (Ok data) /\
    PDFText.full_text data = pages_text /\
    PDFText.source data = animals_pdf /\
    PDFText.total_chars data = len pages_text /\
    PDFText.total_chunks data = len (PDFText.chunks data) /\
    (pages_text <> [] ->
     exists k, last (PDFText.chunks data) = Some k /\
               PDFText.total_chars data <= PDFHandler.end_pos k).
Proof.
  apply (process_pdf_returns sample_get sample_reader sample_reader_path
           PDFHandler.default animals_pdf true pages_text).
  - simpl. lia.
  - simpl. lia.
  - reflexivity.
Defined.

(** The animals document is indexed; its PDF source is not consulted. *)
Lemma ask_question_skips_ingestion_witness :
  Main.ask_question sample_backend sample_json_loads sample_distance
    sample_accepts Chroma.KeepStored sample_md5 sample_settings sample_client
    remote_db sample_qa sample_source sample_friendly animals_pdf dog_question
    None animals_index
  = (match fst (QASystem.answer_question sample_backend sample_json_loads
                  sample_distance sample_accepts sample_md5 sample_settings
                  sample_client remote_db sample_qa animals_pdf dog_question
                  None animals_index) with
     | Ok answer_data => Main.Returned answer_data
     | Raise e => Main.internal_error sample_friendly e
     end,
     snd (QASystem.answer_question sample_backend sample_json_loads
            sample_distance sample_accepts sample_md5 sample_settings
            sample_client remote_db sample_qa animals_pdf dog_question None
            animals_index)).
Proof.
  apply (ask_question_skips_ingestion sample_backend sample_json_loads
           sample_distance sample_accepts Chroma.KeepStored sample_md5
           sample_settings sample_client remote_db sample_qa sample_source
           sample_friendly animals_pdf dog_question None animals_index).
  vm_compute. eauto.
Defined.

(** The backend is down during the first question and back for the
    two questions after it. *)
Lemma ask_question_after_failed_ingestion_witness :
  fst (Main.ask_question unreachable_backend sample_json_loads
         sample_distance sample_accepts Chroma.KeepStored sample_md5
         sample_settings sample_client remote_db sample_qa sample_source
         sample_friendly animals_pdf dog_question None ∅)
    = Main.HTTPException 500 (sample_friendly connection_reset) /\
  snd (Main.ask_question unreachable_backend sample_json_loads
         sample_distance sample_accepts Chroma.KeepStored sample_md5
         sample_settings sample_client remote_db sample_qa sample_source
         sample_friendly animals_pdf dog_question None ∅)
    = <[VectorDB.create_collection_name sample_md5 animals_pdf :=
          Chroma.Collection VectorDB.cosine_space ∅]> ∅ /\
  Session.run later_calls
    (snd (Main.ask_question unreachable_backend sample_json_loads
            sample_distance sample_accepts Chroma.KeepStored sample_md5
            sample_settings sample_client remote_db sample_qa sample_source
            sample_friendly animals_pdf dog_question None ∅))
    = (replicate (length later_calls) (Main.Returned no_context),
       snd (Main.ask_question unreachable_backend sample_json_loads
              sample_distance sample_accepts Chroma.KeepStored sample_md5
              sample_settings sample_client remote_db sample_qa
              sample_source sample_friendly animals_pdf dog_question None
              ∅)).
Proof.
  apply (ask_question_after_failed_ingestion unreachable_backend
           sample_json_loads sample_distance sample_accepts
           Chroma.KeepStored sample_md5 sample_settings sample_client
           remote_db sample_qa sample_source sample_friendly animals_pdf
           dog_question None ∅
           {| PDFText.full_text := lit "hello";
              PDFText.chunks := [hello_chunk];
              PDFText.total_chunks := 1;
              PDFText.total_chars := 5;
              PDFText.source := animals_pdf |}
           connection_reset later_calls).
  - reflexivity.
  - reflexivity.
  - reflexivity.
  - repeat constructor.
Defined.



End MoreWorked.
